(** * Teslemetry integration: coordinators, climate, update and vehicle models

    A shallow embedding of the decision logic of
    [custom_components/teslemetry/{coordinator,climate,update,models}.py].

    The Python code is effectful: it mutates [self], talks to the vendor
    API, reads the wall clock and raises exceptions.  It is embedded in a
    small state-and-exception monad [M] whose state is the Python object
    ([self]) together with the log of the effects performed so far; what
    the outside world answers is given by an environment of oracles that
    see that log. *)

From Stdlib Require Import ZArith QArith List String Ascii Bool Lia.
Import ListNotations.
Open Scope string_scope.
Open Scope list_scope.
Open Scope Z_scope.

(* ================================================================== *)
(** * Python values *)
(* ================================================================== *)

Module Py.

#[local] Set Warnings "-register-all".

(** The values that travel through the integration are JSON documents and
    keyword arguments.  A finite [float] is represented by the rational
    it denotes, a [dict] by its items in insertion order. *)
Inductive pyfloat : Type :=
| Finite (q : Q)
| Inf (negative : bool)
| NaN.

Inductive pyval : Type :=
| PNone
| PBool (b : bool)
| PInt (z : Z)
| PFloat (f : pyfloat)
| PStr (s : string)
| PList (l : list pyval)
| PDict (items : list (pyval * pyval)).

Definition pydict : Type := list (pyval * pyval).

(** The numeric value of an [int], [bool] or [float]. *)
Definition py_num (v : pyval) : option pyfloat :=
  match v with
  | PBool b => Some (Finite (inject_Z (Z.b2z b)))
  | PInt z => Some (Finite (inject_Z z))
  | PFloat f => Some f
  | _ => None
  end.

(** Comparison of two numbers by value; [nan] equals nothing. *)
Definition num_eq (x y : pyfloat) : bool :=
  match x, y with
  | Finite p, Finite q => Qeq_bool p q
  | Inf a, Inf b => Bool.eqb a b
  | _, _ => false
  end.

(** [a == b] where at least one operand is a scalar, which is how the
    source uses [==], [!=] and [in]: numbers compare by value across
    [bool], [int] and [float]; strings by content; [None] only equals
    [None]; a container never equals a scalar.  The same relation decides
    whether two hashable values are the same [dict] key. *)
Definition py_eq (a b : pyval) : bool :=
  match py_num a, py_num b with
  | Some x, Some y => num_eq x y
  | _, _ =>
      match a, b with
      | PNone, PNone => true
      | PStr s, PStr t => String.eqb s t
      | _, _ => false
      end
  end.

(** Truth value of an object, as tested by [if x:] and [or]. *)
Definition py_truthy (v : pyval) : bool :=
  match v with
  | PNone => false
  | PBool b => b
  | PInt z => negb (Z.eqb z 0)
  | PFloat f => negb (num_eq f (Finite 0%Q))
  | PStr s => negb (String.eqb s EmptyString)
  | PList l => match l with [] => false | _ => true end
  | PDict d => match d with [] => false | _ => true end
  end.

Definition hashable (v : pyval) : bool :=
  match v with
  | PList _ | PDict _ => false
  | _ => true
  end.

Definition is_dict (v : pyval) : bool :=
  match v with PDict _ => true | _ => false end.

Definition is_list (v : pyval) : bool :=
  match v with PList _ => true | _ => false end.

(** ** Dictionaries *)

Fixpoint dict_lookup (d : pydict) (k : pyval) : option pyval :=
  match d with
  | [] => None
  | (k', v) :: rest => if py_eq k' k then Some v else dict_lookup rest k
  end.

(** [d[k] = v]: an existing key keeps its place (and its key object), a
    new key goes last. *)
Fixpoint dict_set (d : pydict) (k v : pyval) : pydict :=
  match d with
  | [] => [(k, v)]
  | (k', v') :: rest =>
      if py_eq k' k then (k', v) :: rest else (k', v') :: dict_set rest k v
  end.

Definition dict_keys (d : pydict) : list pyval := map fst d.

(** ** Exceptions *)

(** The exception classes of [tesla_fleet_api.exceptions] that the
    coordinators tell apart; every other subclass of [TeslaFleetError] is
    [OtherFleetError]. *)
Inductive fleet_class : Type :=
| VehicleOffline
| InternalServerError
| ServiceUnavailable
| GatewayTimeout
| DeviceUnexpectedResponse
| InvalidToken
| SubscriptionRequired
| Forbidden
| LoginRequired
| OtherFleetError.

Record fleet_exc : Type := mkFleetExc {
  exc_class : fleet_class;
  exc_message : string;
  exc_key : string
}.

Inductive exn : Type :=
| KeyError (k : pyval)
| TypeError
| AttributeError
| Fleet (e : fleet_exc)
| UpdateFailed (msg : string)
| ConfigEntryAuthFailed
| ServiceValidationError (msg : string)
| OtherError (name : string).

Inductive outcome (A : Type) : Type :=
| Ret (a : A)
| Raise (e : exn).
Arguments Ret {A} a.
Arguments Raise {A} e.

Definition obind {A B} (o : outcome A) (k : A -> outcome B) : outcome B :=
  match o with
  | Ret a => k a
  | Raise e => Raise e
  end.

(** [v[k]] for a [str] key [k], the only subscript the source applies to
    JSON: a [dict] answers or raises [KeyError]; lists and strings want
    integer indices and the other values are not subscriptable, all of
    which is a [TypeError]. *)
Definition py_getitem (v : pyval) (k : string) : outcome pyval :=
  match v with
  | PDict d =>
      match dict_lookup d (PStr k) with
      | Some x => Ret x
      | None => Raise (KeyError (PStr k))
      end
  | _ => Raise TypeError
  end.

(** [v[k] = x] for a [str] key: only a [dict] supports it. *)
Definition py_setitem (v : pyval) (k : string) (x : pyval) : outcome pyval :=
  match v with
  | PDict d => Ret (PDict (dict_set d (PStr k) x))
  | _ => Raise TypeError
  end.

(** [v.get(k, default)]: of the JSON values only a [dict] has the method. *)
Definition dict_get (d : pydict) (k : string) (default : pyval) : pyval :=
  match dict_lookup d (PStr k) with
  | Some x => x
  | None => default
  end.

Definition py_get (v : pyval) (k : string) (default : pyval) : outcome pyval :=
  match v with
  | PDict d => Ret (dict_get d k default)
  | _ => Raise AttributeError
  end.

(** What a [for] loop or a comprehension iterates over: the elements of a
    list, the keys of a dict, the characters of a string. *)
Definition py_iter (v : pyval) : outcome (list pyval) :=
  match v with
  | PList l => Ret l
  | PDict d => Ret (dict_keys d)
  | PStr s => Ret (map (fun c => PStr (String c EmptyString)) (list_ascii_of_string s))
  | _ => Raise TypeError
  end.

End Py.
Export Py.

Declare Scope py_scope.
Delimit Scope py_scope with py.
Notation "x <~ o ;; k" := (obind o (fun x => k))
  (at level 100, o at next level, right associativity) : py_scope.
Open Scope py_scope.

(* ================================================================== *)
(** * Effects *)
(* ================================================================== *)

Module Effects.

(** Requests to the vendor API made by the coordinators. *)
Inductive request : Type :=
| ReqVehicle
| ReqVehicleData
| ReqLiveStatus
| ReqSiteInfo
| ReqEnergyHistory.

(** [tesla_fleet_api.const.CabinOverheatProtectionTemp]. *)
Inductive CabinOverheatProtectionTemp : Type := LOW | MEDIUM | HIGH.

(** Vehicle commands issued by the climate entities. *)
Inductive command : Type :=
| auto_conditioning_start
| auto_conditioning_stop
| set_temps (driver_temp passenger_temp : pyval)
| set_cop_temp (level : CabinOverheatProtectionTemp)
| set_cabin_overheat_protection (on fan_only : bool).

(** What the code does to the outside world, in the order it does it. *)
Inductive event : Type :=
| EvRequest (r : request)
| EvNow
| EvFire (event_type : string)
| EvCreateIssue (e : fleet_exc)
| EvWakeUp
| EvCommand (c : command)
| EvWriteState.

Definition log : Type := list event.

(** The outside world: each oracle sees the effects performed so far. *)
Record env : Type := mkEnv {
  api_reply : log -> request -> outcome pyval;
  clock : log -> Z;
  wake_reply : log -> option exn;
  command_reply : log -> command -> option exn
}.

Section Monad.
Context {St : Type}.

Definition M (A : Type) : Type := env -> St -> log -> outcome A * St * log.

Definition ret {A} (a : A) : M A := fun _ s l => (Ret a, s, l).

Definition raise {A} (e : exn) : M A := fun _ s l => (Raise e, s, l).

Definition bind {A B} (m : M A) (k : A -> M B) : M B :=
  fun w s l =>
    match m w s l with
    | (Ret a, s', l') => k a w s' l'
    | (Raise e, s', l') => (Raise e, s', l')
    end.

Definition lift {A} (o : outcome A) : M A := fun _ s l => (o, s, l).

Definition get : M St := fun _ s l => (Ret s, s, l).

Definition modify (f : St -> St) : M unit := fun _ s l => (Ret tt, f s, l).

Definition emit (e : event) : M unit := fun _ s l => (Ret tt, s, l ++ [e]).

(** [try: body except ...: handler]; a handler that answers [None] does
    not match and the exception propagates.  Mutations made by the body
    before it raised stay. *)
Definition try_except {A} (body : M A) (handler : exn -> option (M A)) : M A :=
  fun w s l =>
    match body w s l with
    | (Ret a, s', l') => (Ret a, s', l')
    | (Raise e, s', l') =>
        match handler e with
        | Some h => h w s' l'
        | None => (Raise e, s', l')
        end
    end.

(** [await self.api.<endpoint>()]. *)
Definition api_call (r : request) : M pyval :=
  fun w s l => (api_reply w l r, s, l ++ [EvRequest r]).

(** [datetime.now()], in microseconds. *)
Definition datetime_now : M Z :=
  fun w s l => (Ret (clock w l), s, l ++ [EvNow]).

End Monad.

Arguments M : clear implicits.

Notation "x <- m ;; k" := (bind m (fun x => k))
  (at level 100, m at next level, right associativity) : py_scope.
Notation "m ;;; k" := (bind m (fun _ => k))
  (at level 100, right associativity) : py_scope.

End Effects.
Export Effects.
Open Scope py_scope.

(** ** The framework's refresh

    homeassistant's [DataUpdateCoordinator] calls [_async_update_data] on
    every tick; what the method returns becomes [self.data], and when it
    raises, [self.data] stays and the error is what the tick reports. *)
Section Refresh.
Context {St : Type}.
Variable set_data : pyval -> St -> St.
Variable update : M St pyval.

Definition refresh (w : env) (s : St) (l : log) : outcome pyval * St * log :=
  match update w s l with
  | (Ret d, s', l') => (Ret d, set_data d s', l')
  | (Raise e, s', l') => (Raise e, s', l')
  end.

(** One refresh per environment, in order; the outcomes of the ticks are
    collected. *)
Fixpoint refreshes (ws : list env) (s : St) (l : log)
  : list (outcome pyval) * St * log :=
  match ws with
  | [] => ([], s, l)
  | w :: rest =>
      let '(o, s', l') := refresh w s l in
      let '(os, s'', l'') := refreshes rest s' l' in
      (o :: os, s'', l'')
  end.

End Refresh.

(** Unfolding of the monad's operations. *)
Ltac unfold_monad :=
  cbv beta iota delta
    [bind ret raise lift Effects.get modify emit try_except api_call
     datetime_now].

(** Splits the goal on every test the code makes, innermost first. *)
Ltac split_paths :=
  repeat match goal with
         | |- context [match ?x with _ => _ end] =>
             lazymatch x with
             | context [match _ with _ => _ end] => fail
             | _ => destruct x eqn:?; simpl
             end
         end.

(* ================================================================== *)
(** * coordinator.py *)
(* ================================================================== *)

(** [timedelta] and [datetime] values are counted in microseconds, the
    resolution of both. *)
Definition timedelta_seconds (s : Z) : Z := s * 1000000.
Definition timedelta_minutes (m : Z) : Z := m * 60 * 1000000.

Definition VEHICLE_INTERVAL : Z := timedelta_seconds 30.
Definition VEHICLE_WAIT : Z := timedelta_minutes 15.
Definition ENERGY_LIVE_INTERVAL : Z := timedelta_seconds 30.
Definition ENERGY_INFO_INTERVAL : Z := timedelta_seconds 30.
Definition ENERGY_HISTORY_INTERVAL : Z := timedelta_seconds 30.

(** The classes named by
    [except (InternalServerError, ServiceUnavailable, GatewayTimeout,
    DeviceUnexpectedResponse)]. *)
Definition is_5xx (c : fleet_class) : bool :=
  match c with
  | InternalServerError | ServiceUnavailable
  | GatewayTimeout | DeviceUnexpectedResponse => true
  | _ => false
  end.

(** How the body of a [try] statement that contains a [return] ends. *)
Inductive flow : Type :=
| Return (v : pyval)
| Fallthrough (data : pyval).

Module TeslemetryVehicleDataCoordinator.

Record coordinator : Type := mkCoordinator {
  data : pyval;
  update_interval : Z;
  updated_once : bool;
  pre2021 : bool;          (* self.api.pre2021 *)
  last_active : Z;
  failures : Z
}.

Definition set_data (d : pyval) (s : coordinator) : coordinator :=
  mkCoordinator d (update_interval s) (updated_once s) (pre2021 s)
                (last_active s) (failures s).
Definition set_update_interval (i : Z) (s : coordinator) : coordinator :=
  mkCoordinator (data s) i (updated_once s) (pre2021 s)
                (last_active s) (failures s).
Definition set_updated_once (b : bool) (s : coordinator) : coordinator :=
  mkCoordinator (data s) (update_interval s) b (pre2021 s)
                (last_active s) (failures s).
Definition set_last_active (t : Z) (s : coordinator) : coordinator :=
  mkCoordinator (data s) (update_interval s) (updated_once s) (pre2021 s)
                t (failures s).
Definition set_failures (n : Z) (s : coordinator) : coordinator :=
  mkCoordinator (data s) (update_interval s) (updated_once s) (pre2021 s)
                (last_active s) n.

Section WithConst.

(** [const.py] and [helpers.py] are not among the sources: the two state
    names and [flatten] are parameters of the coordinator. *)
Variable ONLINE OFFLINE : string.
Variable flatten : pyval -> outcome pyval.

(** [self.data[k]] and [self.data[k] = x]. *)
Definition self_data_getitem (k : string) : M coordinator pyval :=
  s <- get ;; lift (py_getitem (data s) k).

Definition self_data_setitem (k : string) (x : pyval) : M coordinator unit :=
  s <- get ;;
  d <- lift (py_setitem (data s) k x) ;;
  modify (set_data d).

(** Lines 78-86, the body of the [try]. *)
Definition try_body : M coordinator flow :=
  s0 <- self_data_getitem "state" ;;
  (if negb (py_eq s0 (PStr ONLINE)) then
     response <- api_call ReqVehicle ;;
     r <- lift (py_getitem response "response") ;;
     st <- lift (py_getitem r "state") ;;
     self_data_setitem "state" st
   else ret tt) ;;;
  s1 <- self_data_getitem "state" ;;
  if negb (py_eq s1 (PStr ONLINE)) then
    s <- get ;; ret (Return (data s))
  else
    response <- api_call ReqVehicleData ;;
    d <- lift (py_getitem response "response") ;;
    ret (Fallthrough d).

(** Lines 91-94. *)
Definition on_5xx : M coordinator flow :=
  modify (fun s => set_failures (failures s + 1) s) ;;;
  s <- get ;;
  if failures s >? 2 then raise (UpdateFailed "Multiple 5xx failures")
  else ret (Return (data s)).

(** Lines 87-113, the [except] clauses in their order. *)
Definition handlers (e : exn) : option (M coordinator flow) :=
  match e with
  | Fleet f =>
      Some
        (match exc_class f with
         | VehicleOffline =>
             self_data_setitem "state" (PStr OFFLINE) ;;;
             s <- get ;; ret (Return (data s))
         | InternalServerError | ServiceUnavailable
         | GatewayTimeout | DeviceUnexpectedResponse => on_5xx
         | InvalidToken => raise ConfigEntryAuthFailed
         | SubscriptionRequired | Forbidden | LoginRequired =>
             emit (EvCreateIssue f) ;;;
             raise (UpdateFailed (exc_message f))
         | OtherFleetError => raise (UpdateFailed (exc_message f))
         end)
  | TypeError => Some (raise (UpdateFailed "Invalid response from Teslemetry"))
  | _ => None
  end.

(** Line 120: [a or b or c] evaluates left to right and stops at the
    first true operand. *)
Definition is_active (d : pyval) : outcome bool :=
  cs <~ py_getitem d "charge_state" ;;
  c <~ py_get cs "charging_state" PNone ;;
  if py_eq c (PStr "Charging") then Ret true
  else
    vs <~ py_getitem d "vehicle_state" ;;
    u <~ py_get vs "is_user_present" PNone ;;
    if py_truthy u then Ret true
    else
      vs' <~ py_getitem d "vehicle_state" ;;
      m <~ py_get vs' "sentry_mode" PNone ;;
      Ret (py_truthy m).

(** Lines 119-134. *)
Definition handle_pre2021 (d : pyval) : M coordinator unit :=
  active <- lift (is_active d) ;;
  if active then
    now <- datetime_now ;;
    modify (set_last_active now) ;;;
    modify (set_update_interval VEHICLE_INTERVAL)
  else
    now <- datetime_now ;;
    s <- get ;;
    let elapsed := now - last_active s in
    if elapsed >? timedelta_minutes 20 then
      now' <- datetime_now ;;
      modify (set_last_active now')
    else if elapsed >? timedelta_minutes 15 then
      modify (set_update_interval VEHICLE_WAIT)
    else ret tt.

Definition _async_update_data : M coordinator pyval :=
  modify (set_update_interval VEHICLE_INTERVAL) ;;;
  fl <- try_except try_body handlers ;;
  match fl with
  | Return v => ret v
  | Fallthrough d =>
      modify (set_failures 0) ;;;
      emit (EvFire "teslemetry_vehicle_data") ;;;
      s <- get ;;
      (if pre2021 s then handle_pre2021 d else ret tt) ;;;
      modify (set_updated_once true) ;;;
      lift (flatten d)
  end.

End WithConst.

End TeslemetryVehicleDataCoordinator.

(** ** The three energy-site coordinators

    [TeslemetryEnergySiteLiveCoordinator], [...InfoCoordinator] and
    [...HistoryCoordinator] carry the same two attributes and open with
    the same [try] statement, up to the endpoint they call. *)
Module Energy.

Record coordinator : Type := mkCoordinator {
  data : pyval;
  failures : Z
}.

Definition set_data (d : pyval) (s : coordinator) : coordinator :=
  mkCoordinator d (failures s).
Definition set_failures (n : Z) (s : coordinator) : coordinator :=
  mkCoordinator (data s) n.

(** Lines 164-167, 215-218 and 256-259. *)
Definition on_5xx : M coordinator flow :=
  modify (fun s => set_failures (failures s + 1) s) ;;;
  s <- get ;;
  if failures s >? 2 then raise (UpdateFailed "Multiple 5xx failures")
  else ret (Return (data s)).

(** The [except] clauses of lines 161-171, 212-222 and 253-263. *)
Definition handlers (e : exn) : option (M coordinator flow) :=
  match e with
  | Fleet f =>
      Some
        (match exc_class f with
         | InvalidToken => raise ConfigEntryAuthFailed
         | InternalServerError | ServiceUnavailable
         | GatewayTimeout | DeviceUnexpectedResponse => on_5xx
         | _ => raise (UpdateFailed (exc_message f))
         end)
  | TypeError => Some (raise (UpdateFailed "Invalid response from Teslemetry"))
  | _ => None
  end.

(** [try: data = (await self.api.<endpoint>())["response"] except ...]. *)
Definition fetch (r : request) : M coordinator flow :=
  try_except
    (response <- api_call r ;;
     d <- lift (py_getitem response "response") ;;
     ret (Fallthrough d))
    handlers.

(** [if(not isinstance(data, dict)): data = {}]. *)
Definition placeholder (d : pyval) : pyval :=
  if is_dict d then d else PDict [].

End Energy.

Module TeslemetryEnergySiteLiveCoordinator.
Import Energy.

(** [{wc["din"]: wc for wc in ...}], filling [acc] from left to right. *)
Fixpoint by_din (wcs : list pyval) (acc : pydict) : outcome pydict :=
  match wcs with
  | [] => Ret acc
  | wc :: rest =>
      match py_getitem wc "din" with
      | Ret din =>
          if hashable din then by_din rest (dict_set acc din wc)
          else Raise TypeError
      | Raise e => Raise e
      end
  end.

Definition _async_update_data : M coordinator pyval :=
  fl <- fetch ReqLiveStatus ;;
  match fl with
  | Return v => ret v
  | Fallthrough d =>
      let d := placeholder d in
      emit (EvFire "teslemetry_live_status") ;;;
      wcs <- lift (py_get d "wall_connectors" PNone) ;;
      if is_list wcs then
        l <- lift (py_getitem d "wall_connectors") ;;
        items <- lift (py_iter l) ;;
        m <- lift (by_din items []) ;;
        lift (py_setitem d "wall_connectors" (PDict m))
      else
        lift (py_setitem d "wall_connectors" (PDict []))
  end.

End TeslemetryEnergySiteLiveCoordinator.

Module TeslemetryEnergySiteInfoCoordinator.
Import Energy.

Section WithConst.
Variable flatten : pyval -> outcome pyval.

Definition _async_update_data : M coordinator pyval :=
  fl <- fetch ReqSiteInfo ;;
  match fl with
  | Return v => ret v
  | Fallthrough d =>
      let d := placeholder d in
      emit (EvFire "teslemetry_site_info") ;;;
      lift (flatten d)
  end.

End WithConst.
End TeslemetryEnergySiteInfoCoordinator.

Module TeslemetryEnergyHistoryCoordinator.
Import Energy.

Section WithConst.

(** [const.ENERGY_HISTORY_FIELDS] is not among the sources. *)
Variable ENERGY_HISTORY_FIELDS : list string.

(** Binary64 arithmetic is kept abstract: the rounded sum of two floats
    and the conversion of an [int], which raises [OverflowError] when the
    integer is out of range. *)
Variable float_add : pyfloat -> pyfloat -> pyfloat.
Variable float_of_int : Z -> outcome pyfloat.

Definition as_int (v : pyval) : option Z :=
  match v with
  | PBool b => Some (Z.b2z b)
  | PInt z => Some z
  | _ => None
  end.

(** [x + y] for a number [x], which is what [output[key]] always is: it
    starts at [0] and a number plus anything else is a [TypeError]. *)
Definition num_add (x y : pyval) : outcome pyval :=
  match as_int x, as_int y with
  | Some a, Some b => Ret (PInt (a + b))
  | _, _ =>
      match x, y with
      | PFloat f, PFloat g => Ret (PFloat (float_add f g))
      | PFloat f, _ =>
          match as_int y with
          | Some b =>
              match float_of_int b with
              | Ret g => Ret (PFloat (float_add f g))
              | Raise e => Raise e
              end
          | None => Raise TypeError
          end
      | _, PFloat g =>
          match as_int x with
          | Some a =>
              match float_of_int a with
              | Ret f => Ret (PFloat (float_add f g))
              | Raise e => Raise e
              end
          | None => Raise TypeError
          end
      | _, _ => Raise TypeError
      end
  end.

(** [{key: 0 for key in ENERGY_HISTORY_FIELDS}]. *)
Definition zeros : pydict :=
  fold_left (fun acc key => dict_set acc (PStr key) (PInt 0))
            ENERGY_HISTORY_FIELDS [].

(** [output[key] += period.get(key, 0)]. *)
Definition add_field (period : pyval) (output : pydict) (key : string)
  : outcome pydict :=
  match py_getitem (PDict output) key with
  | Raise e => Raise e
  | Ret cur =>
      match py_get period key (PInt 0) with
      | Raise e => Raise e
      | Ret v =>
          match num_add cur v with
          | Raise e => Raise e
          | Ret sum => Ret (dict_set output (PStr key) sum)
          end
      end
  end.

(** [for key in ENERGY_HISTORY_FIELDS: ...] *)
Fixpoint add_period (period : pyval) (keys : list string) (output : pydict)
  : outcome pydict :=
  match keys with
  | [] => Ret output
  | key :: rest =>
      match add_field period output key with
      | Ret output' => add_period period rest output'
      | Raise e => Raise e
      end
  end.

(** [for period in data.get("time_series", []): ...] *)
Fixpoint add_periods (periods : list pyval) (output : pydict)
  : outcome pydict :=
  match periods with
  | [] => Ret output
  | period :: rest =>
      match add_period period ENERGY_HISTORY_FIELDS output with
      | Ret output' => add_periods rest output'
      | Raise e => Raise e
      end
  end.

Definition _async_update_data : M coordinator pyval :=
  fl <- fetch ReqEnergyHistory ;;
  match fl with
  | Return v => ret v
  | Fallthrough d =>
      let d := placeholder d in
      ts <- lift (py_get d "time_series" (PList [])) ;;
      periods <- lift (py_iter ts) ;;
      output <- lift (add_periods periods zeros) ;;
      ret (PDict output)
  end.

End WithConst.
End TeslemetryEnergyHistoryCoordinator.

(* ================================================================== *)
(** * entity.py (base class of the entities) *)
(* ================================================================== *)

Module TeslemetryVehicleEntity.

Section Base.
Context {St : Type}.

(** Modelled from the spec: [entity.py] is not among the sources.  An
    entity reads "the coordinator's cached snapshot via a known key";
    [coordinator_data] projects that snapshot out of the entity. *)
Definition get (coordinator_data : St -> pyval) (key : string)
  (default : pyval) : M St pyval :=
  s <- Effects.get ;; lift (py_get (coordinator_data s) key default).

(** Modelled from the spec: command methods "first verify the required
    authorization scope is held (else fail with an authorization
    error)". *)
Definition raise_for_scope (scoped : St -> bool) : M St unit :=
  s <- Effects.get ;;
  if scoped s then ret tt else raise (ServiceValidationError "missing_scope").

(** Modelled from the spec: command methods "ensure the vehicle is not
    asleep (waking it if necessary...)"; whether that succeeds is up to
    the vehicle. *)
Definition wake_up_if_asleep : M St unit :=
  fun w s l =>
    (match wake_reply w l with None => Ret tt | Some e => Raise e end,
     s, l ++ [EvWakeUp]).

(** Modelled from the spec: the vendor command is issued, and the vendor
    accepts it or the call fails. *)
Definition handle_command (c : command) : M St unit :=
  fun w s l =>
    (match command_reply w l c with None => Ret tt | Some e => Raise e end,
     s, l ++ [EvCommand c]).

Definition async_write_ha_state : M St unit := emit EvWriteState.

End Base.

End TeslemetryVehicleEntity.

(* ================================================================== *)
(** * climate.py *)
(* ================================================================== *)

(** [homeassistant.components.climate.HVACMode], a [StrEnum]. *)
Module HVACMode.
Definition OFF : pyval := PStr "off".
Definition COOL : pyval := PStr "cool".
Definition HEAT_COOL : pyval := PStr "heat_cool".
Definition FAN_ONLY : pyval := PStr "fan_only".
End HVACMode.

Definition ATTR_TEMPERATURE : string := "temperature".
Definition ATTR_HVAC_MODE : string := "hvac_mode".

Definition DEFAULT_MIN_TEMP : Z := 15.
Definition DEFAULT_MAX_TEMP : Z := 28.

Definition is_none (v : pyval) : bool :=
  match v with PNone => true | _ => false end.

Module TeslemetryClimateEntity.
Import TeslemetryVehicleEntity.

Record entity : Type := mkEntity {
  coordinator_data : pyval;       (* self.coordinator.data *)
  key : string;                   (* the climate side *)
  scoped : bool;
  _attr_hvac_mode : pyval;
  _attr_current_temperature : pyval;
  _attr_target_temperature : pyval;
  _attr_fan_mode : pyval;
  _attr_preset_mode : pyval;
  _attr_min_temp : pyval;
  _attr_max_temp : pyval
}.

Definition set_hvac_mode (v : pyval) (s : entity) : entity :=
  mkEntity (coordinator_data s) (key s) (scoped s) v
    (_attr_current_temperature s) (_attr_target_temperature s)
    (_attr_fan_mode s) (_attr_preset_mode s) (_attr_min_temp s) (_attr_max_temp s).
Definition set_current_temperature (v : pyval) (s : entity) : entity :=
  mkEntity (coordinator_data s) (key s) (scoped s) (_attr_hvac_mode s)
    v (_attr_target_temperature s)
    (_attr_fan_mode s) (_attr_preset_mode s) (_attr_min_temp s) (_attr_max_temp s).
Definition set_target_temperature (v : pyval) (s : entity) : entity :=
  mkEntity (coordinator_data s) (key s) (scoped s) (_attr_hvac_mode s)
    (_attr_current_temperature s) v
    (_attr_fan_mode s) (_attr_preset_mode s) (_attr_min_temp s) (_attr_max_temp s).
Definition set_fan_mode (v : pyval) (s : entity) : entity :=
  mkEntity (coordinator_data s) (key s) (scoped s) (_attr_hvac_mode s)
    (_attr_current_temperature s) (_attr_target_temperature s)
    v (_attr_preset_mode s) (_attr_min_temp s) (_attr_max_temp s).
Definition set_preset_mode (v : pyval) (s : entity) : entity :=
  mkEntity (coordinator_data s) (key s) (scoped s) (_attr_hvac_mode s)
    (_attr_current_temperature s) (_attr_target_temperature s)
    (_attr_fan_mode s) v (_attr_min_temp s) (_attr_max_temp s).
Definition set_min_temp (v : pyval) (s : entity) : entity :=
  mkEntity (coordinator_data s) (key s) (scoped s) (_attr_hvac_mode s)
    (_attr_current_temperature s) (_attr_target_temperature s)
    (_attr_fan_mode s) (_attr_preset_mode s) v (_attr_max_temp s).
Definition set_max_temp (v : pyval) (s : entity) : entity :=
  mkEntity (coordinator_data s) (key s) (scoped s) (_attr_hvac_mode s)
    (_attr_current_temperature s) (_attr_target_temperature s)
    (_attr_fan_mode s) (_attr_preset_mode s) (_attr_min_temp s) v.

Definition _attr_preset_modes : list string := ["off"; "keep"; "dog"; "camp"].
Definition _attr_fan_modes : list string := ["off"; "bioweapon"].

Definition _async_update_attrs : M entity unit :=
  value <- get coordinator_data "climate_state_is_climate_on" PNone ;;
  (if is_none value then modify (set_hvac_mode PNone) else ret tt) ;;;
  (if py_truthy value then modify (set_hvac_mode HVACMode.HEAT_COOL)
   else modify (set_hvac_mode HVACMode.OFF)) ;;;
  t <- get coordinator_data "climate_state_inside_temp" PNone ;;
  modify (set_current_temperature t) ;;;
  s <- Effects.get ;;
  t <- get coordinator_data ("climate_state_" ++ key s ++ "_setting")%string PNone ;;
  modify (set_target_temperature t) ;;;
  p <- get coordinator_data "climate_state_climate_keeper_mode" PNone ;;
  modify (set_preset_mode p) ;;;
  b <- get coordinator_data "climate_state_bioweapon_mode" PNone ;;
  (if py_truthy b then modify (set_fan_mode (PStr "bioweapon"))
   else modify (set_fan_mode (PStr "off"))) ;;;
  lo <- get coordinator_data "climate_state_min_avail_temp" (PInt DEFAULT_MIN_TEMP) ;;
  modify (set_min_temp lo) ;;;
  hi <- get coordinator_data "climate_state_max_avail_temp" (PInt DEFAULT_MAX_TEMP) ;;
  modify (set_max_temp hi).

Definition async_turn_on : M entity unit :=
  raise_for_scope scoped ;;;
  wake_up_if_asleep ;;;
  handle_command auto_conditioning_start ;;;
  modify (set_hvac_mode HVACMode.HEAT_COOL) ;;;
  async_write_ha_state.

Definition async_turn_off : M entity unit :=
  raise_for_scope scoped ;;;
  wake_up_if_asleep ;;;
  handle_command auto_conditioning_stop ;;;
  modify (set_hvac_mode HVACMode.OFF) ;;;
  modify (set_preset_mode (PStr (hd EmptyString _attr_preset_modes))) ;;;
  modify (set_fan_mode (PStr (hd EmptyString _attr_fan_modes))) ;;;
  async_write_ha_state.

Definition async_set_hvac_mode (hvac_mode : pyval) : M entity unit :=
  if py_eq hvac_mode HVACMode.OFF then async_turn_off else async_turn_on.

Definition async_set_temperature (kwargs : pydict) : M entity unit :=
  temp <- lift (py_getitem (PDict kwargs) ATTR_TEMPERATURE) ;;
  (if py_truthy temp then
     raise_for_scope scoped ;;;
     wake_up_if_asleep ;;;
     handle_command (set_temps temp temp) ;;;
     modify (set_target_temperature temp)
   else ret tt) ;;;
  mode <- lift (py_getitem (PDict kwargs) ATTR_HVAC_MODE) ;;
  if py_truthy mode then async_set_hvac_mode mode
  else async_write_ha_state.

End TeslemetryClimateEntity.

Module TeslemetryCabinOverheatProtectionEntity.
Import TeslemetryVehicleEntity.

Record entity : Type := mkEntity {
  coordinator_data : pyval;
  scoped : bool;
  _attr_hvac_mode : pyval;
  _attr_current_temperature : pyval;
  _attr_target_temperature : pyval
}.

Definition set_hvac_mode (v : pyval) (s : entity) : entity :=
  mkEntity (coordinator_data s) (scoped s) v
    (_attr_current_temperature s) (_attr_target_temperature s).
Definition set_target_temperature (v : pyval) (s : entity) : entity :=
  mkEntity (coordinator_data s) (scoped s) (_attr_hvac_mode s)
    (_attr_current_temperature s) v.

Definition async_set_hvac_mode (hvac_mode : pyval) : M entity unit :=
  raise_for_scope scoped ;;;
  wake_up_if_asleep ;;;
  (if py_eq hvac_mode HVACMode.OFF then
     handle_command (set_cabin_overheat_protection false false)
   else if py_eq hvac_mode HVACMode.COOL then
     handle_command (set_cabin_overheat_protection true false)
   else if py_eq hvac_mode HVACMode.FAN_ONLY then
     handle_command (set_cabin_overheat_protection true true)
   else ret tt) ;;;
  modify (set_hvac_mode hvac_mode) ;;;
  async_write_ha_state.

(** Lines 304-311: the level for a requested temperature. *)
Definition cop_mode_of (temp : pyval) : outcome CabinOverheatProtectionTemp :=
  if py_eq temp (PInt 30) then Ret LOW
  else if py_eq temp (PInt 35) then Ret MEDIUM
  else if py_eq temp (PInt 40) then Ret HIGH
  else Raise (ServiceValidationError "Invalid temperature").

Definition async_set_temperature (kwargs : pydict) : M entity unit :=
  temp <- lift (py_getitem (PDict kwargs) ATTR_TEMPERATURE) ;;
  (if py_truthy temp then
     cop_mode <- lift (cop_mode_of temp) ;;
     raise_for_scope scoped ;;;
     wake_up_if_asleep ;;;
     handle_command (set_cop_temp cop_mode) ;;;
     modify (set_target_temperature temp)
   else ret tt) ;;;
  mode <- lift (py_getitem (PDict kwargs) ATTR_HVAC_MODE) ;;
  if py_truthy mode then async_set_hvac_mode mode
  else async_write_ha_state.

End TeslemetryCabinOverheatProtectionEntity.

(* ================================================================== *)
(** * update.py *)
(* ================================================================== *)

(** [homeassistant.components.update.UpdateEntityFeature], an [IntFlag]. *)
Module UpdateEntityFeature.
Definition INSTALL : Z := 1.
Definition PROGRESS : Z := 4.
End UpdateEntityFeature.

(** [s.split(" ")]: the pieces of [s] between occurrences of the space
    character; never empty. *)
Fixpoint split_space (s : string) : list string :=
  match s with
  | EmptyString => [EmptyString]
  | String c rest =>
      if Ascii.eqb c " "%char then EmptyString :: split_space rest
      else
        match split_space rest with
        | [] => [String c EmptyString]
        | piece :: pieces => String c piece :: pieces
        end
  end.

Module TeslemetryUpdateEntity.
Import TeslemetryVehicleEntity.

Record entity : Type := mkEntity {
  coordinator_data : pyval;
  scoped : bool;
  _attr_supported_features : Z;
  _attr_installed_version : pyval;
  _attr_latest_version : pyval;
  _attr_in_progress : pyval
}.

Definition set_supported_features (f : Z) (s : entity) : entity :=
  mkEntity (coordinator_data s) (scoped s) f (_attr_installed_version s)
    (_attr_latest_version s) (_attr_in_progress s).
Definition set_installed_version (v : pyval) (s : entity) : entity :=
  mkEntity (coordinator_data s) (scoped s) (_attr_supported_features s) v
    (_attr_latest_version s) (_attr_in_progress s).
Definition set_latest_version (v : pyval) (s : entity) : entity :=
  mkEntity (coordinator_data s) (scoped s) (_attr_supported_features s)
    (_attr_installed_version s) v (_attr_in_progress s).
Definition set_in_progress (v : pyval) (s : entity) : entity :=
  mkEntity (coordinator_data s) (scoped s) (_attr_supported_features s)
    (_attr_installed_version s) (_attr_latest_version s) v.

(** The key the entity is created with (line 45). *)
Definition key : string := "vehicle_state_software_update_status".

Section WithConst.

(** [const.TeslemetryUpdateStatus] is not among the sources: its five
    members used here are parameters. *)
Variables AVAILABLE SCHEDULED INSTALLING DOWNLOADING WIFI_WAIT : string.

(** Modelled from the spec: [self._value] is defined in [entity.py]; it
    is the entity's own value, read from the snapshot under its key. *)
Definition _value : M entity pyval := get coordinator_data key PNone.

(** [x in (a, b, ...)]. *)
Definition py_in (x : pyval) (members : list string) : bool :=
  existsb (fun m => py_eq x (PStr m)) members.

(** Lines 66-68: [None] stays, a string loses its build suffix, any other
    value has no [split]. *)
Definition remove_build (v : pyval) : outcome pyval :=
  match v with
  | PNone => Ret PNone
  | PStr s => Ret (PStr (hd EmptyString (split_space s)))
  | _ => Raise AttributeError
  end.

Definition _async_update_attrs : M entity unit :=
  (* Supported Features: [and] reads [self._value] only when scoped *)
  s <- Effects.get ;;
  installable <- (if scoped s then
                    v <- _value ;; ret (py_in v [AVAILABLE; SCHEDULED])
                  else ret false) ;;
  (if installable : bool then
     modify (set_supported_features
               (Z.lor UpdateEntityFeature.PROGRESS UpdateEntityFeature.INSTALL))
   else modify (set_supported_features UpdateEntityFeature.PROGRESS)) ;;;
  (* Installed Version *)
  raw <- get coordinator_data "vehicle_state_car_version" PNone ;;
  modify (set_installed_version raw) ;;;
  installed <- lift (remove_build raw) ;;
  modify (set_installed_version installed) ;;;
  (* Latest Version *)
  v <- _value ;;
  (if py_in v [AVAILABLE; SCHEDULED; INSTALLING; DOWNLOADING; WIFI_WAIT] then
     s <- Effects.get ;;
     latest <- lift (py_getitem (coordinator_data s)
                                "vehicle_state_software_update_version") ;;
     modify (set_latest_version latest)
   else
     s <- Effects.get ;;
     modify (set_latest_version (_attr_installed_version s))) ;;;
  (* In Progress *)
  v <- _value ;;
  if py_in v [SCHEDULED; INSTALLING] then
    p <- get coordinator_data "vehicle_state_software_update_install_perc" PNone ;;
    modify (set_in_progress p)
  else modify (set_in_progress (PBool false)).

End WithConst.

End TeslemetryUpdateEntity.

(* ================================================================== *)
(** * models.py *)
(* ================================================================== *)

Module Models.

(** Objects live in a store; an [asyncio.Lock] is a cell that is held or
    free. *)
Definition ref : Type := nat.

Record store : Type := mkStore {
  locks : list bool          (* [nth r] is true while lock [r] is held *)
}.

(** [asyncio.Lock()]: a new, free lock. *)
Definition asyncio_Lock (h : store) : ref * store :=
  (List.length (locks h), mkStore (locks h ++ [false])).

Definition locked (h : store) (r : ref) : bool := nth r (locks h) false.

Fixpoint set_nth (l : list bool) (n : nat) (b : bool) : list bool :=
  match l, n with
  | [], _ => []
  | _ :: t, O => b :: t
  | x :: t, Datatypes.S m => x :: set_nth t m b
  end.

(** [async with lock:] entered without waiting: [None] when the lock is
    held and the caller has to wait for its release. *)
Definition acquire (h : store) (r : ref) : option store :=
  if locked h r then None else Some (mkStore (set_nth (locks h) r true)).

Inductive value : Type :=
| VLock (r : ref)
| VStr (s : string)
| VTuple
| VObject (name : string).   (* an API handle, coordinator, stream, device *)

(** A statement of a class body: an annotated name, with or without a
    default, or a plain assignment. *)
Inductive class_stmt : Type :=
| Annotated (name : string) (default : option value)
| Assigned (name : string) (v : value).

(** The body of [class TeslemetryVehicleData] (lines 37-45), once its
    right-hand sides are evaluated: that happens one time, when the
    module is imported.  Lines 44 and 45 each call [dt_util.utcnow()]:
    [alert_time] and [error_time] are the two readings, in that
    order. *)
Definition TeslemetryVehicleData_body (wakelock : ref)
  (alert_time error_time : string) : list class_stmt :=
  [ Annotated "api" None;
    Annotated "coordinator" None;
    Annotated "stream" None;
    Annotated "vin" None;
    Annotated "device" None;
    Assigned "wakelock" (VLock wakelock);
    Annotated "last_alert" (Some (VStr alert_time));
    Annotated "last_error" (Some (VStr error_time));
    Annotated "remove_listeners" (Some VTuple) ].

(** What [@dataclass] makes of a class body: the annotated names are the
    fields, set on each instance by the generated [__init__]; the names
    with a value are also attributes of the class. *)
Definition dataclass_fields (body : list class_stmt) : list (string * option value) :=
  flat_map (fun st => match st with
                      | Annotated n d => [(n, d)]
                      | Assigned _ _ => []
                      end) body.

Definition class_attributes (body : list class_stmt) : list (string * value) :=
  flat_map (fun st => match st with
                      | Annotated n (Some v) => [(n, v)]
                      | Annotated _ None => []
                      | Assigned n v => [(n, v)]
                      end) body.

Record class : Type := mkClass {
  fields : list (string * option value);
  attributes : list (string * value)
}.

Definition dataclass (body : list class_stmt) : class :=
  mkClass (dataclass_fields body) (class_attributes body).

(** Importing [models.py] runs the class body. *)
Definition define_TeslemetryVehicleData (alert_time error_time : string)
  (h : store) : class * store :=
  let '(r, h') := asyncio_Lock h in
  (dataclass (TeslemetryVehicleData_body r alert_time error_time), h').

Fixpoint assoc {A} (name : string) (l : list (string * A)) : option A :=
  match l with
  | [] => None
  | (n, v) :: rest => if String.eqb n name then Some v else assoc name rest
  end.

(** An instance is its own attribute dictionary plus its class. *)
Record instance : Type := mkInstance {
  instance_class : class;
  instance_dict : list (string * value)
}.

(** The generated [__init__]: one entry per field, taken from the keyword
    arguments or else from the default; [None] when a field without a
    default is not given. *)
Fixpoint init_fields (fs : list (string * option value))
  (args : list (string * value)) : option (list (string * value)) :=
  match fs with
  | [] => Some []
  | (n, d) :: rest =>
      match (match assoc n args with Some v => Some v | None => d end),
            init_fields rest args with
      | Some v, Some tail => Some ((n, v) :: tail)
      | _, _ => None
      end
  end.

Definition new (c : class) (args : list (string * value)) : option instance :=
  match init_fields (fields c) args with
  | Some d => Some (mkInstance c d)
  | None => None
  end.

(** [obj.name]: the instance dictionary first, then the class. *)
Definition getattr (o : instance) (name : string) : option value :=
  match assoc name (instance_dict o) with
  | Some v => Some v
  | None => assoc name (attributes (instance_class o))
  end.

End Models.

(* ================================================================== *)
(** * Facts about dictionaries *)
(* ================================================================== *)

Lemma py_eq_str_inv (a : pyval) (s : string) :
  py_eq a (PStr s) = true -> a = PStr s.
Proof.
  destruct a; unfold py_eq; simpl; try discriminate.
  intros H. apply String.eqb_eq in H. now subst.
Qed.

Lemma py_eq_str_refl (s : string) : py_eq (PStr s) (PStr s) = true.
Proof. unfold py_eq; simpl. apply String.eqb_refl. Qed.

Lemma dict_lookup_set_same (d : pydict) (k : string) (v : pyval) :
  dict_lookup (dict_set d (PStr k) v) (PStr k) = Some v.
Proof.
  induction d as [|[k' v'] d IH]; simpl.
  - now rewrite py_eq_str_refl.
  - destruct (py_eq k' (PStr k)) eqn:E; simpl; rewrite E; auto.
Qed.

Lemma dict_lookup_set_other (d : pydict) (k : string) (v q : pyval) :
  py_eq (PStr k) q = false ->
  dict_lookup (dict_set d (PStr k) v) q = dict_lookup d q.
Proof.
  intros Hq. induction d as [|[k' v'] d IH]; simpl.
  - now rewrite Hq.
  - destruct (py_eq k' (PStr k)) eqn:E; simpl.
    + apply py_eq_str_inv in E. subst k'. now rewrite Hq.
    + now rewrite IH.
Qed.

Lemma dict_keys_set_present (d : pydict) (k : string) (v x : pyval) :
  dict_lookup d (PStr k) = Some x ->
  dict_keys (dict_set d (PStr k) v) = dict_keys d.
Proof.
  unfold dict_keys.
  induction d as [|[k' v'] d IH]; simpl; [discriminate|].
  destruct (py_eq k' (PStr k)) eqn:E; simpl; [reflexivity|].
  intros H. now rewrite IH.
Qed.

(* ================================================================== *)
(** * Worlds and coordinators to run the code on *)
(* ================================================================== *)

Module Sample.

(** An API that answers every request the same way whatever happened
    before, a clock that stands still, a vehicle that wakes up and
    accepts every command. *)
Definition answering (reply : request -> outcome pyval) (now : Z) : env :=
  mkEnv (fun _ r => reply r) (fun _ => now) (fun _ => None) (fun _ _ => None).

Definition failing (c : fleet_class) : request -> outcome pyval :=
  fun _ => Raise (Fleet (mkFleetExc c "message" "KEY")).

(** A [flatten] that leaves its argument as it is. *)
Definition echo (v : pyval) : outcome pyval := Ret v.

Definition online_snapshot : pyval :=
  PDict [(PStr "state", PStr "online"); (PStr "vin", PStr "5YJ3")].

Definition asleep_snapshot : pyval :=
  PDict [(PStr "state", PStr "asleep"); (PStr "vin", PStr "5YJ3")].

(** The answer of the summary endpoint for a sleeping vehicle. *)
Definition asleep_summary : request -> outcome pyval :=
  fun _ => Ret (PDict [(PStr "response",
                        PDict [(PStr "state", PStr "asleep")])]).

(** The answer of the data endpoint for a parked, idle vehicle. *)
Definition idle_payload : pyval :=
  PDict [(PStr "charge_state",
          PDict [(PStr "charging_state", PStr "Stopped")]);
         (PStr "vehicle_state",
          PDict [(PStr "is_user_present", PBool false);
                 (PStr "sentry_mode", PBool false)])].

Definition idle_vehicle_data : request -> outcome pyval :=
  fun _ => Ret (PDict [(PStr "response", idle_payload)]).

Definition vehicle (snapshot : pyval) (pre2021 : bool) (last_active n : Z)
  : TeslemetryVehicleDataCoordinator.coordinator :=
  TeslemetryVehicleDataCoordinator.mkCoordinator
    snapshot VEHICLE_INTERVAL true pre2021 last_active n.

(** Entities that hold the command scope and have no state yet. *)
Definition climate_entity : TeslemetryClimateEntity.entity :=
  TeslemetryClimateEntity.mkEntity
    PNone "driver_temp" true PNone PNone PNone PNone PNone PNone PNone.

Definition cabin_entity : TeslemetryCabinOverheatProtectionEntity.entity :=
  TeslemetryCabinOverheatProtectionEntity.mkEntity PNone true PNone PNone PNone.

(** A world in which the API is never asked and every command goes
    through. *)
Definition quiet : env := answering (failing OtherFleetError) 0.

End Sample.


(* ================================================================== *)
(** * Consecutive transient errors *)
(* ================================================================== *)

(** The tick reports the escalation of the failure counter. *)
Definition escalated (o : outcome pyval) : bool :=
  match o with
  | Raise (UpdateFailed msg) => String.eqb msg "Multiple 5xx failures"
  | _ => false
  end.

(** The property is the same for the four coordinators, so it is proved
    once, for any coordinator whose tick obeys [step] while the API is
    [down]. *)
Section Consecutive.
Context {St : Type}.
Variable failures : St -> Z.
Variable data : St -> pyval.
Variable set_data : pyval -> St -> St.
Variable update : M St pyval.
Variable down : env -> Prop.
Variable inv : St -> Prop.

Hypothesis store_cached : forall s, set_data (data s) s = s.
Hypothesis step :
  forall w s l, down w -> inv s ->
    exists s' l',
      update w s l
      = (if failures s + 1 >? 2
         then Raise (UpdateFailed "Multiple 5xx failures")
         else Ret (data s'), s', l') /\
      failures s' = failures s + 1 /\ inv s'.

Lemma refresh_down (w : env) (s : St) (l : log) :
  down w -> inv s ->
  exists s' l',
    refresh set_data update w s l
    = (if failures s + 1 >? 2
       then Raise (UpdateFailed "Multiple 5xx failures")
       else Ret (data s'), s', l') /\
    failures s' = failures s + 1 /\ inv s'.
Proof.
  intros Hw Hs. destruct (step w s l Hw Hs) as (s' & l' & Hu & Hf & Hi).
  exists s', l'. unfold refresh. rewrite Hu.
  destruct (failures s + 1 >? 2); [auto|].
  rewrite store_cached. auto.
Qed.

Lemma consecutive_from (ws : list env) :
  Forall down ws ->
  forall (s : St) (l : log), inv s ->
  forall (k : nat) (o : outcome pyval),
    nth_error (fst (fst (refreshes set_data update ws s l))) k = Some o ->
    escalated o = (failures s + Z.of_nat k + 1 >? 2).
Proof.
  induction 1 as [|w ws Hw Hws IH]; intros s l Hs k o.
  - destruct k; discriminate.
  - simpl.
    destruct (refresh_down w s l Hw Hs) as (s' & l' & Hr & Hf & Hi).
    rewrite Hr.
    destruct (refreshes set_data update ws s' l') as [[os s''] l''] eqn:E.
    destruct k as [|k]; simpl.
    + intros H. injection H as <-. rewrite Z.add_0_r.
      now destruct (failures s + 1 >? 2).
    + intros H. specialize (IH s' l' Hi k o). rewrite E in IH.
      rewrite (IH H), Hf. f_equal. lia.
Qed.

(** From a counter at zero, the first and second ticks of a run of
    transient errors return the cached data and the third and every later
    one fails. *)
Lemma consecutive_from_zero (ws : list env) (s : St) (l : log) :
  Forall down ws -> inv s -> failures s = 0 ->
  forall (k : nat) (o : outcome pyval),
    nth_error (fst (fst (refreshes set_data update ws s l))) k = Some o ->
    (escalated o = true <-> (2 <= k)%nat).
Proof.
  intros Hws Hs H0 k o Ho.
  rewrite (consecutive_from ws Hws s l Hs k o Ho), H0.
  rewrite Z.gtb_ltb, Z.ltb_lt. lia.
Qed.

End Consecutive.

(* ================================================================== *)
(** * The vehicle coordinator *)
(* ================================================================== *)

Module VehicleFacts.
Import TeslemetryVehicleDataCoordinator.

Section WithConst.
Variable ONLINE OFFLINE : string.
Variable flatten : pyval -> outcome pyval.

Local Abbreviation _async_update_data := (_async_update_data ONLINE OFFLINE flatten).

(** The snapshot [new] is the snapshot [old] but for the value under
    ["state"]: same keys in the same order, same value under every other
    key. *)
Definition same_except_state (old new : pyval) : Prop :=
  exists d d',
    old = PDict d /\ new = PDict d' /\
    dict_keys d' = dict_keys d /\
    forall k, py_eq (PStr "state") k = false ->
              dict_lookup d' k = dict_lookup d k.

(** The cached state is not online, and the vehicle summary answers with
    a state that is not online either. *)
Definition stays_not_online (w : env) (self : coordinator) (l : log) : Prop :=
  exists s0 response r s1,
    py_getitem (data self) "state" = Ret s0 /\
    py_eq s0 (PStr ONLINE) = false /\
    api_reply w l ReqVehicle = Ret response /\
    py_getitem response "response" = Ret r /\
    py_getitem r "state" = Ret s1 /\
    py_eq s1 (PStr ONLINE) = false.

(** The cached state is online and the full fetch raises [VehicleOffline]. *)
Definition offline_when_online (w : env) (self : coordinator) (l : log) : Prop :=
  exists s0 f,
    py_getitem (data self) "state" = Ret s0 /\
    py_eq s0 (PStr ONLINE) = true /\
    api_reply w l ReqVehicleData = Raise (Fleet f) /\
    exc_class f = VehicleOffline.

(** The cached state is not online, the summary says the vehicle is
    online, and the full fetch that follows raises [VehicleOffline]. *)
Definition offline_after_summary (w : env) (self : coordinator) (l : log) : Prop :=
  exists s0 response r s1 f,
    py_getitem (data self) "state" = Ret s0 /\
    py_eq s0 (PStr ONLINE) = false /\
    api_reply w l ReqVehicle = Ret response /\
    py_getitem response "response" = Ret r /\
    py_getitem r "state" = Ret s1 /\
    py_eq s1 (PStr ONLINE) = true /\
    api_reply w (l ++ [EvRequest ReqVehicle]) ReqVehicleData = Raise (Fleet f) /\
    exc_class f = VehicleOffline.

Lemma getitem_dict (v : pyval) (k : string) (x : pyval) :
  py_getitem v k = Ret x ->
  exists d, v = PDict d /\ dict_lookup d (PStr k) = Some x.
Proof.
  destruct v; simpl; try discriminate.
  destruct (dict_lookup items (PStr k)) eqn:E; [|discriminate].
  intros H. injection H as ->. eauto.
Qed.

Lemma same_except_state_set (d : pydict) (x v : pyval) :
  dict_lookup d (PStr "state") = Some x ->
  same_except_state (PDict d) (PDict (dict_set d (PStr "state") v)).
Proof.
  intros H. exists d, (dict_set d (PStr "state") v).
  repeat split.
  - eapply dict_keys_set_present; eauto.
  - intros k Hk. now apply dict_lookup_set_other.
Qed.

Lemma same_except_state_set_twice (d : pydict) (x v v' : pyval) :
  dict_lookup d (PStr "state") = Some x ->
  same_except_state
    (PDict d)
    (PDict (dict_set (dict_set d (PStr "state") v) (PStr "state") v')).
Proof.
  intros H.
  exists d, (dict_set (dict_set d (PStr "state") v) (PStr "state") v').
  repeat split.
  - erewrite dict_keys_set_present by apply dict_lookup_set_same.
    eapply dict_keys_set_present; eauto.
  - intros k Hk. now rewrite !dict_lookup_set_other.
Qed.

Lemma stays_not_online_run (w : env) (self : coordinator) (l : log) :
  stays_not_online w self l ->
  exists self',
    _async_update_data w self l
    = (Ret (data self'), self', l ++ [EvRequest ReqVehicle]) /\
    same_except_state (data self) (data self').
Proof.
  intros (s0 & response & r & s1 & H0 & E0 & Hw & Hr & H1 & E1).
  destruct (getitem_dict _ _ _ H0) as (d & Hd & Hl).
  exists (set_data (PDict (dict_set d (PStr "state") s1))
                   (set_update_interval VEHICLE_INTERVAL self)).
  split.
  - unfold TeslemetryVehicleDataCoordinator._async_update_data, try_body,
      self_data_getitem, self_data_setitem.
    unfold_monad. simpl. rewrite H0. rewrite E0. simpl.
    rewrite Hw, Hr, H1. rewrite Hd. simpl.
    rewrite dict_lookup_set_same. rewrite E1. simpl. reflexivity.
  - simpl. rewrite Hd. eapply same_except_state_set; eauto.
Qed.


Lemma offline_when_online_run (w : env) (self : coordinator) (l : log) :
  offline_when_online w self l ->
  exists self',
    _async_update_data w self l
    = (Ret (data self'), self', l ++ [EvRequest ReqVehicleData]) /\
    same_except_state (data self) (data self') /\
    py_getitem (data self') "state" = Ret (PStr OFFLINE).
Proof.
  intros (s0 & f & H0 & E0 & Hw & Hf).
  destruct (getitem_dict _ _ _ H0) as (d & Hd & Hl).
  exists (set_data (PDict (dict_set d (PStr "state") (PStr OFFLINE)))
                   (set_update_interval VEHICLE_INTERVAL self)).
  split; [|split].
  - unfold TeslemetryVehicleDataCoordinator._async_update_data, try_body,
      self_data_getitem, self_data_setitem.
    unfold_monad. simpl. rewrite H0, E0. simpl. rewrite H0, E0. simpl.
    rewrite Hw. simpl. rewrite Hf. unfold self_data_setitem. unfold_monad.
    simpl. rewrite Hd. reflexivity.
  - simpl. rewrite Hd. eapply same_except_state_set; eauto.
  - simpl. now rewrite dict_lookup_set_same.
Qed.

Lemma offline_after_summary_run (w : env) (self : coordinator) (l : log) :
  offline_after_summary w self l ->
  exists self',
    _async_update_data w self l
    = (Ret (data self'), self',
       l ++ [EvRequest ReqVehicle; EvRequest ReqVehicleData]) /\
    same_except_state (data self) (data self') /\
    py_getitem (data self') "state" = Ret (PStr OFFLINE).
Proof.
  intros (s0 & response & r & s1 & f & H0 & E0 & Hw & Hr & H1 & E1 & Hw' & Hf).
  destruct (getitem_dict _ _ _ H0) as (d & Hd & Hl).
  exists (set_data
            (PDict (dict_set (dict_set d (PStr "state") s1)
                             (PStr "state") (PStr OFFLINE)))
            (set_update_interval VEHICLE_INTERVAL self)).
  split; [|split].
  - unfold TeslemetryVehicleDataCoordinator._async_update_data, try_body,
      self_data_getitem, self_data_setitem.
    unfold_monad. simpl. rewrite H0, E0. simpl.
    rewrite Hw, Hr, H1, Hd. simpl.
    rewrite dict_lookup_set_same, E1. simpl. rewrite Hw'. simpl. rewrite Hf.
    unfold self_data_setitem. unfold_monad. simpl.
    now rewrite <- app_assoc.
  - simpl. rewrite Hd. eapply same_except_state_set_twice; eauto.
  - simpl. now rewrite dict_lookup_set_same.
Qed.

(** C3: on a tick where the vehicle is not online -- the cached state is
    not online and the summary refresh leaves it so, or the full fetch
    raises [VehicleOffline] -- the coordinator returns its cached
    snapshot, changed at most under ["state"], and raises nothing.  In
    the first case the summary request is the only effect of the tick, so
    no full fetch is made. *)
Theorem not_online_returns_cached_snapshot
  (w : env) (self : coordinator) (l : log) :
  (stays_not_online w self l ->
   exists self',
     _async_update_data w self l
     = (Ret (data self'), self', l ++ [EvRequest ReqVehicle]) /\
     same_except_state (data self) (data self')) /\
  (offline_when_online w self l \/ offline_after_summary w self l ->
   exists self' l',
     _async_update_data w self l = (Ret (data self'), self', l ++ l') /\
     same_except_state (data self) (data self') /\
     py_getitem (data self') "state" = Ret (PStr OFFLINE)).
Proof.
  split.
  - apply stays_not_online_run.
  - intros [H|H].
    + destruct (offline_when_online_run _ _ _ H) as (self' & ? & ? & ?).
      exists self', [EvRequest ReqVehicleData]. auto.
    + destruct (offline_after_summary_run _ _ _ H) as (self' & ? & ? & ?).
      exists self', [EvRequest ReqVehicle; EvRequest ReqVehicleData]. auto.
Qed.


(** ** What the [try] statement leaves alone *)

(** Apart from [data] and [failures], the [try] statement with its
    handlers changes nothing of the coordinator. *)
Lemma try_frame (w : env) (s s' : coordinator) (l l' : log) (o : outcome flow) :
  try_except (try_body ONLINE) (handlers OFFLINE) w s l = (o, s', l') ->
  update_interval s' = update_interval s /\
  pre2021 s' = pre2021 s /\
  last_active s' = last_active s /\
  updated_once s' = updated_once s.
Proof.
  unfold try_body, handlers, on_5xx, self_data_getitem, self_data_setitem.
  unfold_monad. simpl.
  split_paths; intros H; inversion H; subst; simpl; auto.
Qed.

(** The body of the [try] changes nothing but [data]. *)
Lemma try_body_frame (w : env) (s s' : coordinator) (l l' : log) (o : outcome flow) :
  try_body ONLINE w s l = (o, s', l') ->
  exists d, s' = set_data d s.
Proof.
  unfold try_body, self_data_getitem, self_data_setitem.
  unfold_monad. simpl.
  split_paths; intros H; inversion H; subst; simpl;
    solve [ exists (data s'); now destruct s' | eexists; reflexivity ].
Qed.

(** No handler lets the function go on after the [try] statement. *)
Lemma handlers_leave (e : exn) (h : M coordinator flow)
  (w : env) (s s' : coordinator) (l l' : log) (d : pyval) :
  handlers OFFLINE e = Some h -> h w s l <> (Ret (Fallthrough d), s', l').
Proof.
  unfold handlers, on_5xx, self_data_setitem. intros Hh.
  destruct e; try discriminate; injection Hh as <-; unfold_monad; simpl;
    split_paths; discriminate.
Qed.


(** ** Adaptive cadence *)

(** The [try] statement is left through its end with the payload [d]:
    the full fetch succeeded.  [self1] and [l1] are the coordinator and
    the log at that point. *)
Definition fetch_succeeds (w : env) (self : coordinator) (l : log)
  (d : pyval) (self1 : coordinator) (l1 : log) : Prop :=
  try_body ONLINE w (set_update_interval VEHICLE_INTERVAL self) l
  = (Ret (Fallthrough d), self1, l1).

(** The two ways a fetch succeeds: the cached state is online and the
    data endpoint answers; or it is not, the summary says the vehicle is
    online, and the data endpoint answers. *)
Definition fetched_online (w : env) (self : coordinator) (l : log)
  (d : pyval) (self1 : coordinator) (l1 : log) : Prop :=
  exists s0 response,
    py_getitem (data self) "state" = Ret s0 /\
    py_eq s0 (PStr ONLINE) = true /\
    api_reply w l ReqVehicleData = Ret response /\
    py_getitem response "response" = Ret d /\
    self1 = set_update_interval VEHICLE_INTERVAL self /\
    l1 = l ++ [EvRequest ReqVehicleData].

Definition fetched_after_summary (w : env) (self : coordinator) (l : log)
  (d : pyval) (self1 : coordinator) (l1 : log) : Prop :=
  exists s0 summary r s1 response snapshot,
    py_getitem (data self) "state" = Ret s0 /\
    py_eq s0 (PStr ONLINE) = false /\
    api_reply w l ReqVehicle = Ret summary /\
    py_getitem summary "response" = Ret r /\
    py_getitem r "state" = Ret s1 /\
    py_eq s1 (PStr ONLINE) = true /\
    api_reply w (l ++ [EvRequest ReqVehicle]) ReqVehicleData = Ret response /\
    py_getitem response "response" = Ret d /\
    data self = PDict snapshot /\
    self1 = set_data (PDict (dict_set snapshot (PStr "state") s1))
                     (set_update_interval VEHICLE_INTERVAL self) /\
    l1 = l ++ [EvRequest ReqVehicle; EvRequest ReqVehicleData].

Lemma fetch_succeeds_cases (w : env) (self : coordinator) (l : log)
  (d : pyval) (self1 : coordinator) (l1 : log) :
  fetch_succeeds w self l d self1 l1 <->
  fetched_online w self l d self1 l1 \/
  fetched_after_summary w self l d self1 l1.
Proof.
  unfold fetch_succeeds, try_body, self_data_getitem, self_data_setitem.
  unfold_monad. cbn [data set_update_interval]. split.
  - destruct (py_getitem (data self) "state") as [s0|] eqn:H0;
      [|discriminate].
    destruct (py_eq s0 (PStr ONLINE)) eqn:E0; cbn.
    + rewrite H0. cbn. rewrite E0. cbn.
      destruct (api_reply w l ReqVehicleData) as [response|] eqn:Hw;
        [|discriminate].
      destruct (py_getitem response "response") as [d'|] eqn:Hr;
        [|discriminate].
      intros H. injection H as <- <- <-. left.
      exists s0, response. repeat split; auto.
    + destruct (api_reply w l ReqVehicle) as [summary|] eqn:Hw;
        [|discriminate].
      destruct (py_getitem summary "response") as [r|] eqn:Hr; cbn;
        [|discriminate].
      destruct (py_getitem r "state") as [s1|] eqn:H1; cbn; [|discriminate].
      destruct (getitem_dict _ _ _ H0) as (snapshot & Hd & Hl).
      rewrite Hd. cbn. rewrite dict_lookup_set_same.
      destruct (py_eq s1 (PStr ONLINE)) eqn:E1; cbn; [|discriminate].
      destruct (api_reply w (l ++ [EvRequest ReqVehicle]) ReqVehicleData)
        as [response|] eqn:Hw'; [|discriminate].
      destruct (py_getitem response "response") as [d'|] eqn:Hr';
        [|discriminate].
      intros H. injection H as <- <- <-. right.
      exists s0, summary, r, s1, response, snapshot.
      rewrite <- Hd. repeat split; auto. now rewrite <- app_assoc.
  - intros [(s0 & response & H0 & E0 & Hw & Hr & -> & ->)
           |(s0 & summary & r & s1 & response & snapshot &
             H0 & E0 & Hw & Hr & H1 & E1 & Hw' & Hr' & Hd & -> & ->)].
    + rewrite H0. cbn. rewrite E0. cbn. rewrite H0. cbn. rewrite E0. cbn.
      now rewrite Hw, Hr.
    + rewrite H0. cbn. rewrite E0. cbn. rewrite Hw, Hr. cbn. rewrite H1. cbn.
      rewrite Hd. cbn. rewrite dict_lookup_set_same, E1. cbn.
      rewrite Hw', Hr'. now rewrite <- app_assoc.
Qed.

(** The three signs of activity, read off the payload as line 120 does. *)
Definition charging (cs : pyval) : outcome bool :=
  c <~ py_get cs "charging_state" PNone ;; Ret (py_eq c (PStr "Charging")).
Definition user_present (vs : pyval) : outcome bool :=
  u <~ py_get vs "is_user_present" PNone ;; Ret (py_truthy u).
Definition sentry_mode (vs : pyval) : outcome bool :=
  m <~ py_get vs "sentry_mode" PNone ;; Ret (py_truthy m).

Lemma is_active_or (d cs vs : pyval) (c u m : bool) :
  py_getitem d "charge_state" = Ret cs ->
  py_getitem d "vehicle_state" = Ret vs ->
  charging cs = Ret c -> user_present vs = Ret u -> sentry_mode vs = Ret m ->
  is_active d = Ret (c || u || m).
Proof.
  unfold is_active, charging, user_present, sentry_mode.
  intros -> -> Hc Hu Hm. simpl.
  destruct (py_get cs "charging_state" PNone); simpl in *; [|discriminate].
  injection Hc as <-.
  destruct (py_eq a (PStr "Charging")); simpl; [reflexivity|].
  destruct (py_get vs "is_user_present" PNone); simpl in *; [|discriminate].
  injection Hu as <-.
  destruct (py_truthy a0); simpl; [reflexivity|].
  destruct (py_get vs "sentry_mode" PNone); simpl in *; [|discriminate].
  now injection Hm as <-.
Qed.

(** The log once the payload has been announced on the event bus. *)
Definition announced (l1 : log) : log := l1 ++ [EvFire "teslemetry_vehicle_data"].

Lemma fetch_succeeds_run (w : env) (self : coordinator) (l : log)
  (d : pyval) (self1 : coordinator) (l1 : log) :
  fetch_succeeds w self l d self1 l1 ->
  _async_update_data w self l
  = ((if pre2021 self1 then handle_pre2021 d else ret tt) ;;;
     modify (set_updated_once true) ;;;
     lift (flatten d)) w (set_failures 0 self1) (announced l1).
Proof.
  unfold fetch_succeeds. intros H.
  unfold TeslemetryVehicleDataCoordinator._async_update_data.
  unfold bind at 1, modify at 1. unfold bind at 1, try_except.
  rewrite H. reflexivity.
Qed.

Lemma cadence_after_fetch (w : env) (self : coordinator) (l : log)
  (d : pyval) (self1 : coordinator) (l1 : log) (active : bool) :
  fetch_succeeds w self l d self1 l1 ->
  pre2021 self = true ->
  is_active d = Ret active ->
  let now := clock w (announced l1) in
  let elapsed := now - last_active self in
  exists o self' l',
    _async_update_data w self l = (o, self', l') /\
    (active = true ->
     last_active self' = now /\ update_interval self' = VEHICLE_INTERVAL) /\
    (active = false -> elapsed > timedelta_minutes 20 ->
     last_active self' = clock w (announced l1 ++ [EvNow]) /\
     update_interval self' = VEHICLE_INTERVAL) /\
    (active = false ->
     timedelta_minutes 15 < elapsed <= timedelta_minutes 20 ->
     update_interval self' = VEHICLE_WAIT /\
     last_active self' = last_active self) /\
    (active = false -> elapsed <= timedelta_minutes 15 ->
     update_interval self' = VEHICLE_INTERVAL /\
     last_active self' = last_active self).
Proof.
  intros Hf Hpre Hact now elapsed.
  rewrite (fetch_succeeds_run _ _ _ _ _ _ Hf).
  destruct (try_body_frame _ _ _ _ _ _ Hf) as [d1 ->].
  unfold handle_pre2021. unfold_monad. simpl. rewrite Hpre, Hact.
  destruct active; simpl.
  - destruct (flatten d); do 3 eexists; (split; [reflexivity|]);
      simpl; repeat split; try discriminate; auto.
  - fold now. fold elapsed.
    destruct (elapsed >? timedelta_minutes 20) eqn:E20;
      [|destruct (elapsed >? timedelta_minutes 15) eqn:E15];
      simpl; destruct (flatten d); do 3 eexists; (split; [reflexivity|]);
      simpl; repeat split; try discriminate; auto;
      rewrite ?Z.gtb_ltb, ?Z.ltb_lt, ?Z.ltb_ge in *;
      unfold timedelta_minutes in *; intros; lia.
Qed.


Lemma wait_is_not_normal : VEHICLE_WAIT <> VEHICLE_INTERVAL.
Proof. discriminate. Qed.

(** When the [try] statement falls through, its body did. *)
Lemma fallthrough_is_fetch (w : env) (s s1 : coordinator) (l l1 : log) (d : pyval) :
  try_except (try_body ONLINE) (handlers OFFLINE) w s l
  = (Ret (Fallthrough d), s1, l1) ->
  try_body ONLINE w s l = (Ret (Fallthrough d), s1, l1).
Proof.
  unfold try_except.
  destruct (try_body ONLINE w s l) as [[[a|e] s2] l2]; [auto|].
  destruct (handlers OFFLINE e) as [h|] eqn:Hh; [|discriminate].
  intros H. exfalso. eapply handlers_leave; eauto.
Qed.

Lemma extended_interval_only_if
  (w : env) (self self' : coordinator) (l l' : log) (o : outcome pyval) :
  _async_update_data w self l = (o, self', l') ->
  update_interval self' = VEHICLE_WAIT ->
  pre2021 self = true /\
  exists d self1 l1,
    fetch_succeeds w self l d self1 l1 /\
    is_active d = Ret false /\
    timedelta_minutes 15 < clock w (announced l1) - last_active self
                         <= timedelta_minutes 20.
Proof.
  intros Hrun Hwait.
  pose proof wait_is_not_normal as Hne.
  unfold TeslemetryVehicleDataCoordinator._async_update_data in Hrun.
  unfold bind at 1, modify at 1 in Hrun. unfold bind at 1 in Hrun.
  destruct (try_except (try_body ONLINE) (handlers OFFLINE) w
              (set_update_interval VEHICLE_INTERVAL self) l)
    as [[[[v|d]|e] s1] l1] eqn:E.
  - destruct (try_frame _ _ _ _ _ _ E) as (Hi & _).
    unfold ret in Hrun. injection Hrun as _ <- _.
    rewrite Hi in Hwait. simpl in Hwait. congruence.
  - apply fallthrough_is_fetch in E.
    destruct (try_body_frame _ _ _ _ _ _ E) as [d1 ->].
    revert Hrun. unfold handle_pre2021. unfold_monad. simpl.
    destruct (pre2021 self) eqn:Hpre; simpl.
    + destruct (is_active d) as [[|]|] eqn:Hact; simpl.
      * destruct (flatten d); intros Hrun; injection Hrun as _ <- _;
          simpl in Hwait; congruence.
      * destruct (clock w (l1 ++ [EvFire "teslemetry_vehicle_data"])
                  - last_active self >? timedelta_minutes 20) eqn:E20;
          [|destruct (clock w (l1 ++ [EvFire "teslemetry_vehicle_data"])
                      - last_active self >? timedelta_minutes 15) eqn:E15];
          simpl; destruct (flatten d); intros Hrun; injection Hrun as _ <- _;
          simpl in Hwait; try congruence;
          (split; [reflexivity|]); exists d, (set_data d1 (set_update_interval VEHICLE_INTERVAL self)), l1;
          (split; [exact E|]); (split; [exact Hact|]);
          unfold announced; rewrite Z.gtb_ltb in *;
          rewrite Z.ltb_lt in E15; rewrite Z.ltb_ge in E20; lia.
      * intros Hrun; injection Hrun as _ <- _; simpl in Hwait; congruence.
    + destruct (flatten d); intros Hrun; injection Hrun as _ <- _;
        simpl in Hwait; congruence.
  - destruct (try_frame _ _ _ _ _ _ E) as (Hi & _).
    unfold ret in Hrun. injection Hrun as _ <- _.
    rewrite Hi in Hwait. simpl in Hwait. congruence.
Qed.


Lemma is_active_false_inv (d : pyval) :
  is_active d = Ret false ->
  exists cs vs,
    py_getitem d "charge_state" = Ret cs /\
    py_getitem d "vehicle_state" = Ret vs /\
    charging cs = Ret false /\
    user_present vs = Ret false /\
    sentry_mode vs = Ret false.
Proof.
  unfold is_active, charging, user_present, sentry_mode.
  destruct (py_getitem d "charge_state") as [cs|]; simpl; [|discriminate].
  destruct (py_get cs "charging_state" PNone) as [c|] eqn:E1;
    simpl; [|discriminate].
  destruct (py_eq c (PStr "Charging")) eqn:Ec; [discriminate|].
  destruct (py_getitem d "vehicle_state") as [vs|]; simpl; [|discriminate].
  destruct (py_get vs "is_user_present" PNone) as [u|] eqn:E2;
    simpl; [|discriminate].
  destruct (py_truthy u) eqn:Eu; [discriminate|].
  destruct (py_get vs "sentry_mode" PNone) as [m|] eqn:E3;
    simpl; [|discriminate].
  intros H. exists cs, vs. rewrite E1, E2, E3. simpl. rewrite Ec, Eu. auto.
Qed.

(** C2: for a pre-2021 vehicle, after a successful fetch: when the
    vehicle is charging, occupied or in sentry mode, [last_active] is set
    to the current time and the interval is the normal one; when it is
    none of these and more than 20 minutes have passed since
    [last_active], [last_active] is set to the current time and the
    interval is the normal one; when between 15 (excluded) and 20
    (included) minutes have passed, the interval is the extended one.
    And whenever a tick ends with the extended interval, the vehicle is a
    pre-2021 one, the fetch succeeded, none of the three signs of
    activity is present and the elapsed time is in that range. *)
Theorem adaptive_cadence (w : env) (self : coordinator) (l : log) :
  (forall d self1 l1 cs vs c u m,
      fetch_succeeds w self l d self1 l1 ->
      pre2021 self = true ->
      py_getitem d "charge_state" = Ret cs ->
      py_getitem d "vehicle_state" = Ret vs ->
      charging cs = Ret c ->
      user_present vs = Ret u ->
      sentry_mode vs = Ret m ->
      let now := clock w (announced l1) in
      let elapsed := now - last_active self in
      exists o self' l',
        _async_update_data w self l = (o, self', l') /\
        (c || u || m = true ->
         last_active self' = now /\
         update_interval self' = VEHICLE_INTERVAL) /\
        (c || u || m = false -> elapsed > timedelta_minutes 20 ->
         last_active self' = clock w (announced l1 ++ [EvNow]) /\
         update_interval self' = VEHICLE_INTERVAL) /\
        (c || u || m = false ->
         timedelta_minutes 15 < elapsed <= timedelta_minutes 20 ->
         update_interval self' = VEHICLE_WAIT)) /\
  (forall o self' l',
      _async_update_data w self l = (o, self', l') ->
      update_interval self' = VEHICLE_WAIT ->
      pre2021 self = true /\
      exists d self1 l1 cs vs,
        fetch_succeeds w self l d self1 l1 /\
        py_getitem d "charge_state" = Ret cs /\
        py_getitem d "vehicle_state" = Ret vs /\
        charging cs = Ret false /\
        user_present vs = Ret false /\
        sentry_mode vs = Ret false /\
        timedelta_minutes 15 < clock w (announced l1) - last_active self
                             <= timedelta_minutes 20).
Proof.
  split.
  - intros d self1 l1 cs vs c u m Hf Hpre Hcs Hvs Hc Hu Hm now elapsed.
    pose proof (is_active_or _ _ _ _ _ _ Hcs Hvs Hc Hu Hm) as Hact.
    destruct (cadence_after_fetch _ _ _ _ _ _ _ Hf Hpre Hact)
      as (o & self' & l' & Hrun & Ha & Hb & Hc' & _).
    exists o, self', l'. repeat split; auto.
    + now apply Ha.
    + now apply Ha.
    + now apply Hb.
    + now apply Hb.
    + intros. now apply Hc'.
  - intros o self' l' Hrun Hwait.
    destruct (extended_interval_only_if _ _ _ _ _ _ Hrun Hwait)
      as (Hpre & d & self1 & l1 & Hf & Hact & Hel).
    split; [exact Hpre|].
    destruct (is_active_false_inv _ Hact) as (cs & vs & ? & ? & ? & ? & ?).
    exists d, self1, l1, cs, vs. repeat split; auto; apply Hel.
Qed.

(** ** The failure counter *)

(** The body of the [try] raises [e]. *)
Definition try_raises (w : env) (self : coordinator) (l : log)
  (e : exn) (self1 : coordinator) (l1 : log) : Prop :=
  try_body ONLINE w (set_update_interval VEHICLE_INTERVAL self) l
  = (Raise e, self1, l1).

(** Only the vendor API raises the exceptions of the vendor API: the
    body of the [try] raises one exactly when the summary request does,
    or when the data request does, be it with the cached state online or
    after a summary that says so. *)
Definition summary_raises (w : env) (self : coordinator) (l : log)
  (f : fleet_exc) (self1 : coordinator) (l1 : log) : Prop :=
  exists s0,
    py_getitem (data self) "state" = Ret s0 /\
    py_eq s0 (PStr ONLINE) = false /\
    api_reply w l ReqVehicle = Raise (Fleet f) /\
    self1 = set_update_interval VEHICLE_INTERVAL self /\
    l1 = l ++ [EvRequest ReqVehicle].

Definition data_raises_online (w : env) (self : coordinator) (l : log)
  (f : fleet_exc) (self1 : coordinator) (l1 : log) : Prop :=
  exists s0,
    py_getitem (data self) "state" = Ret s0 /\
    py_eq s0 (PStr ONLINE) = true /\
    api_reply w l ReqVehicleData = Raise (Fleet f) /\
    self1 = set_update_interval VEHICLE_INTERVAL self /\
    l1 = l ++ [EvRequest ReqVehicleData].

Definition data_raises_after_summary (w : env) (self : coordinator) (l : log)
  (f : fleet_exc) (self1 : coordinator) (l1 : log) : Prop :=
  exists s0 summary r s1 snapshot,
    py_getitem (data self) "state" = Ret s0 /\
    py_eq s0 (PStr ONLINE) = false /\
    api_reply w l ReqVehicle = Ret summary /\
    py_getitem summary "response" = Ret r /\
    py_getitem r "state" = Ret s1 /\
    py_eq s1 (PStr ONLINE) = true /\
    api_reply w (l ++ [EvRequest ReqVehicle]) ReqVehicleData = Raise (Fleet f) /\
    data self = PDict snapshot /\
    self1 = set_data (PDict (dict_set snapshot (PStr "state") s1))
                     (set_update_interval VEHICLE_INTERVAL self) /\
    l1 = l ++ [EvRequest ReqVehicle; EvRequest ReqVehicleData].

Lemma getitem_never_fleet (v : pyval) (k : string) (f : fleet_exc) :
  py_getitem v k <> Raise (Fleet f).
Proof.
  destruct v; simpl; try discriminate.
  destruct (dict_lookup items (PStr k)); discriminate.
Qed.

Lemma try_raises_fleet_cases (w : env) (self : coordinator) (l : log)
  (f : fleet_exc) (self1 : coordinator) (l1 : log) :
  try_raises w self l (Fleet f) self1 l1 <->
  summary_raises w self l f self1 l1 \/
  data_raises_online w self l f self1 l1 \/
  data_raises_after_summary w self l f self1 l1.
Proof.
  unfold try_raises, try_body, self_data_getitem, self_data_setitem.
  unfold_monad. cbn [data set_update_interval]. split.
  - destruct (py_getitem (data self) "state") as [s0|e0] eqn:H0.
    2:{ intros H. injection H as -> _ _.
        now apply getitem_never_fleet in H0. }
    destruct (py_eq s0 (PStr ONLINE)) eqn:E0; cbn.
    + rewrite H0. cbn. rewrite E0. cbn.
      destruct (api_reply w l ReqVehicleData) as [response|e] eqn:Hw.
      * destruct (py_getitem response "response") as [d'|e] eqn:Hr;
          [discriminate|].
        intros H. injection H as -> _ _. now apply getitem_never_fleet in Hr.
      * intros H. injection H as -> <- <-. right. left.
        exists s0. repeat split; auto.
    + destruct (api_reply w l ReqVehicle) as [summary|e] eqn:Hw.
      2:{ intros H. injection H as -> <- <-. left.
          exists s0. repeat split; auto. }
      destruct (py_getitem summary "response") as [r|e] eqn:Hr; cbn.
      2:{ intros H. injection H as -> _ _.
          now apply getitem_never_fleet in Hr. }
      destruct (py_getitem r "state") as [s1|e] eqn:H1; cbn.
      2:{ intros H. injection H as -> _ _.
          now apply getitem_never_fleet in H1. }
      destruct (getitem_dict _ _ _ H0) as (snapshot & Hd & Hl).
      rewrite Hd. cbn. rewrite dict_lookup_set_same.
      destruct (py_eq s1 (PStr ONLINE)) eqn:E1; cbn; [|discriminate].
      destruct (api_reply w (l ++ [EvRequest ReqVehicle]) ReqVehicleData)
        as [response|e] eqn:Hw'.
      * destruct (py_getitem response "response") as [d'|e] eqn:Hr';
          [discriminate|].
        intros H. injection H as -> _ _. now apply getitem_never_fleet in Hr'.
      * intros H. injection H as -> <- <-. right. right.
        exists s0, summary, r, s1, snapshot.
        rewrite <- Hd. repeat split; auto. now rewrite <- app_assoc.
  - intros [(s0 & H0 & E0 & Hw & -> & ->)
           |[(s0 & H0 & E0 & Hw & -> & ->)
            |(s0 & summary & r & s1 & snapshot &
              H0 & E0 & Hw & Hr & H1 & E1 & Hw' & Hd & -> & ->)]].
    + rewrite H0. cbn. rewrite E0. cbn. now rewrite Hw.
    + rewrite H0. cbn. rewrite E0. cbn. rewrite H0. cbn. rewrite E0. cbn.
      now rewrite Hw.
    + rewrite H0. cbn. rewrite E0. cbn. rewrite Hw, Hr. cbn. rewrite H1. cbn.
      rewrite Hd. cbn. rewrite dict_lookup_set_same, E1. cbn.
      rewrite Hw'. now rewrite <- app_assoc.
Qed.

Lemma try_raises_run (w : env) (self : coordinator) (l : log)
  (e : exn) (self1 : coordinator) (l1 : log) (h : M coordinator flow) :
  try_raises w self l e self1 l1 ->
  handlers OFFLINE e = Some h ->
  _async_update_data w self l
  = (fl <- h ;; match fl with
                | Return v => ret v
                | Fallthrough _ => raise e
                end) w self1 l1.
Proof.
  unfold try_raises. intros H Hh.
  unfold TeslemetryVehicleDataCoordinator._async_update_data.
  unfold bind at 1, modify at 1. unfold bind at 1, try_except.
  rewrite H, Hh. unfold bind.
  destruct (h w self1 l1) as [[[[v|d]|e'] s2] l2] eqn:E; try reflexivity.
  exfalso. eapply handlers_leave; eauto.
Qed.

(** A transient server error adds one to the counter; the tick fails
    when the counter then exceeds 2 and returns the cached snapshot
    otherwise. *)
Lemma vehicle_transient (w : env) (self : coordinator) (l : log)
  (f : fleet_exc) (self1 : coordinator) (l1 : log) :
  try_raises w self l (Fleet f) self1 l1 ->
  is_5xx (exc_class f) = true ->
  exists self',
    _async_update_data w self l
    = (if failures self + 1 >? 2
       then Raise (UpdateFailed "Multiple 5xx failures")
       else Ret (data self'), self', l1) /\
    failures self' = failures self + 1 /\
    data self' = data self1.
Proof.
  intros H Hf.
  destruct (try_body_frame _ _ _ _ _ _ H) as [d1 ->].
  exists (set_failures (failures self + 1)
            (set_data d1 (set_update_interval VEHICLE_INTERVAL self))).
  split; [|split; reflexivity].
  erewrite try_raises_run; [|exact H|reflexivity].
  destruct (exc_class f); try discriminate; unfold on_5xx; unfold_monad; simpl;
    now destruct (failures self + 1 >? 2).
Qed.

(** A successful fetch resets the counter. *)
Lemma vehicle_success (w : env) (self : coordinator) (l : log)
  (d : pyval) (self1 : coordinator) (l1 : log) :
  fetch_succeeds w self l d self1 l1 ->
  exists o self' l',
    _async_update_data w self l = (o, self', l') /\ failures self' = 0.
Proof.
  intros H. rewrite (fetch_succeeds_run _ _ _ _ _ _ H).
  unfold handle_pre2021. unfold_monad. simpl.
  split_paths; do 3 eexists; (split; [reflexivity|]); reflexivity.
Qed.

(** The exceptions of the [try] body that an [except] clause turns into
    a terminal failure: the errors of the vendor API other than
    [VehicleOffline] and the transient ones, and [TypeError]. *)
Definition terminal (e : exn) : bool :=
  match e with
  | Fleet f =>
      match exc_class f with
      | VehicleOffline => false
      | c => negb (is_5xx c)
      end
  | TypeError => true
  | _ => false
  end.

(** A terminal failure raised by an [except] clause goes to the caller
    and leaves the counter as it was. *)
Lemma vehicle_terminal (w : env) (self : coordinator) (l : log)
  (e : exn) (self1 : coordinator) (l1 : log) :
  try_raises w self l e self1 l1 ->
  terminal e = true ->
  exists e' self' l',
    _async_update_data w self l = (Raise e', self', l') /\
    failures self' = failures self.
Proof.
  intros H He.
  destruct (try_body_frame _ _ _ _ _ _ H) as [d1 ->].
  destruct e as [k| | |f|msg| |msg|name]; try discriminate.
  - erewrite try_raises_run; [|exact H|reflexivity].
    unfold_monad. simpl. do 3 eexists. split; reflexivity.
  - erewrite try_raises_run; [|exact H|reflexivity].
    simpl in He.
    destruct (exc_class f) eqn:Hc; try discriminate; unfold_monad; simpl;
      do 3 eexists; (split; [reflexivity|]); reflexivity.
Qed.


(** ** Three transient errors in a row *)

(** Every request is answered by a transient server error. *)
Definition api_down (w : env) : Prop :=
  forall l r, exists f,
    api_reply w l r = Raise (Fleet f) /\ is_5xx (exc_class f) = true.

(** The cached snapshot has a ["state"]. *)
Definition has_state (s : coordinator) : Prop :=
  exists x, py_getitem (data s) "state" = Ret x.

Lemma try_raises_when_down (w : env) (self : coordinator) (l : log) :
  api_down w -> has_state self ->
  exists f l1,
    try_raises w self l (Fleet f)
               (set_update_interval VEHICLE_INTERVAL self) l1 /\
    is_5xx (exc_class f) = true.
Proof.
  intros Hw [x Hx]. unfold try_raises, try_body, self_data_getitem.
  unfold_monad. simpl. rewrite Hx.
  destruct (py_eq x (PStr ONLINE)) eqn:E; simpl.
  - rewrite Hx. simpl. rewrite E. simpl.
    destruct (Hw l ReqVehicleData) as (f & -> & Hf). eauto.
  - destruct (Hw l ReqVehicle) as (f & -> & Hf). eauto.
Qed.

Lemma vehicle_step (w : env) (s : coordinator) (l : log) :
  api_down w -> has_state s ->
  exists s' l',
    _async_update_data w s l
    = (if failures s + 1 >? 2
       then Raise (UpdateFailed "Multiple 5xx failures")
       else Ret (data s'), s', l') /\
    failures s' = failures s + 1 /\ has_state s'.
Proof.
  intros Hw Hs.
  destruct (try_raises_when_down w s l Hw Hs) as (f & l1 & Hr & Hf).
  destruct (vehicle_transient _ _ _ _ _ _ Hr Hf) as (s' & Hrun & Hc & Hd).
  exists s', l1. repeat split; auto.
  unfold has_state. now rewrite Hd.
Qed.

Lemma set_data_cached (s : coordinator) : set_data (data s) s = s.
Proof. now destruct s. Qed.

Lemma vehicle_consecutive (ws : list env) (s : coordinator) (l : log) :
  Forall api_down ws -> has_state s -> failures s = 0 ->
  forall (k : nat) (o : outcome pyval),
    nth_error (fst (fst (refreshes set_data _async_update_data ws s l))) k
    = Some o ->
    (escalated o = true <-> (2 <= k)%nat).
Proof.
  apply (consecutive_from_zero failures data set_data _ api_down has_state).
  - apply set_data_cached.
  - apply vehicle_step.
Qed.


(** What a tick of the vehicle coordinator does to the counter: a
    transient server error adds one, and the tick fails exactly when the
    counter then exceeds 2; a successful fetch puts the counter at zero,
    however the rest of the tick ends; a terminal failure raised inside
    the [try] statement leaves the counter alone. *)
Definition counter_law : Prop :=
  forall (w : env) (self : coordinator) (l : log),
    (forall f self1 l1,
        try_raises w self l (Fleet f) self1 l1 ->
        is_5xx (exc_class f) = true ->
        exists self',
          _async_update_data w self l
          = (if failures self + 1 >? 2
             then Raise (UpdateFailed "Multiple 5xx failures")
             else Ret (data self'), self', l1) /\
          failures self' = failures self + 1) /\
    (forall d self1 l1,
        fetch_succeeds w self l d self1 l1 ->
        exists o self' l',
          _async_update_data w self l = (o, self', l') /\
          failures self' = 0) /\
    (forall e self1 l1,
        try_raises w self l e self1 l1 ->
        terminal e = true ->
        exists e' self' l',
          _async_update_data w self l = (Raise e', self', l') /\
          failures self' = failures self).

Definition third_in_a_row : Prop :=
  forall (ws : list env) (s : coordinator) (l : log),
    Forall api_down ws -> has_state s -> failures s = 0 ->
    forall (k : nat) (o : outcome pyval),
      nth_error (fst (fst (refreshes set_data _async_update_data ws s l))) k
      = Some o ->
      (escalated o = true <-> (2 <= k)%nat).

Lemma vehicle_counter_law : counter_law.
Proof.
  intros w self l. repeat split.
  - intros f self1 l1 H Hf.
    destruct (vehicle_transient _ _ _ _ _ _ H Hf) as (self' & ? & ? & _).
    eauto.
  - intros d self1 l1 H. eapply vehicle_success; eauto.
  - intros e self1 l1 H He. eapply vehicle_terminal; eauto.
Qed.

(** The full fetch of the tick succeeded: the [try] statement was left
    through its end. *)
Definition fetched (w : env) (self : coordinator) (l : log) : Prop :=
  exists d self1 l1, fetch_succeeds w self l d self1 l1.

(** A request of the tick was answered by a transient server error. *)
Definition met_transient (w : env) (self : coordinator) (l : log) : Prop :=
  exists f self1 l1,
    try_raises w self l (Fleet f) self1 l1 /\ is_5xx (exc_class f) = true.

(** The counter after a tick that raises, whatever it raises and
    wherever: it is zero when the fetch had succeeded, so that the error
    comes from the lines after the [try] statement, which follow the
    reset of line 115; it is one more than before when a request met a
    transient server error; and in every other case -- a terminal
    failure raised by an [except] clause, an error that no clause
    catches -- it is what it was. *)
Definition raise_law : Prop :=
  forall (w : env) (self self' : coordinator) (l l' : log) (e : exn),
    _async_update_data w self l = (Raise e, self', l') ->
    (fetched w self l -> failures self' = 0) /\
    (met_transient w self l -> failures self' = failures self + 1) /\
    (~ fetched w self l -> ~ met_transient w self l ->
     failures self' = failures self).

Lemma vehicle_raise_law : raise_law.
Proof.
  intros w self self' l l' e Hrun. split; [|split].
  - intros (d & self1 & l1 & H).
    destruct (vehicle_success _ _ _ _ _ _ H) as (o & s2 & l2 & Hr & H0).
    rewrite Hr in Hrun. now injection Hrun as _ <- _.
  - intros (f & self1 & l1 & H & Hf).
    destruct (vehicle_transient _ _ _ _ _ _ H Hf) as (s2 & Hr & Hc & _).
    rewrite Hr in Hrun. now injection Hrun as _ <- _.
  - intros Hnf Hnt.
    destruct (try_body ONLINE w (set_update_interval VEHICLE_INTERVAL self) l)
      as [[[[v|d]|e0] s1] l1] eqn:Eb.
    + exfalso. revert Hrun.
      unfold TeslemetryVehicleDataCoordinator._async_update_data.
      unfold bind at 1, modify at 1. unfold bind at 1, try_except.
      rewrite Eb. discriminate.
    + elim Hnf. exists d, s1, l1. exact Eb.
    + destruct (try_body_frame _ _ _ _ _ _ Eb) as [d1 ->].
      destruct (handlers OFFLINE e0) as [h|] eqn:Eh.
      * rewrite (try_raises_run _ _ _ _ _ _ h Eb Eh) in Hrun. revert Hrun.
        destruct e0 as [k| | |f|msg| |msg|name]; try discriminate;
          injection Eh as <-.
        -- unfold_monad. simpl. intros H. now injection H as _ <- _.
        -- destruct (exc_class f) eqn:Hc;
             try (elim Hnt; exists f; do 2 eexists; split;
                  [exact Eb|now rewrite Hc]);
             unfold self_data_setitem; unfold_monad; simpl;
             split_paths; intros H; try discriminate;
             now injection H as _ <- _.
      * revert Hrun.
        unfold TeslemetryVehicleDataCoordinator._async_update_data.
        unfold bind at 1, modify at 1. unfold bind at 1, try_except.
        rewrite Eb, Eh. intros H. now injection H as _ <- _.
Qed.

End WithConst.

Import Sample.

Lemma not_online_returns_cached_snapshot_witness :
  exists self',
    _async_update_data "online" "offline" echo
      (answering asleep_summary 0) (vehicle asleep_snapshot false 0 0) []
    = (Ret (data self'), self', [EvRequest ReqVehicle]) /\
    same_except_state (data (vehicle asleep_snapshot false 0 0)) (data self').
Proof.
  apply (proj1 (not_online_returns_cached_snapshot
                  "online" "offline" echo
                  (answering asleep_summary 0)
                  (vehicle asleep_snapshot false 0 0) [])).
  exists (PStr "asleep"),
    (PDict [(PStr "response", PDict [(PStr "state", PStr "asleep")])]),
    (PDict [(PStr "state", PStr "asleep")]),
    (PStr "asleep").
  repeat split.
Defined.

(** Sixteen minutes after the last activity, an idle pre-2021 vehicle is
    left alone for the extended interval. *)
Lemma adaptive_cadence_witness :
  exists o self' l',
    _async_update_data "online" "offline" echo
      (answering idle_vehicle_data (timedelta_minutes 16))
      (vehicle online_snapshot true 0 0) []
    = (o, self', l') /\
    update_interval self' = VEHICLE_WAIT.
Proof.
  destruct (proj1 (adaptive_cadence
                     "online" "offline" echo
                     (answering idle_vehicle_data (timedelta_minutes 16))
                     (vehicle online_snapshot true 0 0) [])
              idle_payload
              (vehicle online_snapshot true 0 0)
              [EvRequest ReqVehicleData]
              (PDict [(PStr "charging_state", PStr "Stopped")])
              (PDict [(PStr "is_user_present", PBool false);
                      (PStr "sentry_mode", PBool false)])
              false false false
              eq_refl eq_refl eq_refl eq_refl eq_refl eq_refl eq_refl)
    as (o & self' & l' & Hrun & _ & _ & Hwait).
  exists o, self', l'. split; [exact Hrun|].
  apply Hwait; [reflexivity|].
  vm_compute. split; [reflexivity | discriminate].
Defined.

End VehicleFacts.

(* ================================================================== *)
(** * The energy-site coordinators *)
(* ================================================================== *)

Module EnergyFacts.
Import Energy.

(** What a tick does when the request is answered by a transient server
    error: one more failure; an error once the counter exceeds 2, the
    cached data until then. *)
Definition transient_result (s : coordinator) (l : log) (r : request)
  : outcome pyval * coordinator * log :=
  (if failures s + 1 >? 2
   then Raise (UpdateFailed "Multiple 5xx failures")
   else Ret (data s),
   set_failures (failures s + 1) s,
   l ++ [EvRequest r]).

Lemma fetch_transient (w : env) (s : coordinator) (l : log)
  (r : request) (f : fleet_exc) :
  api_reply w l r = Raise (Fleet f) ->
  is_5xx (exc_class f) = true ->
  fetch r w s l
  = (if failures s + 1 >? 2
     then Raise (UpdateFailed "Multiple 5xx failures")
     else Ret (Return (data s)),
     set_failures (failures s + 1) s,
     l ++ [EvRequest r]).
Proof.
  intros Hw Hf. unfold fetch, handlers, on_5xx. unfold_monad.
  rewrite Hw. simpl.
  destruct (exc_class f); try discriminate; simpl;
    now destruct (failures s + 1 >? 2).
Qed.

(** A request answered by another error of the vendor API, or by a
    document that cannot be subscripted, ends the tick with an error and
    leaves the coordinator as it was. *)
Lemma fetch_terminal (w : env) (s : coordinator) (l : log)
  (r : request) (f : fleet_exc) :
  api_reply w l r = Raise (Fleet f) ->
  is_5xx (exc_class f) = false ->
  exists e, fetch r w s l = (Raise e, s, l ++ [EvRequest r]).
Proof.
  intros Hw Hf. unfold fetch, handlers, on_5xx. unfold_monad.
  rewrite Hw. simpl.
  destruct (exc_class f); try discriminate; simpl; eexists; reflexivity.
Qed.

(** The counter never goes down, whatever the request is answered. *)
Lemma fetch_failures_mono (w : env) (s s' : coordinator) (l l' : log)
  (r : request) (o : outcome flow) :
  fetch r w s l = (o, s', l') ->
  data s' = data s /\ failures s <= failures s'.
Proof.
  unfold fetch, handlers, on_5xx. unfold_monad. simpl.
  split_paths; intros H; inversion H; subst; simpl; split; auto; lia.
Qed.

(** The rest of each method, after the [try] statement, does not touch
    the coordinator. *)
Lemma live_after_fetch (w : env) (s : coordinator) (l : log) :
  exists o l',
    TeslemetryEnergySiteLiveCoordinator._async_update_data w s l
    = (o, snd (fst (fetch ReqLiveStatus w s l)), l').
Proof.
  unfold TeslemetryEnergySiteLiveCoordinator._async_update_data.
  unfold bind at 1.
  destruct (fetch ReqLiveStatus w s l) as [[[[v|d]|e] s1] l1]; simpl;
    unfold_monad; simpl; split_paths; eauto.
Qed.

Lemma info_after_fetch (flatten : pyval -> outcome pyval)
  (w : env) (s : coordinator) (l : log) :
  exists o l',
    TeslemetryEnergySiteInfoCoordinator._async_update_data flatten w s l
    = (o, snd (fst (fetch ReqSiteInfo w s l)), l').
Proof.
  unfold TeslemetryEnergySiteInfoCoordinator._async_update_data.
  unfold bind at 1.
  destruct (fetch ReqSiteInfo w s l) as [[[[v|d]|e] s1] l1]; simpl;
    unfold_monad; simpl; split_paths; eauto.
Qed.

Lemma history_after_fetch (fields : list string)
  (float_add : pyfloat -> pyfloat -> pyfloat)
  (float_of_int : Z -> outcome pyfloat)
  (w : env) (s : coordinator) (l : log) :
  exists o l',
    TeslemetryEnergyHistoryCoordinator._async_update_data
      fields float_add float_of_int w s l
    = (o, snd (fst (fetch ReqEnergyHistory w s l)), l').
Proof.
  unfold TeslemetryEnergyHistoryCoordinator._async_update_data.
  unfold bind at 1.
  destruct (fetch ReqEnergyHistory w s l) as [[[[v|d]|e] s1] l1]; simpl;
    unfold_monad; simpl; split_paths; eauto.
Qed.


(** ** The counter of an energy-site coordinator *)

(** What the tick [update], which calls the endpoint [r], does of the
    errors of that call: a transient server error is counted and
    escalated past 2; any other error of the vendor API and a response
    that cannot be subscripted end the tick with an error and leave the
    counter alone. *)
Definition counter_law (r : request) (update : M coordinator pyval) : Prop :=
  forall (w : env) (s : coordinator) (l : log),
    (forall f, api_reply w l r = Raise (Fleet f) ->
               is_5xx (exc_class f) = true ->
               update w s l = transient_result s l r) /\
    (forall f, api_reply w l r = Raise (Fleet f) ->
               is_5xx (exc_class f) = false ->
               exists e, update w s l = (Raise e, s, l ++ [EvRequest r])) /\
    (forall response,
        api_reply w l r = Ret response ->
        py_getitem response "response" = Raise TypeError ->
        update w s l
        = (Raise (UpdateFailed "Invalid response from Teslemetry"),
           s, l ++ [EvRequest r])).

(** The endpoint [r] is answered by a transient server error. *)
Definition endpoint_down (r : request) (w : env) : Prop :=
  forall l, exists f,
    api_reply w l r = Raise (Fleet f) /\ is_5xx (exc_class f) = true.

(** In a run of ticks that all meet a transient error, starting from a
    counter at zero, the ticks that fail are the third and the later
    ones. *)
Definition third_in_a_row (r : request) (update : M coordinator pyval) : Prop :=
  forall (ws : list env) (s : coordinator) (l : log),
    Forall (endpoint_down r) ws -> failures s = 0 ->
    forall (k : nat) (o : outcome pyval),
      nth_error (fst (fst (refreshes set_data update ws s l))) k = Some o ->
      (escalated o = true <-> (2 <= k)%nat).

(** Both follow from what the method does with the result of [fetch]. *)
Definition follows_fetch (r : request) (update : M coordinator pyval) : Prop :=
  forall w s l,
    match fetch r w s l with
    | (Ret (Return v), s', l') => update w s l = (Ret v, s', l')
    | (Raise e, s', l') => update w s l = (Raise e, s', l')
    | _ => True
    end.

Lemma fetch_malformed (w : env) (s : coordinator) (l : log)
  (r : request) (response : pyval) :
  api_reply w l r = Ret response ->
  py_getitem response "response" = Raise TypeError ->
  fetch r w s l
  = (Raise (UpdateFailed "Invalid response from Teslemetry"),
     s, l ++ [EvRequest r]).
Proof.
  intros Hw Hr. unfold fetch. unfold_monad. now rewrite Hw, Hr.
Qed.

Lemma counter_law_of_fetch (r : request) (update : M coordinator pyval) :
  follows_fetch r update -> counter_law r update.
Proof.
  intros H w s l. specialize (H w s l). repeat split.
  - intros f Hw Hf. rewrite (fetch_transient _ _ _ _ _ Hw Hf) in H.
    unfold transient_result. now destruct (failures s + 1 >? 2).
  - intros f Hw Hf. destruct (fetch_terminal w s l r f Hw Hf) as [e He].
    rewrite He in H. eauto.
  - intros response Hw Hr. now rewrite (fetch_malformed _ _ _ _ _ Hw Hr) in H.
Qed.

(** After the [try] statement the method does not touch the
    coordinator. *)
Definition after_fetch (r : request) (update : M coordinator pyval) : Prop :=
  forall w s l,
    exists o l', update w s l = (o, snd (fst (fetch r w s l)), l').

(** The counter after a tick that raises, whatever it raises and
    wherever, when the request was not answered by a transient server
    error: it is what it was. *)
Definition raise_law (r : request) (update : M coordinator pyval) : Prop :=
  forall (w : env) (s s' : coordinator) (l l' : log) (e : exn),
    update w s l = (Raise e, s', l') ->
    (forall f, api_reply w l r = Raise (Fleet f) ->
               is_5xx (exc_class f) = false) ->
    failures s' = failures s.

Lemma fetch_keeps_counter (w : env) (s : coordinator) (l : log)
  (r : request) :
  (forall f, api_reply w l r = Raise (Fleet f) ->
             is_5xx (exc_class f) = false) ->
  snd (fst (fetch r w s l)) = s.
Proof.
  intros Hn. unfold fetch, handlers, on_5xx. unfold_monad.
  destruct (api_reply w l r) as [response|e] eqn:Ew; cbn [fst snd].
  - destruct (py_getitem response "response") as [d|e] eqn:Er;
      cbn [fst snd]; [reflexivity|].
    destruct e as [k| | |f|msg| |msg|name]; try reflexivity.
    now elim (VehicleFacts.getitem_never_fleet response "response" f).
  - destruct e as [k| | |f|msg| |msg|name]; try reflexivity.
    specialize (Hn f eq_refl).
    destruct (exc_class f); try discriminate; reflexivity.
Qed.

Lemma raise_law_of_fetch (r : request) (update : M coordinator pyval) :
  after_fetch r update -> raise_law r update.
Proof.
  intros H w s s' l l' e Hrun Hn.
  destruct (H w s l) as (o & l1 & Hu). rewrite Hu in Hrun.
  injection Hrun as _ <- _. now rewrite fetch_keeps_counter.
Qed.

Lemma energy_set_data_cached (s : coordinator) : set_data (data s) s = s.
Proof. now destruct s. Qed.

Lemma third_in_a_row_of_fetch (r : request) (update : M coordinator pyval) :
  follows_fetch r update -> third_in_a_row r update.
Proof.
  intros H ws s l Hws H0.
  apply (consecutive_from_zero failures data set_data update
           (endpoint_down r) (fun _ => True)); auto.
  - apply energy_set_data_cached.
  - intros w s0 l0 Hw _. destruct (Hw l0) as (f & Hr & Hf).
    destruct (counter_law_of_fetch r update H w s0 l0) as (Ht & _).
    rewrite (Ht f Hr Hf). unfold transient_result.
    exists (set_failures (failures s0 + 1) s0), (l0 ++ [EvRequest r]).
    repeat split.
Qed.

Lemma live_follows_fetch :
  follows_fetch ReqLiveStatus
                TeslemetryEnergySiteLiveCoordinator._async_update_data.
Proof.
  intros w s l.
  destruct (fetch ReqLiveStatus w s l) as [[[[v|d]|e] s1] l1] eqn:E; try exact I;
    unfold TeslemetryEnergySiteLiveCoordinator._async_update_data;
    unfold bind at 1; now rewrite E.
Qed.

Lemma info_follows_fetch (flatten : pyval -> outcome pyval) :
  follows_fetch ReqSiteInfo
                (TeslemetryEnergySiteInfoCoordinator._async_update_data flatten).
Proof.
  intros w s l.
  destruct (fetch ReqSiteInfo w s l) as [[[[v|d]|e] s1] l1] eqn:E; try exact I;
    unfold TeslemetryEnergySiteInfoCoordinator._async_update_data;
    unfold bind at 1; now rewrite E.
Qed.

Lemma history_follows_fetch (fields : list string)
  (float_add : pyfloat -> pyfloat -> pyfloat)
  (float_of_int : Z -> outcome pyfloat) :
  follows_fetch ReqEnergyHistory
                (TeslemetryEnergyHistoryCoordinator._async_update_data
                   fields float_add float_of_int).
Proof.
  intros w s l.
  destruct (fetch ReqEnergyHistory w s l) as [[[[v|d]|e] s1] l1] eqn:E; try exact I;
    unfold TeslemetryEnergyHistoryCoordinator._async_update_data;
    unfold bind at 1; now rewrite E.
Qed.

(** No tick of an energy-site coordinator lowers the counter: it is
    never reset, not even when the request succeeds. *)
Lemma live_counter_never_reset (w : env) (s s' : coordinator) (l l' : log)
  (o : outcome pyval) :
  TeslemetryEnergySiteLiveCoordinator._async_update_data w s l = (o, s', l') ->
  failures s <= failures s'.
Proof.
  destruct (live_after_fetch w s l) as (o1 & l1 & E). rewrite E.
  intros H. injection H as _ <- _.
  destruct (fetch ReqLiveStatus w s l) as [[o2 s2] l2] eqn:F.
  now apply fetch_failures_mono in F.
Qed.

Lemma info_counter_never_reset (flatten : pyval -> outcome pyval)
  (w : env) (s s' : coordinator) (l l' : log) (o : outcome pyval) :
  TeslemetryEnergySiteInfoCoordinator._async_update_data flatten w s l
  = (o, s', l') ->
  failures s <= failures s'.
Proof.
  destruct (info_after_fetch flatten w s l) as (o1 & l1 & E). rewrite E.
  intros H. injection H as _ <- _.
  destruct (fetch ReqSiteInfo w s l) as [[o2 s2] l2] eqn:F.
  now apply fetch_failures_mono in F.
Qed.

Lemma history_counter_never_reset (fields : list string)
  (float_add : pyfloat -> pyfloat -> pyfloat)
  (float_of_int : Z -> outcome pyfloat)
  (w : env) (s s' : coordinator) (l l' : log) (o : outcome pyval) :
  TeslemetryEnergyHistoryCoordinator._async_update_data
    fields float_add float_of_int w s l = (o, s', l') ->
  failures s <= failures s'.
Proof.
  destruct (history_after_fetch fields float_add float_of_int w s l)
    as (o1 & l1 & E).
  rewrite E. intros H. injection H as _ <- _.
  destruct (fetch ReqEnergyHistory w s l) as [[o2 s2] l2] eqn:F.
  now apply fetch_failures_mono in F.
Qed.

End EnergyFacts.
(* ================================================================== *)
(** * The failure counter of the four coordinators *)
(* ================================================================== *)

Module CounterFacts.
Import Sample.

Module V := TeslemetryVehicleDataCoordinator.
Module Live := TeslemetryEnergySiteLiveCoordinator.
Module Info := TeslemetryEnergySiteInfoCoordinator.
Module History := TeslemetryEnergyHistoryCoordinator.

(** C1, as the code has it: in each of the four coordinators a transient
    server error adds one to the failure counter, and the tick raises the
    update failure exactly when the counter then exceeds 2 -- from a
    counter at zero, on the third and on every later error in a row --
    and returns the cached data otherwise.  The vehicle coordinator puts
    the counter back to zero on every successful fetch, also when the
    rest of the tick then raises.  No coordinator changes the counter
    when an [except] clause of its [try] statement raises a terminal
    failure; and, more generally, after a tick that raises the counter
    is what it was unless a request met a transient error or, on the
    vehicle, the fetch had succeeded. *)
Theorem failure_counter :
  (forall ONLINE OFFLINE flatten,
      VehicleFacts.counter_law ONLINE OFFLINE flatten /\
      VehicleFacts.third_in_a_row ONLINE OFFLINE flatten /\
      VehicleFacts.raise_law ONLINE OFFLINE flatten) /\
  (EnergyFacts.counter_law ReqLiveStatus Live._async_update_data /\
   EnergyFacts.third_in_a_row ReqLiveStatus Live._async_update_data /\
   EnergyFacts.raise_law ReqLiveStatus Live._async_update_data) /\
  (forall flatten,
      EnergyFacts.counter_law ReqSiteInfo (Info._async_update_data flatten) /\
      EnergyFacts.third_in_a_row ReqSiteInfo (Info._async_update_data flatten) /\
      EnergyFacts.raise_law ReqSiteInfo (Info._async_update_data flatten)) /\
  (forall fields float_add float_of_int,
      EnergyFacts.counter_law
        ReqEnergyHistory
        (History._async_update_data fields float_add float_of_int) /\
      EnergyFacts.third_in_a_row
        ReqEnergyHistory
        (History._async_update_data fields float_add float_of_int) /\
      EnergyFacts.raise_law
        ReqEnergyHistory
        (History._async_update_data fields float_add float_of_int)).
Proof.
  split; [|split; [|split]].
  - intros ONLINE OFFLINE flatten. split; [|split].
    + apply VehicleFacts.vehicle_counter_law.
    + intros ws s l. apply VehicleFacts.vehicle_consecutive.
    + apply VehicleFacts.vehicle_raise_law.
  - pose proof EnergyFacts.live_follows_fetch as H. split; [|split].
    + now apply EnergyFacts.counter_law_of_fetch.
    + now apply EnergyFacts.third_in_a_row_of_fetch.
    + apply EnergyFacts.raise_law_of_fetch.
      intros w s l. apply EnergyFacts.live_after_fetch.
  - intros flatten.
    pose proof (EnergyFacts.info_follows_fetch flatten) as H.
    split; [|split].
    + now apply EnergyFacts.counter_law_of_fetch.
    + now apply EnergyFacts.third_in_a_row_of_fetch.
    + apply EnergyFacts.raise_law_of_fetch.
      intros w s l. apply EnergyFacts.info_after_fetch.
  - intros fields float_add float_of_int.
    pose proof (EnergyFacts.history_follows_fetch fields float_add float_of_int)
      as H.
    split; [|split].
    + now apply EnergyFacts.counter_law_of_fetch.
    + now apply EnergyFacts.third_in_a_row_of_fetch.
    + apply EnergyFacts.raise_law_of_fetch.
      intros w s l. apply EnergyFacts.history_after_fetch.
Qed.

(** C1 as stated fails on a terminal failure: with the counter at 2, a
    tick that meets an invalid token raises the authentication failure to
    the caller and leaves the counter at 2. *)
Lemma terminal_failure_keeps_counter :
  let run :=
    V._async_update_data "online" "offline" echo
      (answering (failing InvalidToken) 0)
      (vehicle online_snapshot false 0 2) [] in
  fst (fst run) = Raise ConfigEntryAuthFailed /\
  V.failures (snd (fst run)) = 2 /\
  V.failures (snd (fst run)) <> 0.
Proof. vm_compute. repeat split; discriminate. Qed.

(** The energy-site coordinators do not reset the counter on success
    either (the vehicle coordinator does, at line 115): after two
    transient errors and a successful tick, one more transient error is
    escalated. *)
Example live_success_keeps_counter :
  let ok := answering (fun _ => Ret (PDict [(PStr "response", PDict [])])) 0 in
  let down := answering (failing ServiceUnavailable) 0 in
  let run1 := Live._async_update_data ok (Energy.mkCoordinator PNone 2) [] in
  let run2 := Live._async_update_data down (snd (fst run1)) (snd run1) in
  fst (fst run1) = Ret (PDict [(PStr "wall_connectors", PDict [])]) /\
  Energy.failures (snd (fst run1)) = 2 /\
  escalated (fst (fst run2)) = true.
Proof. vm_compute. repeat split. Qed.

(** An error raised after the [try] statement comes after the reset of
    line 115: with the counter at 2, a pre-2021 vehicle whose data
    request is answered with a null payload fails in the activity check
    of line 120, and the counter is 0. *)
Example error_after_fetch_resets_counter :
  let run :=
    V._async_update_data "online" "offline" echo
      (answering (fun _ => Ret (PDict [(PStr "response", PNone)])) 0)
      (vehicle online_snapshot true 0 2) [] in
  fst (fst run) = Raise TypeError /\
  V.failures (snd (fst run)) = 0.
Proof. vm_compute. split; reflexivity. Qed.

Lemma failure_counter_witness :
  exists self',
    V._async_update_data "online" "offline" echo
      (answering (failing GatewayTimeout) 0)
      (vehicle online_snapshot false 0 2) []
    = (Raise (UpdateFailed "Multiple 5xx failures"), self',
       [EvRequest ReqVehicleData]) /\
    V.failures self' = 3.
Proof.
  destruct (proj1 failure_counter "online" "offline" echo) as [law _].
  destruct (law (answering (failing GatewayTimeout) 0)
                (vehicle online_snapshot false 0 2) []) as [transient _].
  apply (transient (mkFleetExc GatewayTimeout "message" "KEY")
                   (vehicle online_snapshot false 0 2)
                   [EvRequest ReqVehicleData]);
    reflexivity.
Defined.

End CounterFacts.

(* ================================================================== *)
(** * The climate entities *)
(* ================================================================== *)

Module ClimateFacts.
Import Sample.

Module Climate := TeslemetryClimateEntity.
Module Cabin := TeslemetryCabinOverheatProtectionEntity.

(** C9: whenever the snapshot is a mapping, a refresh of the climate
    entity ends with an HVAC mode that is [HEAT_COOL] or [OFF], never
    [None]; it is [OFF] when the climate-on value is [None] or missing. *)
Theorem hvac_mode_never_none
  (w : env) (s : Climate.entity) (l : log) (d : pydict) :
  Climate.coordinator_data s = PDict d ->
  exists s',
    Climate._async_update_attrs w s l = (Ret tt, s', l) /\
    Climate._attr_hvac_mode s' <> PNone /\
    (Climate._attr_hvac_mode s' = HVACMode.HEAT_COOL \/
     Climate._attr_hvac_mode s' = HVACMode.OFF) /\
    (dict_lookup d (PStr "climate_state_is_climate_on") = None \/
     dict_lookup d (PStr "climate_state_is_climate_on") = Some PNone ->
     Climate._attr_hvac_mode s' = HVACMode.OFF).
Proof.
  intros Hd. destruct s; simpl in Hd; subst.
  unfold Climate._async_update_attrs, TeslemetryVehicleEntity.get.
  unfold_monad. cbn -[String.append dict_get py_truthy is_none].
  set (v := dict_get d "climate_state_is_climate_on" PNone).
  assert (Hv : dict_lookup d (PStr "climate_state_is_climate_on") = None \/
               dict_lookup d (PStr "climate_state_is_climate_on") = Some PNone ->
               v = PNone).
  { unfold v, dict_get. intros [-> | ->]; reflexivity. }
  destruct (py_truthy v) eqn:Tv.
  - assert (v <> PNone) by (intros E; rewrite E in Tv; discriminate).
    destruct (is_none v); cbn -[String.append dict_get py_truthy];
      destruct (py_truthy (dict_get d "climate_state_bioweapon_mode" PNone));
      cbn -[String.append dict_get];
      eexists; (split; [reflexivity|]); cbn;
      (split; [discriminate|]); (split; [auto|]); intros H'; tauto.
  - destruct (is_none v); cbn -[String.append dict_get py_truthy];
      destruct (py_truthy (dict_get d "climate_state_bioweapon_mode" PNone));
      cbn -[String.append dict_get];
      eexists; (split; [reflexivity|]); cbn;
      (split; [discriminate|]); (split; [auto|]); reflexivity.
Qed.

Lemma hvac_mode_never_none_witness :
  exists s',
    Climate._async_update_attrs
      (answering (failing VehicleOffline) 0)
      (Climate.mkEntity
         (PDict [(PStr "climate_state_is_climate_on", PNone)])
         "driver_temp" true PNone PNone PNone PNone PNone PNone PNone)
      []
    = (Ret tt, s', []) /\
    Climate._attr_hvac_mode s' = HVACMode.OFF.
Proof.
  destruct (hvac_mode_never_none
              (answering (failing VehicleOffline) 0)
              (Climate.mkEntity
                 (PDict [(PStr "climate_state_is_climate_on", PNone)])
                 "driver_temp" true PNone PNone PNone PNone PNone PNone PNone)
              [] _ eq_refl)
    as (s' & Hrun & _ & _ & Hoff).
  exists s'. split; [exact Hrun|]. apply Hoff. right. reflexivity.
Defined.


(** ** Setting the temperature *)

(** Lines 169-173 and 317-321, the part of [async_set_temperature] that
    follows the temperature. *)
Definition climate_mode_step (kwargs : pydict) : M Climate.entity unit :=
  mode <- lift (py_getitem (PDict kwargs) ATTR_HVAC_MODE) ;;
  if py_truthy mode then Climate.async_set_hvac_mode mode
  else TeslemetryVehicleEntity.async_write_ha_state.

Definition cabin_mode_step (kwargs : pydict) : M Cabin.entity unit :=
  mode <- lift (py_getitem (PDict kwargs) ATTR_HVAC_MODE) ;;
  if py_truthy mode then Cabin.async_set_hvac_mode mode
  else TeslemetryVehicleEntity.async_write_ha_state.

(** The scope is held, the vehicle wakes up and accepts the command [c]. *)
Definition goes_through (w : env) (l : log) (c : command) : Prop :=
  wake_reply w l = None /\ command_reply w (l ++ [EvWakeUp]) c = None.

Ltac unfold_entity :=
  unfold TeslemetryVehicleEntity.raise_for_scope,
    TeslemetryVehicleEntity.wake_up_if_asleep,
    TeslemetryVehicleEntity.handle_command,
    TeslemetryVehicleEntity.async_write_ha_state.

(** The mode step leaves the target temperature alone and only adds to
    the log. *)
Lemma cabin_mode_step_frame (kwargs : pydict) (w : env)
  (s s' : Cabin.entity) (l l' : log) (o : outcome unit) :
  cabin_mode_step kwargs w s l = (o, s', l') ->
  Cabin._attr_target_temperature s' = Cabin._attr_target_temperature s /\
  exists l'', l' = l ++ l''.
Proof.
  unfold cabin_mode_step, Cabin.async_set_hvac_mode. unfold_entity.
  unfold_monad. simpl.
  split_paths; intros H; inversion H; subst; simpl; split; auto;
    rewrite <- ?app_assoc; eauto using app_nil_r.
Qed.

Lemma cabin_accepts (w : env) (s : Cabin.entity) (l : log)
  (kwargs : pydict) (temp : pyval) (level : CabinOverheatProtectionTemp) :
  py_getitem (PDict kwargs) ATTR_TEMPERATURE = Ret temp ->
  py_truthy temp = true ->
  Cabin.cop_mode_of temp = Ret level ->
  Cabin.scoped s = true ->
  goes_through w l (set_cop_temp level) ->
  Cabin.async_set_temperature kwargs w s l
  = cabin_mode_step kwargs w (Cabin.set_target_temperature temp s)
      (l ++ [EvWakeUp; EvCommand (set_cop_temp level)]).
Proof.
  intros Hk Ht Hc Hs [Hw Hcmd].
  unfold Cabin.async_set_temperature, cabin_mode_step. unfold_entity.
  unfold_monad. rewrite Hk, Ht, Hc, Hs, Hw, Hcmd.
  now rewrite <- app_assoc.
Qed.

Lemma cabin_rejects (w : env) (s : Cabin.entity) (l : log)
  (kwargs : pydict) (temp : pyval) :
  py_getitem (PDict kwargs) ATTR_TEMPERATURE = Ret temp ->
  py_truthy temp = true ->
  py_eq temp (PInt 30) = false ->
  py_eq temp (PInt 35) = false ->
  py_eq temp (PInt 40) = false ->
  Cabin.async_set_temperature kwargs w s l
  = (Raise (ServiceValidationError "Invalid temperature"), s, l).
Proof.
  intros Hk Ht H30 H35 H40.
  unfold Cabin.async_set_temperature, Cabin.cop_mode_of. unfold_monad.
  now rewrite Hk, Ht, H30, H35, H40.
Qed.

Lemma cabin_skips_falsy (w : env) (s : Cabin.entity) (l : log)
  (kwargs : pydict) (temp : pyval) :
  py_getitem (PDict kwargs) ATTR_TEMPERATURE = Ret temp ->
  py_truthy temp = false ->
  Cabin.async_set_temperature kwargs w s l = cabin_mode_step kwargs w s l.
Proof.
  intros Hk Ht.
  unfold Cabin.async_set_temperature, cabin_mode_step. unfold_monad.
  now rewrite Hk, Ht.
Qed.

Lemma inject_Z_eq (a b : Z) : Qeq_bool (inject_Z a) (inject_Z b) = true -> a = b.
Proof.
  intros H. apply Qeq_bool_iff in H. unfold Qeq in H. simpl in H. lia.
Qed.

(** A value equal to two integers: the integers are the same. *)
Lemma py_eq_int_unique (v : pyval) (a b : Z) :
  py_eq v (PInt a) = true -> py_eq v (PInt b) = true -> a = b.
Proof.
  destruct v as [|x|z|[q|neg|]|str|items|items]; unfold py_eq; simpl;
    try discriminate; intros Ha Hb.
  - apply inject_Z_eq in Ha, Hb. congruence.
  - apply inject_Z_eq in Ha, Hb. congruence.
  - apply Qeq_bool_iff in Ha, Hb. rewrite Ha in Hb.
    apply Qeq_bool_iff in Hb. now apply inject_Z_eq.
Qed.

(** A value equal to an integer other than zero is true. *)
Lemma py_eq_int_truthy (v : pyval) (n : Z) :
  n <> 0 -> py_eq v (PInt n) = true -> py_truthy v = true.
Proof.
  intros Hn.
  destruct v as [|x|z|[q|neg|]|str|items|items]; unfold py_eq; simpl;
    try discriminate; intros H.
  - apply inject_Z_eq in H. destruct x; simpl in H; [reflexivity|congruence].
  - apply inject_Z_eq in H. subst z.
    apply negb_true_iff, Z.eqb_neq. exact Hn.
  - apply negb_true_iff. destruct (Qeq_bool q 0) eqn:E; [|reflexivity].
    exfalso. apply Hn. apply Qeq_bool_iff in H, E. rewrite E in H.
    apply inject_Z_eq. now apply Qeq_bool_iff.
Qed.

Lemma cop_mode_of_table (temp : pyval) (n : Z) (level : CabinOverheatProtectionTemp) :
  (n, level) = (30, LOW) \/ (n, level) = (35, MEDIUM) \/
  (n, level) = (40, HIGH) ->
  py_eq temp (PInt n) = true ->
  Cabin.cop_mode_of temp = Ret level /\ py_truthy temp = true.
Proof.
  intros Hn He. split.
  - unfold Cabin.cop_mode_of.
    destruct Hn as [Hn|[Hn|Hn]]; injection Hn as -> ->.
    + now rewrite He.
    + destruct (py_eq temp (PInt 30)) eqn:E30.
      * pose proof (py_eq_int_unique _ _ _ E30 He). discriminate.
      * now rewrite He.
    + destruct (py_eq temp (PInt 30)) eqn:E30.
      * pose proof (py_eq_int_unique _ _ _ E30 He). discriminate.
      * destruct (py_eq temp (PInt 35)) eqn:E35.
        -- pose proof (py_eq_int_unique _ _ _ E35 He). discriminate.
        -- now rewrite He.
  - apply (py_eq_int_truthy temp n); [|exact He].
    destruct Hn as [Hn|[Hn|Hn]]; injection Hn as -> _; discriminate.
Qed.

(** C4, as the code has it: a requested temperature equal to 30, 35 or
    40 sends the vendor command [set_cop_temp] with [LOW], [MEDIUM] or
    [HIGH] once the scope is held and the vehicle is awake, and is stored
    as the target temperature once the command is accepted; any other
    temperature that is not zero is rejected with the validation error,
    nothing being sent or stored; a temperature of zero is taken as no
    temperature at all, and the method goes on with the HVAC mode. *)
Theorem cop_set_temperature (w : env) (s : Cabin.entity) (l : log)
  (kwargs : pydict) (temp : pyval) :
  py_getitem (PDict kwargs) ATTR_TEMPERATURE = Ret temp ->
  (forall n level,
      (n, level) = (30, LOW) \/ (n, level) = (35, MEDIUM) \/
      (n, level) = (40, HIGH) ->
      py_eq temp (PInt n) = true ->
      Cabin.scoped s = true ->
      goes_through w l (set_cop_temp level) ->
      exists o s' l',
        Cabin.async_set_temperature kwargs w s l
        = (o, s', l ++ [EvWakeUp; EvCommand (set_cop_temp level)] ++ l') /\
        Cabin._attr_target_temperature s' = temp) /\
  (py_truthy temp = true ->
   py_eq temp (PInt 30) = false ->
   py_eq temp (PInt 35) = false ->
   py_eq temp (PInt 40) = false ->
   Cabin.async_set_temperature kwargs w s l
   = (Raise (ServiceValidationError "Invalid temperature"), s, l)) /\
  (py_truthy temp = false ->
   Cabin.async_set_temperature kwargs w s l = cabin_mode_step kwargs w s l).
Proof.
  intros Hk. split; [|split].
  - intros n level Hn He Hs Hgo.
    destruct (cop_mode_of_table temp n level Hn He) as [Hc Ht].
    rewrite (cabin_accepts w s l kwargs temp level Hk Ht Hc Hs Hgo).
    destruct (cabin_mode_step kwargs w (Cabin.set_target_temperature temp s)
                (l ++ [EvWakeUp; EvCommand (set_cop_temp level)]))
      as [[o s'] l'] eqn:E.
    destruct (cabin_mode_step_frame _ _ _ _ _ _ _ E) as (Ht' & l'' & ->).
    exists o, s', l''. split.
    + now rewrite <- app_assoc.
    + exact Ht'.
  - apply cabin_rejects; assumption.
  - apply cabin_skips_falsy; assumption.
Qed.

(** C4 as stated fails at a temperature of zero: it is a number other
    than 30, 35 and 40, and the call is not rejected. *)
Lemma zero_temperature_not_rejected :
  let temp := PFloat (Finite 0) in
  py_num temp <> None /\
  py_eq temp (PInt 30) = false /\
  py_eq temp (PInt 35) = false /\
  py_eq temp (PInt 40) = false /\
  Cabin.async_set_temperature
    [(PStr "temperature", temp); (PStr "hvac_mode", PNone)]
    quiet cabin_entity []
  = (Ret tt, cabin_entity, [EvWriteState]).
Proof. vm_compute. repeat split. discriminate. Qed.

Lemma cop_set_temperature_witness :
  exists o s' l',
    Cabin.async_set_temperature
      [(PStr "temperature", PFloat (Finite 35)); (PStr "hvac_mode", PNone)]
      quiet cabin_entity []
    = (o, s', [EvWakeUp; EvCommand (set_cop_temp MEDIUM)] ++ l') /\
    Cabin._attr_target_temperature s' = PFloat (Finite 35).
Proof.
  apply (proj1 (cop_set_temperature
                  quiet cabin_entity []
                  [(PStr "temperature", PFloat (Finite 35));
                   (PStr "hvac_mode", PNone)]
                  (PFloat (Finite 35)) eq_refl)
               35 MEDIUM).
  - right. left. reflexivity.
  - reflexivity.
  - reflexivity.
  - split; reflexivity.
Defined.

(** ** A keyword argument is missing *)

Lemma getitem_missing (kwargs : pydict) (k : string) :
  dict_lookup kwargs (PStr k) = None ->
  py_getitem (PDict kwargs) k = Raise (KeyError (PStr k)).
Proof. intros H. simpl. now rewrite H. Qed.

Lemma getitem_present (kwargs : pydict) (k : string) (v : pyval) :
  dict_lookup kwargs (PStr k) = Some v ->
  py_getitem (PDict kwargs) k = Ret v.
Proof. intros H. simpl. now rewrite H. Qed.

(** C10, as the code has it.  When the temperature is not among the
    keyword arguments, both methods raise the [KeyError] at once: nothing
    is sent and nothing changes.  When only the HVAC mode is missing, the
    [KeyError] comes after the temperature has been dealt with: for a
    temperature that is not true, nothing has happened before it; for a
    temperature that is true and goes through, the vendor command has
    been sent and the target temperature stored by the time it is
    raised. *)
Theorem set_temperature_missing_key
  (w : env) (l : log) (kwargs : pydict) :
  (dict_lookup kwargs (PStr ATTR_TEMPERATURE) = None ->
   (forall s,
       Climate.async_set_temperature kwargs w s l
       = (Raise (KeyError (PStr ATTR_TEMPERATURE)), s, l)) /\
   (forall s,
       Cabin.async_set_temperature kwargs w s l
       = (Raise (KeyError (PStr ATTR_TEMPERATURE)), s, l))) /\
  (forall temp,
      dict_lookup kwargs (PStr ATTR_TEMPERATURE) = Some temp ->
      dict_lookup kwargs (PStr ATTR_HVAC_MODE) = None ->
      (py_truthy temp = false ->
       (forall s,
           Climate.async_set_temperature kwargs w s l
           = (Raise (KeyError (PStr ATTR_HVAC_MODE)), s, l)) /\
       (forall s,
           Cabin.async_set_temperature kwargs w s l
           = (Raise (KeyError (PStr ATTR_HVAC_MODE)), s, l))) /\
      (py_truthy temp = true ->
       (forall s,
           Climate.scoped s = true ->
           goes_through w l (set_temps temp temp) ->
           Climate.async_set_temperature kwargs w s l
           = (Raise (KeyError (PStr ATTR_HVAC_MODE)),
              Climate.set_target_temperature temp s,
              l ++ [EvWakeUp; EvCommand (set_temps temp temp)])) /\
       (forall s level,
           Cabin.cop_mode_of temp = Ret level ->
           Cabin.scoped s = true ->
           goes_through w l (set_cop_temp level) ->
           Cabin.async_set_temperature kwargs w s l
           = (Raise (KeyError (PStr ATTR_HVAC_MODE)),
              Cabin.set_target_temperature temp s,
              l ++ [EvWakeUp; EvCommand (set_cop_temp level)])))).
Proof.
  split.
  - intros Hk. apply getitem_missing in Hk. split; intros s.
    + unfold Climate.async_set_temperature. unfold_monad. now rewrite Hk.
    + unfold Cabin.async_set_temperature. unfold_monad. now rewrite Hk.
  - intros temp Hk Hm.
    apply getitem_present in Hk. apply getitem_missing in Hm.
    split; intros Ht.
    + split; intros s.
      * unfold Climate.async_set_temperature. unfold_monad.
        now rewrite Hk, Ht, Hm.
      * unfold Cabin.async_set_temperature. unfold_monad.
        now rewrite Hk, Ht, Hm.
    + split.
      * intros s Hs [Hw Hc].
        unfold Climate.async_set_temperature. unfold_entity. unfold_monad.
        rewrite Hk, Ht, Hs, Hw, Hc, Hm. now rewrite <- app_assoc.
      * intros s level Hl Hs [Hw Hc].
        unfold Cabin.async_set_temperature. unfold_entity. unfold_monad.
        rewrite Hk, Ht, Hl, Hs, Hw, Hc, Hm. now rewrite <- app_assoc.
Qed.

(** C10 as stated fails when only the HVAC mode is missing: the
    [KeyError] is raised after the vendor command [set_temps] was sent. *)
Lemma key_error_after_command :
  Climate.async_set_temperature
    [(PStr "temperature", PFloat (Finite 22))] quiet climate_entity []
  = (Raise (KeyError (PStr "hvac_mode")),
     Climate.set_target_temperature (PFloat (Finite 22)) climate_entity,
     [EvWakeUp;
      EvCommand (set_temps (PFloat (Finite 22)) (PFloat (Finite 22)))]).
Proof. reflexivity. Qed.

Lemma set_temperature_missing_key_witness :
  Cabin.async_set_temperature
    [(PStr "temperature", PInt 40)] quiet cabin_entity []
  = (Raise (KeyError (PStr "hvac_mode")),
     Cabin.set_target_temperature (PInt 40) cabin_entity,
     [EvWakeUp; EvCommand (set_cop_temp HIGH)]).
Proof.
  apply (proj2 (proj2 (proj2 (set_temperature_missing_key
                                quiet [] [(PStr "temperature", PInt 40)])
                             (PInt 40) eq_refl eq_refl)
                      eq_refl)
               cabin_entity HIGH eq_refl eq_refl).
  split; reflexivity.
Defined.

End ClimateFacts.

(* ================================================================== *)
(** * The history coordinator: sums over the time series *)
(* ================================================================== *)

Module HistoryFacts.
Import Energy.
Module History := TeslemetryEnergyHistoryCoordinator.

Section WithConst.
Variable ENERGY_HISTORY_FIELDS : list string.
Variable float_add : pyfloat -> pyfloat -> pyfloat.
Variable float_of_int : Z -> outcome pyfloat.

Local Abbreviation num_add := (History.num_add float_add float_of_int).
Local Abbreviation add_field := (History.add_field float_add float_of_int).
Local Abbreviation add_period := (History.add_period float_add float_of_int).
Local Abbreviation add_periods :=
  (History.add_periods ENERGY_HISTORY_FIELDS float_add float_of_int).
Local Abbreviation zeros := (History.zeros ENERGY_HISTORY_FIELDS).
Local Abbreviation _async_update_data :=
  (History._async_update_data ENERGY_HISTORY_FIELDS float_add float_of_int).

(** The sum of a sequence of values as Python's [sum] computes it: from
    the integer 0, adding from left to right. *)
Fixpoint sum_from (acc : pyval) (values : list pyval) : outcome pyval :=
  match values with
  | [] => Ret acc
  | v :: rest => acc' <~ num_add acc v ;; sum_from acc' rest
  end.

Definition py_sum (values : list pyval) : outcome pyval :=
  sum_from (PInt 0) values.

(** The time buckets of a response are records: mappings. *)
Definition records (periods : list pyval) : Prop :=
  Forall (fun p => is_dict p = true) periods.

(** What a record holds for a field, 0 when it does not have it. *)
Definition field_of (key : string) (period : pyval) : pyval :=
  match period with
  | PDict p => dict_get p key (PInt 0)
  | _ => PInt 0
  end.

(** The values of a field over the time buckets. *)
Definition column (key : string) (periods : list pyval) : list pyval :=
  map (field_of key) periods.

(** ** The dictionary of zeros *)

Lemma py_eq_str_neq (a b : string) : a <> b -> py_eq (PStr a) (PStr b) = false.
Proof. intros H. unfold py_eq; simpl. now apply String.eqb_neq. Qed.

Lemma dict_set_fresh (d : pydict) (k : string) (v : pyval) :
  dict_lookup d (PStr k) = None ->
  dict_set d (PStr k) v = d ++ [(PStr k, v)].
Proof.
  induction d as [|[k' v'] d IH]; simpl; [reflexivity|].
  destruct (py_eq k' (PStr k)); [discriminate|].
  intros H. now rewrite IH.
Qed.

Lemma lookup_strs_none (keys : list string) (k : string) (v : pyval) :
  ~ In k keys ->
  dict_lookup (map (fun key => (PStr key, v)) keys) (PStr k) = None.
Proof.
  induction keys as [|key keys IH]; simpl; [reflexivity|].
  intros H. rewrite py_eq_str_neq by intuition congruence.
  apply IH. intuition.
Qed.

Lemma lookup_strs_some (keys : list string) (k : string) (v : pyval) :
  In k keys ->
  dict_lookup (map (fun key => (PStr key, v)) keys) (PStr k) = Some v.
Proof.
  induction keys as [|key keys IH]; simpl; [tauto|].
  destruct (String.eqb key k) eqn:E.
  - apply String.eqb_eq in E. subst. now rewrite py_eq_str_refl.
  - apply String.eqb_neq in E. rewrite py_eq_str_neq by exact E.
    intros [H|H]; [congruence|auto].
Qed.

Lemma zeros_from (keys done : list string) :
  NoDup (done ++ keys) ->
  fold_left (fun acc key => dict_set acc (PStr key) (PInt 0)) keys
            (map (fun key => (PStr key, PInt 0)) done)
  = map (fun key => (PStr key, PInt 0)) (done ++ keys).
Proof.
  revert done. induction keys as [|key keys IH]; intros done Hnd; simpl.
  - now rewrite app_nil_r.
  - rewrite dict_set_fresh.
    + replace (map (fun key0 => (PStr key0, PInt 0)) done ++ [(PStr key, PInt 0)])
        with (map (fun key0 => (PStr key0, PInt 0)) (done ++ [key]))
        by (now rewrite map_app).
      rewrite IH; rewrite <- app_assoc; simpl; auto.
    + apply lookup_strs_none. apply NoDup_remove_2 in Hnd.
      intros H. apply Hnd. apply in_or_app. now left.
Qed.

Lemma zeros_nodup :
  NoDup ENERGY_HISTORY_FIELDS ->
  zeros = map (fun key => (PStr key, PInt 0)) ENERGY_HISTORY_FIELDS.
Proof.
  intros H. unfold History.zeros.
  exact (zeros_from ENERGY_HISTORY_FIELDS [] H).
Qed.


(** ** One time bucket *)

Lemma add_period_spec (p : pydict) (keys : list string) :
  NoDup keys ->
  forall (output : pydict) (acc acc' : string -> pyval),
    (forall key, In key keys -> dict_lookup output (PStr key) = Some (acc key)) ->
    (forall key, In key keys ->
                 num_add (acc key) (field_of key (PDict p)) = Ret (acc' key)) ->
    exists output',
      add_period (PDict p) keys output = Ret output' /\
      dict_keys output' = dict_keys output /\
      (forall key, In key keys ->
                   dict_lookup output' (PStr key) = Some (acc' key)) /\
      (forall key, ~ In key keys ->
                   dict_lookup output' (PStr key) = dict_lookup output (PStr key)).
Proof.
  induction 1 as [|key keys Hnotin Hnd IH]; intros output acc acc' Hacc Hadd.
  - exists output. simpl. repeat split; auto. intros key [].
  - simpl. unfold History.add_field. simpl.
    rewrite (Hacc key) by (now left). simpl.
    fold (field_of key (PDict p)).
    rewrite (Hadd key) by (now left).
    destruct (IH (dict_set output (PStr key) (acc' key)) acc acc')
      as (output' & Hrun & Hkeys & Hin & Hout).
    + intros k Hk. rewrite dict_lookup_set_other.
      * apply Hacc. now right.
      * apply py_eq_str_neq. intros ->. contradiction.
    + intros k Hk. apply Hadd. now right.
    + exists output'. rewrite Hrun. repeat split.
      * rewrite Hkeys. eapply dict_keys_set_present. apply Hacc. now left.
      * intros k [<-|Hk].
        -- rewrite Hout by assumption. apply dict_lookup_set_same.
        -- now apply Hin.
      * intros k Hk. rewrite Hout by (simpl in Hk; tauto).
        apply dict_lookup_set_other. apply py_eq_str_neq.
        simpl in Hk. intros ->. tauto.
Qed.

(** ** All the time buckets *)

Lemma add_periods_spec (periods : list pyval) :
  NoDup ENERGY_HISTORY_FIELDS ->
  records periods ->
  forall (output : pydict) (acc total : string -> pyval),
    (forall key, In key ENERGY_HISTORY_FIELDS ->
                 dict_lookup output (PStr key) = Some (acc key)) ->
    (forall key, In key ENERGY_HISTORY_FIELDS ->
                 sum_from (acc key) (column key periods) = Ret (total key)) ->
    exists output',
      add_periods periods output = Ret output' /\
      dict_keys output' = dict_keys output /\
      (forall key, In key ENERGY_HISTORY_FIELDS ->
                   dict_lookup output' (PStr key) = Some (total key)).
Proof.
  intros Hnd Hrec. induction Hrec as [|period periods Hp Hrec IH];
    intros output acc total Hacc Hsum.
  - exists output. simpl. repeat split; auto.
    intros key Hk. rewrite (Hacc key Hk). specialize (Hsum key Hk).
    simpl in Hsum. congruence.
  - destruct period as [| | | | | |p]; try discriminate.
    set (acc' := fun key =>
                   match num_add (acc key) (field_of key (PDict p)) with
                   | Ret x => x
                   | Raise _ => PNone
                   end).
    assert (Hstep : forall key, In key ENERGY_HISTORY_FIELDS ->
                      num_add (acc key) (field_of key (PDict p)) = Ret (acc' key) /\
                      sum_from (acc' key) (column key periods) = Ret (total key)).
    { intros key Hk. specialize (Hsum key Hk).
      unfold column in Hsum. cbn [map sum_from] in Hsum.
      fold (column key periods) in Hsum. unfold obind in Hsum. unfold acc'.
      destruct (num_add (acc key) (field_of key (PDict p)));
        [auto|discriminate]. }
    destruct (add_period_spec p ENERGY_HISTORY_FIELDS Hnd output acc acc' Hacc)
      as (output1 & Hrun1 & Hkeys1 & Hin1 & _).
    { intros key Hk. apply Hstep, Hk. }
    destruct (IH output1 acc' total Hin1) as (output' & Hrun & Hkeys & Hin).
    { intros key Hk. apply Hstep, Hk. }
    exists output'. simpl. rewrite Hrun1, Hrun. repeat split; auto.
    congruence.
Qed.

(** ** Sums of integers *)

Fixpoint total_of (zs : list Z) : Z :=
  match zs with
  | [] => 0
  | z :: rest => z + total_of rest
  end.

Lemma sum_from_ints (zs : list Z) (a : Z) :
  sum_from (PInt a) (map PInt zs) = Ret (PInt (a + total_of zs)).
Proof.
  revert a. induction zs as [|z zs IH]; intros a; simpl.
  - now rewrite Z.add_0_r.
  - rewrite IH. now rewrite Z.add_assoc.
Qed.


Lemma zeros_lookup (key : string) :
  NoDup ENERGY_HISTORY_FIELDS -> In key ENERGY_HISTORY_FIELDS ->
  dict_lookup zeros (PStr key) = Some (PInt 0).
Proof.
  intros Hnd Hk. rewrite zeros_nodup by exact Hnd.
  now apply lookup_strs_some.
Qed.

Lemma zeros_keys :
  NoDup ENERGY_HISTORY_FIELDS ->
  dict_keys zeros = map PStr ENERGY_HISTORY_FIELDS.
Proof.
  intros Hnd. rewrite zeros_nodup by exact Hnd.
  unfold dict_keys. rewrite map_map. reflexivity.
Qed.


End WithConst.

Import Sample.

(** Two tracked fields and two time buckets, the second of which lacks
    one field. *)
Definition two_fields : list string :=
  ["solar_energy_exported"; "battery_energy_exported"].

Definition two_buckets : list pyval :=
  [PDict [(PStr "timestamp", PStr "2024-03-01T00:00:00");
          (PStr "solar_energy_exported", PInt 3);
          (PStr "battery_energy_exported", PInt 5)];
   PDict [(PStr "timestamp", PStr "2024-03-01T00:05:00");
          (PStr "solar_energy_exported", PInt 4)]].

Definition history_response : request -> outcome pyval :=
  fun _ => Ret (PDict [(PStr "response",
                        PDict [(PStr "time_series", PList two_buckets)])]).

(** A stand-in for binary64 arithmetic, which integer data never calls. *)
Definition no_float_add (x y : pyfloat) : pyfloat := NaN.
Definition no_float_of_int (z : Z) : outcome pyfloat := Ret NaN.


End HistoryFacts.

(* ================================================================== *)
(** * The live coordinator: wall connectors by din *)
(* ================================================================== *)

Module LiveFacts.
Import Energy Sample.
Module Live := TeslemetryEnergySiteLiveCoordinator.

(** The key under which a record goes into the mapping: what it holds
    under ["din"], which has to be hashable. *)
Definition din_of (wc : pyval) : option pyval :=
  match py_getitem wc "din" with
  | Ret din => if hashable din then Some din else None
  | Raise _ => None
  end.

(** No key equals a later one. *)
Fixpoint distinct (keys : list pyval) : Prop :=
  match keys with
  | [] => True
  | k :: rest => Forall (fun k' => py_eq k k' = false) rest /\ distinct rest
  end.

Lemma dict_set_new (acc : pydict) (k v : pyval) :
  Forall (fun k' => py_eq k' k = false) (dict_keys acc) ->
  dict_set acc k v = acc ++ [(k, v)].
Proof.
  induction acc as [|[k' v'] acc IH]; simpl; [reflexivity|].
  intros H. inversion H as [|? ? Hk Hrest]; subst.
  rewrite Hk. now rewrite IH.
Qed.

Lemma by_din_spec (wcs dins : list pyval) :
  map din_of wcs = map Some dins ->
  distinct dins ->
  forall acc,
    Forall (fun k' => Forall (fun k => py_eq k' k = false) dins) (dict_keys acc) ->
    Live.by_din wcs acc = Ret (acc ++ combine dins wcs).
Proof.
  revert dins. induction wcs as [|wc wcs IH]; intros [|din dins] Hm Hd acc Hacc;
    try discriminate; simpl.
  - now rewrite app_nil_r.
  - simpl in Hm. injection Hm as Hwc Hm. destruct Hd as [Hlater Hd].
    unfold din_of in Hwc.
    destruct (py_getitem wc "din") as [x|]; [|discriminate].
    destruct (hashable x); [|discriminate]. injection Hwc as ->.
    rewrite dict_set_new.
    + rewrite (IH dins Hm Hd).
      * now rewrite <- app_assoc.
      * unfold dict_keys. rewrite map_app. apply Forall_app. split.
        -- eapply Forall_impl; [|exact Hacc]. intros k' Hk'.
           now inversion Hk'.
        -- simpl. constructor; [exact Hlater|constructor].
    + eapply Forall_impl; [|exact Hacc]. intros k' Hk'. now inversion Hk'.
Qed.

(** C6: when the live status holds a list of wall-connector records
    under distinct dins, the data returned holds under
    ["wall_connectors"] the mapping with one entry per record, in order,
    from the record's din to the record; when it holds no list there, or
    nothing, or is not a mapping at all, the data returned holds the
    empty mapping. *)
Theorem wall_connectors_by_din
  (w : env) (s : coordinator) (l : log) (response d : pyval) :
  api_reply w l ReqLiveStatus = Ret response ->
  py_getitem response "response" = Ret d ->
  (forall wcs dins,
      py_get (placeholder d) "wall_connectors" PNone = Ret (PList wcs) ->
      map din_of wcs = map Some dins ->
      distinct dins ->
      exists out,
        Live._async_update_data w s l
        = (Ret (PDict out), s,
           l ++ [EvRequest ReqLiveStatus; EvFire "teslemetry_live_status"]) /\
        dict_lookup out (PStr "wall_connectors")
        = Some (PDict (combine dins wcs)) /\
        List.length (combine dins wcs) = List.length wcs) /\
  (forall v,
      py_get (placeholder d) "wall_connectors" PNone = Ret v ->
      is_list v = false ->
      exists out,
        Live._async_update_data w s l
        = (Ret (PDict out), s,
           l ++ [EvRequest ReqLiveStatus; EvFire "teslemetry_live_status"]) /\
        dict_lookup out (PStr "wall_connectors") = Some (PDict [])).
Proof.
  intros Hw Hr.
  assert (Hp : exists dd, placeholder d = PDict dd).
  { unfold placeholder. destruct d; simpl; eauto. }
  destruct Hp as [dd Hp].
  split.
  - intros wcs dins Hg Hm Hd.
    exists (dict_set dd (PStr "wall_connectors") (PDict (combine dins wcs))).
    split; [|split].
    + unfold Live._async_update_data, fetch. unfold_monad.
      rewrite Hw. cbn [fst snd]. rewrite Hr. cbn iota beta.
      rewrite Hg. cbn [is_list].
      rewrite Hp in *. simpl in Hg. injection Hg as Hg.
      unfold py_getitem, dict_get in *.
      destruct (dict_lookup dd (PStr "wall_connectors")) as [x|];
        [|discriminate].
      subst x. cbn [py_iter].
      rewrite (by_din_spec wcs dins Hm Hd []) by constructor.
      simpl. now rewrite <- app_assoc.
    + apply dict_lookup_set_same.
    + rewrite length_combine.
      assert (List.length wcs = List.length dins).
      { apply (f_equal (@List.length _)) in Hm.
        now rewrite !length_map in Hm. }
      lia.
  - intros v Hg Hv.
    exists (dict_set dd (PStr "wall_connectors") (PDict [])).
    split.
    + unfold Live._async_update_data, fetch. unfold_monad.
      rewrite Hw. cbn [fst snd]. rewrite Hr. cbn iota beta.
      rewrite Hg, Hv. rewrite Hp. simpl. now rewrite <- app_assoc.
    + apply dict_lookup_set_same.
Qed.

(** Two wall connectors. *)
Definition connector (din : string) (power : Z) : pyval :=
  PDict [(PStr "din", PStr din); (PStr "wall_connector_power", PInt power)].

Definition live_response : request -> outcome pyval :=
  fun _ =>
    Ret (PDict
           [(PStr "response",
             PDict [(PStr "solar_power", PInt 1200);
                    (PStr "wall_connectors",
                     PList [connector "1457768-A" 0;
                            connector "1457768-B" 7200])])]).

Lemma wall_connectors_by_din_witness :
  exists out,
    Live._async_update_data (answering live_response 0)
                            (mkCoordinator PNone 0) []
    = (Ret (PDict out), mkCoordinator PNone 0,
       [EvRequest ReqLiveStatus; EvFire "teslemetry_live_status"]) /\
    dict_lookup out (PStr "wall_connectors")
    = Some (PDict [(PStr "1457768-A", connector "1457768-A" 0);
                   (PStr "1457768-B", connector "1457768-B" 7200)]).
Proof.
  destruct (proj1 (wall_connectors_by_din
                     (answering live_response 0) (mkCoordinator PNone 0) []
                     _ _ eq_refl eq_refl)
              [connector "1457768-A" 0; connector "1457768-B" 7200]
              [PStr "1457768-A"; PStr "1457768-B"]
              eq_refl eq_refl)
    as (out & Hrun & Hwc & _).
  - simpl. repeat constructor.
  - exists out. split; [exact Hrun | exact Hwc].
Defined.

End LiveFacts.

(* ================================================================== *)
(** * The update entity: installed and latest version *)
(* ================================================================== *)

Module UpdateFacts.
Import Sample.
Module Update := TeslemetryUpdateEntity.

(** The specification speaks of "the first whitespace-delimited token"
    of the version string: leading whitespace is skipped and the token
    runs up to the next whitespace character. *)
Definition is_whitespace (c : ascii) : bool :=
  let n := nat_of_ascii c in
  ((9 <=? n) && (n <=? 13))%nat || (n =? 32)%nat.

Fixpoint take_token (s : string) : string :=
  match s with
  | EmptyString => EmptyString
  | String c rest =>
      if is_whitespace c then EmptyString else String c (take_token rest)
  end.

Fixpoint first_whitespace_token (s : string) : string :=
  match s with
  | EmptyString => EmptyString
  | String c rest =>
      if is_whitespace c then first_whitespace_token rest
      else String c (take_token rest)
  end.

(** What the code takes: the part of a string before its first space,
    the whole string when it has none. *)
Fixpoint before_space (s : string) : string :=
  match s with
  | EmptyString => EmptyString
  | String c rest =>
      if Ascii.eqb c " "%char then EmptyString
      else String c (before_space rest)
  end.

Fixpoint has_space (s : string) : bool :=
  match s with
  | EmptyString => false
  | String c rest => Ascii.eqb c " "%char || has_space rest
  end.

Lemma split_space_hd (s : string) :
  hd EmptyString (split_space s) = before_space s.
Proof.
  induction s as [|c s IH]; simpl; [reflexivity|].
  destruct (Ascii.eqb c " "%char); [reflexivity|].
  destruct (split_space s); simpl in *; now rewrite <- IH.
Qed.

Lemma before_space_spec (s : string) :
  has_space (before_space s) = false /\
  (s = before_space s \/
   exists rest, s = (before_space s ++ String " "%char rest)%string).
Proof.
  induction s as [|c s [IH1 IH2]]; simpl; [auto|].
  destruct (Ascii.eqb c " "%char) eqn:E; simpl.
  - split; [reflexivity|]. right. exists s.
    apply Ascii.eqb_eq in E. now subst.
  - rewrite E. split; [exact IH1|].
    destruct IH2 as [IH2|[rest IH2]].
    + left. now rewrite <- IH2.
    + right. exists rest. now rewrite <- IH2.
Qed.

(** The two agree on the strings the vehicle reports, a version and a
    build separated by a space: strings that do not start with a space
    and have no other whitespace than spaces. *)
Fixpoint only_spaces (s : string) : bool :=
  match s with
  | EmptyString => true
  | String c rest =>
      (negb (is_whitespace c) || Ascii.eqb c " "%char) && only_spaces rest
  end.

Definition starts_with_space (s : string) : bool :=
  match s with
  | String c _ => Ascii.eqb c " "%char
  | EmptyString => false
  end.

Lemma take_token_before_space (s : string) :
  only_spaces s = true -> take_token s = before_space s.
Proof.
  induction s as [|c s IH]; simpl; [reflexivity|].
  intros H. apply andb_true_iff in H as [Hc Hs].
  destruct (Ascii.eqb c " "%char) eqn:E.
  - apply Ascii.eqb_eq in E. now subst c.
  - rewrite orb_false_r in Hc. apply negb_true_iff in Hc.
    rewrite Hc. now rewrite IH.
Qed.

Lemma first_token_before_space (s : string) :
  only_spaces s = true -> starts_with_space s = false ->
  first_whitespace_token s = before_space s.
Proof.
  destruct s as [|c s]; simpl; [reflexivity|].
  intros H E. rewrite E in *. apply andb_true_iff in H as [Hc Hs].
  rewrite orb_false_r in Hc. apply negb_true_iff in Hc. rewrite Hc.
  now rewrite take_token_before_space.
Qed.

Section WithConst.
Variables AVAILABLE SCHEDULED INSTALLING DOWNLOADING WIFI_WAIT : string.

Local Abbreviation _async_update_attrs :=
  (Update._async_update_attrs
     AVAILABLE SCHEDULED INSTALLING DOWNLOADING WIFI_WAIT).

(** The status is one of those that announce an update. *)
Definition pending (status : pyval) : bool :=
  Update.py_in status [AVAILABLE; SCHEDULED; INSTALLING; DOWNLOADING; WIFI_WAIT].

(** C7, as the code has it: after a refresh over a snapshot whose car
    version is the string [raw], the installed version is the part of
    [raw] before its first space character; the latest version is what
    the snapshot holds as the software-update version when the status is
    one of available, scheduled, installing, downloading and wifi-wait,
    and the installed version otherwise. *)
Theorem update_versions
  (w : env) (s : Update.entity) (l : log) (d : pydict) (raw : string) :
  Update.coordinator_data s = PDict d ->
  dict_lookup d (PStr "vehicle_state_car_version") = Some (PStr raw) ->
  (pending (dict_get d Update.key PNone) = true ->
   forall latest,
     dict_lookup d (PStr "vehicle_state_software_update_version") = Some latest ->
     exists s',
       _async_update_attrs w s l = (Ret tt, s', l) /\
       Update._attr_installed_version s' = PStr (before_space raw) /\
       Update._attr_latest_version s' = latest) /\
  (pending (dict_get d Update.key PNone) = false ->
   exists s',
     _async_update_attrs w s l = (Ret tt, s', l) /\
     Update._attr_installed_version s' = PStr (before_space raw) /\
     Update._attr_latest_version s' = PStr (before_space raw)) /\
  has_space (before_space raw) = false /\
  (raw = before_space raw \/
   exists rest, raw = (before_space raw ++ String " "%char rest)%string).
Proof.
  intros Hd Hraw. destruct s as [cd sc sf iv lv ip]. simpl in Hd. subst cd.
  assert (Hget : dict_get d "vehicle_state_car_version" PNone = PStr raw).
  { unfold dict_get. now rewrite Hraw. }
  split; [|split; [|apply before_space_spec]].
  - intros Hp latest Hl. unfold pending in Hp.
    unfold Update._async_update_attrs, Update._value,
      TeslemetryVehicleEntity.get.
    unfold_monad. cbn -[dict_get Update.py_in split_space].
    destruct sc; cbn -[dict_get Update.py_in split_space];
      try destruct (Update.py_in (dict_get d Update.key PNone)
                                 [AVAILABLE; SCHEDULED]);
      cbn -[dict_get Update.py_in split_space];
      rewrite Hget; cbn -[dict_get Update.py_in split_space];
      rewrite Hp; cbn -[dict_get Update.py_in split_space];
      rewrite Hl; cbn -[dict_get Update.py_in split_space];
      destruct (Update.py_in (dict_get d Update.key PNone)
                             [SCHEDULED; INSTALLING]);
      cbn -[dict_get Update.py_in split_space];
      eexists; (split; [reflexivity|]); simpl;
      rewrite split_space_hd; auto.
  - intros Hp. unfold pending in Hp.
    unfold Update._async_update_attrs, Update._value,
      TeslemetryVehicleEntity.get.
    unfold_monad. cbn -[dict_get Update.py_in split_space].
    destruct sc; cbn -[dict_get Update.py_in split_space];
      try destruct (Update.py_in (dict_get d Update.key PNone)
                                 [AVAILABLE; SCHEDULED]);
      cbn -[dict_get Update.py_in split_space];
      rewrite Hget; cbn -[dict_get Update.py_in split_space];
      rewrite Hp; cbn -[dict_get Update.py_in split_space];
      destruct (Update.py_in (dict_get d Update.key PNone)
                             [SCHEDULED; INSTALLING]);
      cbn -[dict_get Update.py_in split_space];
      eexists; (split; [reflexivity|]); simpl;
      rewrite split_space_hd; auto.
Qed.

End WithConst.

(** An entity over a snapshot with the given car version and status. *)
Definition update_entity (car_version status : string) : Update.entity :=
  Update.mkEntity
    (PDict [(PStr "vehicle_state_car_version", PStr car_version);
            (PStr "vehicle_state_software_update_status", PStr status);
            (PStr "vehicle_state_software_update_version", PStr "2024.14.3")])
    true UpdateEntityFeature.PROGRESS PNone PNone PNone.

Definition refresh_attrs : M Update.entity unit :=
  Update._async_update_attrs
    "available" "scheduled" "installing" "downloading" "downloading_wifi_wait".

(** A version and a build separated by a tab. *)
Definition tabbed_version : string :=
  ("2024.8.9" ++ String "009"%char "abcdef")%string.

(** C7 as stated fails when the whitespace after the version is not a
    space: the first whitespace-delimited token of the string is
    ["2024.8.9"], and the installed version is the whole string. *)
Lemma tab_is_not_split :
  first_whitespace_token tabbed_version = "2024.8.9" /\
  Update._attr_installed_version
    (snd (fst (refresh_attrs quiet (update_entity tabbed_version "installing_done") [])))
  = PStr tabbed_version /\
  tabbed_version <> "2024.8.9".
Proof. vm_compute. repeat split. discriminate. Qed.

(** The example of the specification: ["2024.8.9 abcdef"] is shown as
    ["2024.8.9"], and with an update available the latest version is the
    announced one. *)
Lemma update_versions_witness :
  exists s',
    refresh_attrs quiet (update_entity "2024.8.9 abcdef" "available") []
    = (Ret tt, s', []) /\
    Update._attr_installed_version s' = PStr "2024.8.9" /\
    Update._attr_latest_version s' = PStr "2024.14.3".
Proof.
  exact (proj1 (update_versions
                  "available" "scheduled" "installing" "downloading"
                  "downloading_wifi_wait"
                  quiet (update_entity "2024.8.9 abcdef" "available") []
                  _ "2024.8.9 abcdef" eq_refl eq_refl)
               eq_refl (PStr "2024.14.3") eq_refl).
Defined.

End UpdateFacts.

(* ================================================================== *)
(** * The vehicle data class: one wake lock for all vehicles *)
(* ================================================================== *)

Module ModelsFacts.
Import Models.

(** [wakelock] is assigned in the class body without an annotation, so
    it is not a field of the data class. *)
Lemma wakelock_is_no_field (r : ref) (alert_time error_time : string) :
  assoc "wakelock"
    (dataclass_fields (TeslemetryVehicleData_body r alert_time error_time))
  = None.
Proof. reflexivity. Qed.

Lemma init_fields_names (fs : list (string * option value))
  (args d : list (string * value)) (name : string) :
  init_fields fs args = Some d ->
  assoc name fs = None -> assoc name d = None.
Proof.
  revert d. induction fs as [|[n dflt] fs IH]; intros d; simpl.
  - intros H _. now injection H as <-.
  - destruct (match assoc n args with Some v => Some v | None => dflt end)
      as [v|]; [|discriminate].
    destruct (init_fields fs args) as [tail|]; [|discriminate].
    intros H. injection H as <-. simpl.
    destruct (String.eqb n name); [discriminate|]. now apply IH.
Qed.

(** C8 fails on the code: whatever arguments two vehicles are created
    with, [wakelock] is, for both, the one lock that was made when the
    class was defined; once it is taken through one vehicle, it cannot
    be taken through the other. *)
Theorem wakelock_is_shared
  (alert_time error_time : string) (h : store)
  (args1 args2 : list (string * value)) (v1 v2 : instance) :
  let '(cls, h') := define_TeslemetryVehicleData alert_time error_time h in
  new cls args1 = Some v1 ->
  new cls args2 = Some v2 ->
  exists r,
    getattr v1 "wakelock" = Some (VLock r) /\
    getattr v2 "wakelock" = Some (VLock r) /\
    forall h1, acquire h' r = Some h1 -> acquire h1 r = None.
Proof.
  unfold define_TeslemetryVehicleData, asyncio_Lock.
  set (r := List.length (locks h)).
  unfold new. cbn [fields dataclass].
  destruct (init_fields _ args1) as [d1|] eqn:E1; [|discriminate].
  destruct (init_fields _ args2) as [d2|] eqn:E2; [|discriminate].
  intros H1 H2. injection H1 as <-. injection H2 as <-.
  exists r. unfold getattr. cbn [instance_dict instance_class].
  rewrite (init_fields_names _ _ _ "wakelock" E1 eq_refl).
  rewrite (init_fields_names _ _ _ "wakelock" E2 eq_refl).
  repeat split.
  intros h1. unfold acquire, locked. cbn [locks].
  destruct (nth r (locks h ++ [false]) false) eqn:En; [discriminate|].
  intros H. injection H as <-. cbn [locks].
  assert (Hn : nth r (set_nth (locks h ++ [false]) r true) false = true).
  { unfold r. clear. induction (locks h) as [|x t IH]; simpl; auto. }
  now rewrite Hn.
Qed.

(** Two vehicles with different VINs. *)
Definition vehicle_args (vin : string) : list (string * value) :=
  [("api", VObject "api"); ("coordinator", VObject "coordinator");
   ("stream", VObject "stream"); ("vin", VStr vin);
   ("device", VObject "device")].

Lemma wakelock_is_shared_witness :
  exists v1 v2 r,
    let '(cls, _) :=
      define_TeslemetryVehicleData
        "2024-03-01T08:00:00.000120" "2024-03-01T08:00:00.000131"
        (mkStore []) in
    new cls (vehicle_args "5YJ3E1EA1KF000001") = Some v1 /\
    new cls (vehicle_args "7SAYGDEE5NF000002") = Some v2 /\
    getattr v1 "vin" <> getattr v2 "vin" /\
    getattr v1 "wakelock" = Some (VLock r) /\
    getattr v2 "wakelock" = Some (VLock r).
Proof.
  destruct (new (fst (define_TeslemetryVehicleData
                        "2024-03-01T08:00:00.000120"
                        "2024-03-01T08:00:00.000131" (mkStore [])))
                (vehicle_args "5YJ3E1EA1KF000001")) as [v1|] eqn:E1;
    [|discriminate].
  destruct (new (fst (define_TeslemetryVehicleData
                        "2024-03-01T08:00:00.000120"
                        "2024-03-01T08:00:00.000131" (mkStore [])))
                (vehicle_args "7SAYGDEE5NF000002")) as [v2|] eqn:E2;
    [|discriminate].
  destruct (wakelock_is_shared
              "2024-03-01T08:00:00.000120" "2024-03-01T08:00:00.000131"
              (mkStore [])
              (vehicle_args "5YJ3E1EA1KF000001")
              (vehicle_args "7SAYGDEE5NF000002") v1 v2 E1 E2)
    as (r & H1 & H2 & _).
  exists v1, v2, r. cbn. cbn in E1, E2.
  injection E1 as <-. injection E2 as <-.
  repeat split; try assumption. discriminate.
Defined.

End ModelsFacts.

(* ================================================================== *)
(** * More on the vehicle coordinator *)
(* ================================================================== *)

Module VehicleMore.
Import TeslemetryVehicleDataCoordinator VehicleFacts Sample.

(** The requests among the effects of a tick, in order. *)
Definition requests (events : log) : list request :=
  flat_map (fun e => match e with EvRequest r => [r] | _ => [] end) events.

Lemma requests_app (a b : log) : requests (a ++ b) = requests a ++ requests b.
Proof. unfold requests. apply flat_map_app. Qed.

(** The errors on which the coordinator opens an issue. *)
Definition permission (f : fleet_exc) : bool :=
  match exc_class f with
  | SubscriptionRequired | Forbidden | LoginRequired => true
  | _ => false
  end.

Section WithConst.
Variable ONLINE OFFLINE : string.
Variable flatten : pyval -> outcome pyval.

Local Abbreviation _async_update_data := (_async_update_data ONLINE OFFLINE flatten).
Local Abbreviation try_body := (try_body ONLINE).
Local Abbreviation fetch_succeeds := (fetch_succeeds ONLINE).
Local Abbreviation try_raises := (try_raises ONLINE).

Definition cached_online (self : coordinator) : Prop :=
  exists s0, py_getitem (data self) "state" = Ret s0 /\
             py_eq s0 (PStr ONLINE) = true.

Definition cached_not_online (self : coordinator) : Prop :=
  exists s0, py_getitem (data self) "state" = Ret s0 /\
             py_eq s0 (PStr ONLINE) = false.

Definition summary_online (w : env) (l : log) : Prop :=
  exists summary r s1,
    api_reply w l ReqVehicle = Ret summary /\
    py_getitem summary "response" = Ret r /\
    py_getitem r "state" = Ret s1 /\
    py_eq s1 (PStr ONLINE) = true.

(** What the body of the [try] asks the API, and when. *)
Definition asked (w : env) (self : coordinator) (l : log) (reqs : list request)
  : Prop :=
  match reqs with
  | [] => exists e, py_getitem (data self) "state" = Raise e
  | [ReqVehicle] => cached_not_online self
  | [ReqVehicleData] => cached_online self
  | [ReqVehicle; ReqVehicleData] => cached_not_online self /\ summary_online w l
  | _ => False
  end.

Lemma try_body_requests (w : env) (s s1 : coordinator) (l l1 : log)
  (o : outcome flow) :
  try_body w s l = (o, s1, l1) ->
  exists reqs, l1 = l ++ map EvRequest reqs /\ asked w s l reqs.
Proof.
  unfold TeslemetryVehicleDataCoordinator.try_body,
    self_data_getitem, self_data_setitem.
  unfold_monad. cbn [data].
  destruct (py_getitem (data s) "state") as [s0|e0] eqn:H0.
  2:{ intros H. injection H as _ _ <-. exists []. simpl.
      rewrite app_nil_r. eauto. }
  destruct (py_eq s0 (PStr ONLINE)) eqn:E0; cbn.
  - rewrite H0. cbn. rewrite E0. cbn.
    assert (Hl : l1 = l ++ [EvRequest ReqVehicleData] ->
                 exists reqs, l1 = l ++ map EvRequest reqs /\ asked w s l reqs).
    { intros ->. exists [ReqVehicleData]. split; [reflexivity|].
      exists s0. auto. }
    destruct (api_reply w l ReqVehicleData) as [response|e] eqn:Hw.
    + destruct (py_getitem response "response");
        intros H; injection H as _ _ <-; now apply Hl.
    + intros H; injection H as _ _ <-; now apply Hl.
  - assert (Hl : l1 = l ++ [EvRequest ReqVehicle] ->
                 exists reqs, l1 = l ++ map EvRequest reqs /\ asked w s l reqs).
    { intros ->. exists [ReqVehicle]. split; [reflexivity|].
      exists s0. auto. }
    destruct (api_reply w l ReqVehicle) as [summary|e] eqn:Hw.
    2:{ intros H; injection H as _ _ <-; now apply Hl. }
    destruct (py_getitem summary "response") as [r|e] eqn:Hr; cbn.
    2:{ intros H; injection H as _ _ <-; now apply Hl. }
    destruct (py_getitem r "state") as [s1'|e] eqn:H1; cbn.
    2:{ intros H; injection H as _ _ <-; now apply Hl. }
    destruct (getitem_dict _ _ _ H0) as (snapshot & Hd & Hlk).
    rewrite Hd. cbn. rewrite dict_lookup_set_same.
    destruct (py_eq s1' (PStr ONLINE)) eqn:E1; cbn.
    2:{ intros H; injection H as _ _ <-; now apply Hl. }
    assert (Hl2 : l1 = (l ++ [EvRequest ReqVehicle]) ++ [EvRequest ReqVehicleData] ->
                  exists reqs, l1 = l ++ map EvRequest reqs /\ asked w s l reqs).
    { intros ->. exists [ReqVehicle; ReqVehicleData].
      split; [now rewrite <- app_assoc|]. split.
      - exists s0. rewrite Hd. simpl. rewrite Hlk. auto.
      - exists summary, r, s1'. auto. }
    destruct (api_reply w (l ++ [EvRequest ReqVehicle]) ReqVehicleData)
      as [response|e] eqn:Hw'.
    + destruct (py_getitem response "response");
        intros H; injection H as _ _ <-; now apply Hl2.
    + intros H; injection H as _ _ <-; now apply Hl2.
Qed.


(** The effects of a tick are those of the body of the [try], followed by
    at most: the issue, when the body raised a permission error; the
    event and the clock readings, when the body fell through. *)
Lemma tick_events (w : env) (self self' : coordinator) (l l' : log)
  (o : outcome pyval) :
  _async_update_data w self l = (o, self', l') ->
  exists o1 s1 l1 tail,
    try_body w (set_update_interval VEHICLE_INTERVAL self) l = (o1, s1, l1) /\
    l' = l1 ++ tail /\
    match o1 with
    | Ret (Return v) => tail = [] /\ o = Ret v /\ self' = s1
    | Ret (Fallthrough d) =>
        exists nows,
          tail = EvFire "teslemetry_vehicle_data" :: nows /\
          (nows = [] \/ nows = [EvNow] \/ nows = [EvNow; EvNow])
    | Raise (Fleet f) =>
        if permission f
        then tail = [EvCreateIssue f] /\
             o = Raise (UpdateFailed (exc_message f)) /\ self' = s1
        else tail = []
    | Raise _ => tail = []
    end.
Proof.
  unfold TeslemetryVehicleDataCoordinator._async_update_data.
  unfold bind at 1, modify at 1. unfold bind at 1, try_except.
  destruct (try_body w (set_update_interval VEHICLE_INTERVAL self) l)
    as [[o1 s1] l1] eqn:Eb.
  intros Hrun. exists o1, s1, l1.
  destruct o1 as [[v|d]|e].
  - exists []. unfold ret in Hrun. injection Hrun as <- <- <-.
    rewrite app_nil_r. auto.
  - revert Hrun. unfold handle_pre2021. unfold_monad. simpl.
    split_paths; intros H; injection H as _ _ <-; eexists;
      (split; [reflexivity|]); rewrite <- ?app_assoc;
      (split; [reflexivity|]); eexists; (split; [reflexivity|]); auto.
  - assert (Hnil : (Raise e, s1, l1) = (o, self', l') ->
                    exists tail : log,
                      (Raise e : outcome flow, s1, l1) = (Raise e, s1, l1) /\
                      l' = l1 ++ tail /\ tail = []).
    { intros H. injection H as _ _ <-. exists [].
      rewrite app_nil_r. auto. }
    destruct e as [k| | |f|msg| |msg|name]; cbn [handlers] in Hrun;
      try (destruct (Hnil Hrun) as (tail & _ & ? & ?); exists tail; now auto).
    + revert Hrun. unfold_monad. intros H. injection H as _ _ <-.
      exists []. rewrite app_nil_r. auto.
    + unfold permission.
      revert Hrun. unfold on_5xx, self_data_setitem. unfold_monad.
      destruct (exc_class f); simpl;
        try (split_paths; intros H; injection H as _ _ <-; exists [];
             rewrite app_nil_r; now auto);
        intros H; injection H as <- <- <-; eexists;
        (split; [reflexivity|]); auto.
Qed.


Lemma requests_map (reqs : list request) : requests (map EvRequest reqs) = reqs.
Proof. induction reqs as [|r reqs IH]; simpl; congruence. Qed.

Lemma in_map_request (e : event) (reqs : list request) :
  In e (map EvRequest reqs) -> exists r, e = EvRequest r.
Proof. intros H. apply in_map_iff in H as (r & <- & _). eauto. Qed.

(** The effects of a tick, split into the requests of the body of the
    [try] and what follows them. *)
Lemma tick_split (w : env) (self : coordinator) (l : log) :
  exists o1 s1 reqs tail,
    try_body w (set_update_interval VEHICLE_INTERVAL self) l
    = (o1, s1, l ++ map EvRequest reqs) /\
    snd (_async_update_data w self l) = l ++ map EvRequest reqs ++ tail /\
    asked w self l reqs /\
    requests tail = [] /\
    (In (EvFire "teslemetry_vehicle_data") tail <->
     exists d, o1 = Ret (Fallthrough d)) /\
    (forall f, In (EvCreateIssue f) tail <->
               o1 = Raise (Fleet f) /\ permission f = true) /\
    (forall f, o1 = Raise (Fleet f) -> permission f = true ->
               fst (fst (_async_update_data w self l))
               = Raise (UpdateFailed (exc_message f))).
Proof.
  destruct (_async_update_data w self l) as [[o self'] l'] eqn:Hrun.
  destruct (tick_events _ _ _ _ _ _ Hrun) as (o1 & s1 & l1 & tail & Eb & -> & Ho).
  destruct (try_body_requests _ _ _ _ _ _ Eb) as (reqs & -> & Hasked).
  exists o1, s1, reqs, tail. cbn [fst snd].
  split; [exact Eb|]. split; [now rewrite app_assoc|].
  split; [exact Hasked|].
  destruct o1 as [[v|d]|e].
  - destruct Ho as (-> & _). refine (conj _ (conj _ (conj _ _))).
    + reflexivity.
    + split; [intros []|intros [d Hd]; discriminate].
    + intros f. split; [intros []|intros [Hf _]; discriminate].
    + intros f Hf. discriminate.
  - destruct Ho as (nows & -> & Hn). refine (conj _ (conj _ (conj _ _))).
    + destruct Hn as [->|[->| ->]]; reflexivity.
    + split; [eauto|intros _; now left].
    + intros f. split; [|intros [Hf _]; discriminate].
      intros [H|H]; [discriminate|].
      destruct Hn as [->|[->| ->]]; simpl in H; intuition discriminate.
    + intros f Hf. discriminate.
  - assert (Hnil : forall e', tail = [] ->
              (forall f, e' = Fleet f -> permission f = false) ->
              requests tail = [] /\
              (In (EvFire "teslemetry_vehicle_data") tail <->
               exists d, @Raise flow e' = Ret (Fallthrough d)) /\
              (forall f, In (EvCreateIssue f) tail <->
                         @Raise flow e' = Raise (Fleet f) /\
                         permission f = true) /\
              (forall f, @Raise flow e' = Raise (Fleet f) ->
                         permission f = true ->
                         o = Raise (UpdateFailed (exc_message f)))).
    { intros e' -> Hp. refine (conj _ (conj _ (conj _ _))).
      - reflexivity.
      - split; [intros []|intros [d Hd]; discriminate].
      - intros f. split; [intros []|].
        intros [Hf Hpf]. injection Hf as ->.
        rewrite (Hp f eq_refl) in Hpf. discriminate.
      - intros f Hf Hpf. injection Hf as ->.
        rewrite (Hp f eq_refl) in Hpf. discriminate. }
    destruct e as [k| | |f|msg| |msg|name];
      try (apply Hnil; [exact Ho | discriminate]).
    destruct (permission f) eqn:Hp.
    + destruct Ho as (-> & -> & ->). refine (conj _ (conj _ (conj _ _))).
      * reflexivity.
      * split; [intros [H|[]]; discriminate|intros [d Hd]; discriminate].
      * intros f'. split.
        -- intros [H|[]]. injection H as ->. auto.
        -- intros [Hf _]. injection Hf as ->. now left.
      * intros f' Hf _. now injection Hf as ->.
    + apply Hnil; [exact Ho|].
      intros f' Hf. now injection Hf as <-.
Qed.


Lemma in_requests (r : request) (events : log) :
  In (EvRequest r) events -> In r (requests events).
Proof.
  intros H. unfold requests. apply in_flat_map.
  exists (EvRequest r). split; [exact H|now left].
Qed.

(** X1: a tick asks the API at most for the summary and then for the
    data, each once, and for nothing when the snapshot has no readable
    state; it asks for the summary exactly when the cached state is not
    online, and for the data only when the cached state is online or the
    summary has just said so.  A vehicle that is not online is never
    asked for its data. *)
Theorem requests_of_a_tick (w : env) (self : coordinator) (l : log) :
  exists events,
    snd (_async_update_data w self l) = l ++ events /\
    asked w self l (requests events) /\
    (In (EvRequest ReqVehicleData) events ->
     cached_online self \/ summary_online w l).
Proof.
  destruct (tick_split w self l)
    as (o1 & s1 & reqs & tail & _ & Hl & Hasked & Htail & _).
  exists (map EvRequest reqs ++ tail).
  assert (Hreqs : requests (map EvRequest reqs ++ tail) = reqs).
  { now rewrite requests_app, requests_map, Htail, app_nil_r. }
  split; [exact Hl|]. split; [now rewrite Hreqs|].
  intros H. apply in_requests in H. rewrite Hreqs in H.
  destruct reqs as [|[] [|[] [|]]]; simpl in Hasked, H;
    try contradiction; try tauto;
    intuition discriminate.
Qed.

(** X2: the event [teslemetry_vehicle_data] is fired on the ticks whose
    fetch succeeds and on no other tick. *)
Theorem event_fired_iff_fetched (w : env) (self : coordinator) (l : log) :
  (exists events,
      snd (_async_update_data w self l) = l ++ events /\
      In (EvFire "teslemetry_vehicle_data") events) <->
  (exists d self1 l1, fetch_succeeds w self l d self1 l1).
Proof.
  destruct (tick_split w self l)
    as (o1 & s1 & reqs & tail & Eb & Hl & _ & _ & Hfire & _).
  split.
  - intros (events & Hev & Hin). rewrite Hl in Hev.
    apply app_inv_head in Hev. subst events.
    apply in_app_or in Hin as [Hin|Hin].
    + apply in_map_request in Hin as [r Hr]. discriminate.
    + apply Hfire in Hin as [d ->]. exists d, s1, (l ++ map EvRequest reqs).
      exact Eb.
  - intros (d & self1 & l1 & Hf). unfold VehicleFacts.fetch_succeeds in Hf.
    rewrite Hf in Eb. injection Eb as <- _ _.
    exists (map EvRequest reqs ++ tail). split; [exact Hl|].
    apply in_or_app. right. apply Hfire. eauto.
Qed.

(** X3: the coordinator opens an issue for the error [f] exactly on the
    ticks where the vendor API raised [f] and [f] is a subscription,
    permission or login error; those ticks fail with the update failure
    that carries the message of [f]. *)
Theorem issue_iff_permission_error
  (w : env) (self : coordinator) (l : log) (f : fleet_exc) :
  ((exists events,
       snd (_async_update_data w self l) = l ++ events /\
       In (EvCreateIssue f) events) <->
   (permission f = true /\
    exists self1 l1, try_raises w self l (Fleet f) self1 l1)) /\
  (permission f = true ->
   (exists self1 l1, try_raises w self l (Fleet f) self1 l1) ->
   fst (fst (_async_update_data w self l))
   = Raise (UpdateFailed (exc_message f))).
Proof.
  destruct (tick_split w self l)
    as (o1 & s1 & reqs & tail & Eb & Hl & _ & _ & _ & Hissue & Hout).
  split; [split|].
  - intros (events & Hev & Hin). rewrite Hl in Hev.
    apply app_inv_head in Hev. subst events.
    apply in_app_or in Hin as [Hin|Hin].
    + apply in_map_request in Hin as [r Hr]. discriminate.
    + apply Hissue in Hin as [-> Hp]. split; [exact Hp|].
      exists s1, (l ++ map EvRequest reqs). exact Eb.
  - intros (Hp & self1 & l1 & Hr). unfold VehicleFacts.try_raises in Hr.
    rewrite Hr in Eb. injection Eb as <- _ _.
    exists (map EvRequest reqs ++ tail). split; [exact Hl|].
    apply in_or_app. right. apply Hissue. auto.
  - intros Hp (self1 & l1 & Hr). unfold VehicleFacts.try_raises in Hr.
    rewrite Hr in Eb. injection Eb as <- _ _. now apply Hout.
Qed.


(** X4: whichever request raises [VehicleOffline], the summary or the
    data request, the tick raises nothing: it marks the cached snapshot
    offline, returns it otherwise unchanged, and leaves the failure
    counter and [last_active] as they were, with the normal interval. *)
Theorem vehicle_offline_absorbed
  (w : env) (self : coordinator) (l : log)
  (f : fleet_exc) (self1 : coordinator) (l1 : log) :
  try_raises w self l (Fleet f) self1 l1 ->
  exc_class f = VehicleOffline ->
  exists self',
    _async_update_data w self l = (Ret (data self'), self', l1) /\
    py_getitem (data self') "state" = Ret (PStr OFFLINE) /\
    same_except_state (data self) (data self') /\
    failures self' = failures self /\
    last_active self' = last_active self /\
    update_interval self' = VEHICLE_INTERVAL.
Proof.
  intros Hr Hc.
  assert (Hrun := try_raises_run ONLINE OFFLINE flatten w self l
                    (Fleet f) self1 l1 _ Hr eq_refl).
  rewrite Hc in Hrun.
  apply try_raises_fleet_cases in Hr
      as [(s0 & H0 & _ & _ & -> & ->)
         |[(s0 & H0 & _ & _ & -> & ->)
          |(s0 & summary & r & s1 & snapshot & H0 & _ & _ & _ & _ & _ & _
            & Hd & -> & ->)]].
  - destruct (getitem_dict _ _ _ H0) as (d & Hd & Hl).
    exists (set_data (PDict (dict_set d (PStr "state") (PStr OFFLINE)))
                     (set_update_interval VEHICLE_INTERVAL self)).
    rewrite Hrun. unfold self_data_setitem. unfold_monad. simpl.
    rewrite Hd. simpl. rewrite dict_lookup_set_same.
    repeat split. eapply same_except_state_set; eauto.
  - destruct (getitem_dict _ _ _ H0) as (d & Hd & Hl).
    exists (set_data (PDict (dict_set d (PStr "state") (PStr OFFLINE)))
                     (set_update_interval VEHICLE_INTERVAL self)).
    rewrite Hrun. unfold self_data_setitem. unfold_monad. simpl.
    rewrite Hd. simpl. rewrite dict_lookup_set_same.
    repeat split. eapply same_except_state_set; eauto.
  - destruct (getitem_dict _ _ _ H0) as (d & Hd' & Hl).
    assert (d = snapshot) by congruence. subst d.
    exists (set_data
              (PDict (dict_set (dict_set snapshot (PStr "state") s1)
                               (PStr "state") (PStr OFFLINE)))
              (set_update_interval VEHICLE_INTERVAL self)).
    rewrite Hrun. unfold self_data_setitem. unfold_monad. simpl.
    rewrite dict_lookup_set_same. rewrite Hd.
    repeat split. eapply same_except_state_set_twice; eauto.
Qed.

(** X5: a snapshot that cannot be read ends the tick before any request.
    When it is a mapping without ["state"], the [KeyError] goes to the
    caller as it is; when it is not a mapping, the tick fails as for an
    invalid response of the vendor. *)
Theorem unreadable_snapshot (w : env) (self : coordinator) (l : log) :
  (forall d,
      data self = PDict d ->
      dict_lookup d (PStr "state") = None ->
      _async_update_data w self l
      = (Raise (KeyError (PStr "state")),
         set_update_interval VEHICLE_INTERVAL self, l)) /\
  (is_dict (data self) = false ->
   _async_update_data w self l
   = (Raise (UpdateFailed "Invalid response from Teslemetry"),
      set_update_interval VEHICLE_INTERVAL self, l)).
Proof.
  split.
  - intros d Hd Hl.
    unfold TeslemetryVehicleDataCoordinator._async_update_data,
      TeslemetryVehicleDataCoordinator.try_body, self_data_getitem.
    unfold_monad. simpl. rewrite Hd. simpl. now rewrite Hl.
  - intros Hd.
    unfold TeslemetryVehicleDataCoordinator._async_update_data,
      TeslemetryVehicleDataCoordinator.try_body, self_data_getitem.
    unfold_monad. simpl. destruct (data self); try discriminate; reflexivity.
Qed.

(** A tick never changes whether the vehicle is a pre-2021 one. *)
Lemma tick_keeps_pre2021 (w : env) (self self' : coordinator) (l l' : log)
  (o : outcome pyval) :
  _async_update_data w self l = (o, self', l') -> pre2021 self' = pre2021 self.
Proof.
  unfold TeslemetryVehicleDataCoordinator._async_update_data.
  unfold bind at 1, modify at 1. unfold bind at 1.
  destruct (try_except try_body (handlers OFFLINE) w
              (set_update_interval VEHICLE_INTERVAL self) l)
    as [[[[v|d]|e] s1] l1] eqn:E;
    destruct (try_frame _ _ _ _ _ _ _ _ E) as (_ & Hp & _); simpl in Hp.
  - unfold ret. intros H. now injection H as _ <- _.
  - unfold handle_pre2021. unfold_monad. simpl.
    split_paths; intros H; injection H as _ <- _; simpl; congruence.
  - intros H. now injection H as _ <- _.
Qed.

Lemma updated_once_run
  (w : env) (self self' : coordinator) (l l' : log) (o : outcome pyval) :
  _async_update_data w self l = (o, self', l') ->
  (updated_once self = true -> updated_once self' = true) /\
  (updated_once self' = true ->
   updated_once self = true \/
   exists d self1 l1, fetch_succeeds w self l d self1 l1) /\
  (pre2021 self = false ->
   (exists d self1 l1, fetch_succeeds w self l d self1 l1) ->
   updated_once self' = true).
Proof.
  unfold VehicleFacts.fetch_succeeds.
  unfold TeslemetryVehicleDataCoordinator._async_update_data.
  unfold bind at 1, modify at 1. unfold bind at 1.
  destruct (try_except try_body (handlers OFFLINE) w
              (set_update_interval VEHICLE_INTERVAL self) l)
    as [[[[v|d]|e] s1] l1] eqn:E;
    destruct (try_frame _ _ _ _ _ _ _ _ E) as (_ & Hp & _ & Hu);
    simpl in Hp, Hu.
  - unfold ret. intros H. injection H as _ <- _. rewrite Hu.
    refine (conj (fun H => H) (conj (fun H => or_introl H) _)).
    intros _ (d & self1 & l0 & Hf).
    unfold try_except in E. rewrite Hf in E. discriminate.
  - assert (Hf : try_body w (set_update_interval VEHICLE_INTERVAL self) l
                 = (Ret (Fallthrough d), s1, l1)).
    { unfold try_except in E.
      destruct (try_body w (set_update_interval VEHICLE_INTERVAL self) l)
        as [[[fl|e] s0] l0] eqn:Eb; [exact E|].
      destruct (handlers OFFLINE e) as [h|] eqn:Eh; [|discriminate].
      now elim (handlers_leave _ _ _ _ _ _ _ _ _ Eh E). }
    intros H.
    refine (conj _ (conj (fun _ => or_intror _) _)).
    + intros Hu1. rewrite <- Hu in Hu1. revert H.
      unfold handle_pre2021. unfold_monad. simpl.
      split_paths; intros H; injection H as _ <- _; simpl; auto.
    + eauto.
    + intros Hp1 _. rewrite <- Hp in Hp1. revert H. unfold_monad. simpl.
      rewrite Hp1. simpl. intros H. now injection H as _ <- _.
  - intros H. injection H as _ <- _. rewrite Hu.
    refine (conj (fun H => H) (conj (fun H => or_introl H) _)).
    intros _ (d & self1 & l0 & Hf).
    unfold try_except in E. rewrite Hf in E. discriminate.
Qed.

(** X6: [updated_once] records the first full fetch.  Once true it stays
    true; a tick turns it true only when its fetch succeeded; and on a
    vehicle that is not a pre-2021 one every tick whose fetch succeeded
    leaves it true, also when flattening the payload fails
    afterwards. *)
Theorem updated_once_after_fetch
  (w : env) (self : coordinator) (l : log) :
  let self' := snd (fst (_async_update_data w self l)) in
  (updated_once self = true -> updated_once self' = true) /\
  (updated_once self' = true ->
   updated_once self = true \/
   exists d self1 l1, fetch_succeeds w self l d self1 l1) /\
  (pre2021 self = false ->
   (exists d self1 l1, fetch_succeeds w self l d self1 l1) ->
   updated_once self' = true).
Proof.
  destruct (_async_update_data w self l) as [[o self'] l'] eqn:E.
  exact (updated_once_run _ _ _ _ _ _ E).
Qed.

(** X7: the extended interval lasts one tick.  When a tick ends with the
    extended interval and the next tick, run at least [VEHICLE_WAIT]
    later by the clock, fetches the data, that next tick ends with the
    normal interval and with [last_active] set to one of its own clock
    readings, whether the vehicle is then active or not. *)
Theorem extended_interval_lasts_one_tick
  (w1 w2 : env) (self self' : coordinator) (l l' : log) (o1 : outcome pyval)
  (d2 : pyval) (self2 : coordinator) (l2 : log) (active2 : bool) :
  _async_update_data w1 self l = (o1, self', l') ->
  update_interval self' = VEHICLE_WAIT ->
  (forall la lb, clock w2 lb >= clock w1 la + VEHICLE_WAIT) ->
  fetch_succeeds w2 self' l' d2 self2 l2 ->
  is_active d2 = Ret active2 ->
  exists o2 self'' l'',
    _async_update_data w2 self' l' = (o2, self'', l'') /\
    update_interval self'' = VEHICLE_INTERVAL /\
    exists lb, last_active self'' = clock w2 lb.
Proof.
  intros Hrun Hwait Hlater Hf2 Hact2.
  destruct (extended_interval_only_if _ _ _ _ _ _ _ _ _ Hrun Hwait)
    as (Hpre & d & self1 & l1 & Hf & Hact & Hel).
  destruct (cadence_after_fetch ONLINE OFFLINE flatten _ _ _ _ _ _ _ Hf Hpre Hact)
    as (o & s' & l0 & Hrun' & _ & _ & Hkeep & _).
  rewrite Hrun in Hrun'. injection Hrun' as <- <- <-.
  destruct (Hkeep eq_refl Hel) as [_ Hla].
  assert (Hpre' : pre2021 self' = true).
  { rewrite (tick_keeps_pre2021 _ _ _ _ _ _ Hrun). exact Hpre. }
  destruct (cadence_after_fetch ONLINE OFFLINE flatten _ _ _ _ _ _ _ Hf2 Hpre' Hact2)
    as (o2 & self'' & l'' & Hrun2 & Hact' & Hlong & _).
  exists o2, self'', l''. split; [exact Hrun2|].
  destruct active2.
  - destruct (Hact' eq_refl) as [Hl1 Hi]. split; [exact Hi|]. eauto.
  - destruct (Hlong eq_refl) as [Hl1 Hi].
    + specialize (Hlater (announced l1) (announced l2)).
      rewrite Hla. unfold VEHICLE_WAIT, timedelta_minutes in *. lia.
    + split; [exact Hi|]. eauto.
Qed.

End WithConst.

(** The summary request of a sleeping vehicle times out. *)
Lemma vehicle_offline_absorbed_witness :
  exists self',
    _async_update_data "online" "offline" echo
      (answering (failing VehicleOffline) 0)
      (vehicle asleep_snapshot true 0 2) []
    = (Ret (data self'), self', [EvRequest ReqVehicle]) /\
    py_getitem (data self') "state" = Ret (PStr "offline") /\
    failures self' = 2.
Proof.
  destruct (vehicle_offline_absorbed
              "online" "offline" echo
              (answering (failing VehicleOffline) 0)
              (vehicle asleep_snapshot true 0 2) []
              (mkFleetExc VehicleOffline "message" "KEY")
              (vehicle asleep_snapshot true 0 2)
              [EvRequest ReqVehicle] eq_refl eq_refl)
    as (self' & Hrun & Hstate & _ & Hfail & _).
  exists self'. auto.
Defined.

Lemma unreadable_snapshot_witness :
  _async_update_data "online" "offline" echo quiet (vehicle PNone false 0 0) []
  = (Raise (UpdateFailed "Invalid response from Teslemetry"),
     set_update_interval VEHICLE_INTERVAL (vehicle PNone false 0 0), []).
Proof.
  exact (proj2 (unreadable_snapshot "online" "offline" echo quiet
                  (vehicle PNone false 0 0) [])
           eq_refl).
Defined.

(** An idle pre-2021 vehicle polled 16 minutes after its last activity,
    and again 15 minutes later. *)
Definition first_poll : env := answering idle_vehicle_data (timedelta_minutes 16).
Definition second_poll : env := answering idle_vehicle_data (timedelta_minutes 31).

Definition after_first_poll : outcome pyval * coordinator * log :=
  _async_update_data "online" "offline" echo first_poll
                     (vehicle online_snapshot true 0 0) [].

Lemma extended_interval_lasts_one_tick_witness :
  update_interval (snd (fst after_first_poll)) = VEHICLE_WAIT /\
  exists o2 self'' l'',
    _async_update_data "online" "offline" echo second_poll
      (snd (fst after_first_poll)) (snd after_first_poll)
    = (o2, self'', l'') /\
    update_interval self'' = VEHICLE_INTERVAL /\
    exists lb, last_active self'' = clock second_poll lb.
Proof.
  split; [reflexivity|].
  apply (extended_interval_lasts_one_tick
           "online" "offline" echo first_poll second_poll
           (vehicle online_snapshot true 0 0)
           (snd (fst after_first_poll)) [] (snd after_first_poll)
           (fst (fst after_first_poll))
           idle_payload
           (set_update_interval VEHICLE_INTERVAL (snd (fst after_first_poll)))
           (snd after_first_poll ++ [EvRequest ReqVehicleData])
           false).
  - reflexivity.
  - reflexivity.
  - intros la lb. vm_compute. discriminate.
  - reflexivity.
  - reflexivity.
Defined.

End VehicleMore.

(* ================================================================== *)
(** * More on the energy-site coordinators *)
(* ================================================================== *)

Module EnergyMore.
Import Energy Sample LiveFacts.
Module Info := TeslemetryEnergySiteInfoCoordinator.
Module History := TeslemetryEnergyHistoryCoordinator.

(** ** Wall connectors *)

(** [by_din] either fills the mapping or raises what reading a din
    raised. *)
Lemma by_din_total (wcs : list pyval) :
  forall acc,
    (Forall (fun wc => din_of wc <> None) wcs /\
     exists m, Live.by_din wcs acc = Ret m) \/
    (Exists (fun wc => din_of wc = None) wcs /\
     exists e, Live.by_din wcs acc = Raise e /\
               (e = KeyError (PStr "din") \/ e = TypeError)).
Proof.
  induction wcs as [|wc wcs IH]; intros acc; simpl.
  - left. split; [constructor|eauto].
  - destruct (py_getitem wc "din") as [din|e] eqn:Hg.
    + destruct (hashable din) eqn:Hh.
      * destruct (IH (dict_set acc din wc)) as [[Hall Hm]|[Hex He]].
        -- left. split; [|exact Hm]. constructor; [|exact Hall].
           unfold din_of. rewrite Hg, Hh. discriminate.
        -- right. split; [|exact He]. now apply Exists_cons_tl.
      * right. split.
        -- apply Exists_cons_hd. unfold din_of. now rewrite Hg, Hh.
        -- eauto.
    + right. split.
      * apply Exists_cons_hd. unfold din_of. now rewrite Hg.
      * exists e. split; [reflexivity|].
        destruct wc; simpl in Hg; try (injection Hg as <-; now right).
        destruct (dict_lookup items (PStr "din")); [discriminate|].
        injection Hg as <-. now left.
Qed.

(** The record kept for a din: the last one that carries it. *)
Fixpoint last_with_din (din : string) (wcs : list pyval) : option pyval :=
  match wcs with
  | [] => None
  | wc :: rest =>
      match last_with_din din rest with
      | Some later => Some later
      | None =>
          match din_of wc with
          | Some k => if py_eq k (PStr din) then Some wc else None
          | None => None
          end
      end
  end.

Lemma py_eq_str_sym (k : pyval) (s : string) :
  py_eq (PStr s) k = py_eq k (PStr s).
Proof.
  destruct k; unfold py_eq; simpl; try reflexivity. apply String.eqb_sym.
Qed.

Lemma dict_lookup_set_str (acc : pydict) (k v : pyval) (din : string) :
  dict_lookup (dict_set acc k v) (PStr din)
  = if py_eq k (PStr din) then Some v else dict_lookup acc (PStr din).
Proof.
  destruct (py_eq k (PStr din)) eqn:E.
  - apply py_eq_str_inv in E. subst k. apply dict_lookup_set_same.
  - induction acc as [|[k' v'] acc IH]; simpl.
    + now rewrite E.
    + destruct (py_eq k' k) eqn:E'; simpl.
      * destruct (py_eq k' (PStr din)) eqn:E''; [|reflexivity].
        apply py_eq_str_inv in E''. subst k'.
        rewrite py_eq_str_sym in E'. congruence.
      * now rewrite IH.
Qed.

Lemma by_din_lookup (wcs : list pyval) (din : string) :
  forall acc m,
    Live.by_din wcs acc = Ret m ->
    dict_lookup m (PStr din)
    = match last_with_din din wcs with
      | Some wc => Some wc
      | None => dict_lookup acc (PStr din)
      end.
Proof.
  induction wcs as [|wc wcs IH]; intros acc m; simpl.
  - intros H. now injection H as <-.
  - unfold din_of.
    destruct (py_getitem wc "din") as [k|e]; [|discriminate].
    destruct (hashable k); [|discriminate].
    intros H. rewrite (IH _ _ H). fold (din_of).
    destruct (last_with_din din wcs); [reflexivity|].
    rewrite dict_lookup_set_str. now destruct (py_eq k (PStr din)).
Qed.

Lemma by_din_length (wcs : list pyval) :
  forall acc m,
    Live.by_din wcs acc = Ret m ->
    (List.length m <= List.length acc + List.length wcs)%nat.
Proof.
  assert (Hset : forall acc k v,
             (List.length (dict_set acc k v) <= S (List.length acc))%nat).
  { induction acc as [|[k' v'] acc IHa]; intros k v; simpl; [lia|].
    destruct (py_eq k' k); simpl; [lia|]. specialize (IHa k v). lia. }
  induction wcs as [|wc wcs IH]; intros acc m; simpl.
  - intros H. injection H as <-. lia.
  - destruct (py_getitem wc "din") as [k|e]; [|discriminate].
    destruct (hashable k); [|discriminate].
    intros H. apply IH in H. specialize (Hset acc k wc). lia.
Qed.


(** The tick of the live coordinator once the response is in: the rest
    is the normalisation of the wall connectors. *)
Lemma live_after_response (w : env) (s : coordinator) (l : log)
  (response d : pyval) (dd : pydict) :
  api_reply w l ReqLiveStatus = Ret response ->
  py_getitem response "response" = Ret d ->
  placeholder d = PDict dd ->
  Live._async_update_data w s l
  = (match dict_get dd "wall_connectors" PNone with
     | PList wcs =>
         match Live.by_din wcs [] with
         | Ret m => Ret (PDict (dict_set dd (PStr "wall_connectors") (PDict m)))
         | Raise e => Raise e
         end
     | _ => Ret (PDict (dict_set dd (PStr "wall_connectors") (PDict [])))
     end,
     s, l ++ [EvRequest ReqLiveStatus; EvFire "teslemetry_live_status"]).
Proof.
  intros Hw Hr Hp.
  unfold Live._async_update_data, fetch. unfold_monad.
  rewrite Hw. cbn [fst snd]. rewrite Hr. cbn iota beta. rewrite Hp.
  cbn [py_get]. unfold py_getitem, dict_get.
  destruct (dict_lookup dd (PStr "wall_connectors")) as [[|b|z|fl|str|wcs|items]|];
    cbn; rewrite <- ?app_assoc; try reflexivity.
  destruct (Live.by_din wcs []); cbn; now rewrite <- ?app_assoc.
Qed.

Lemma placeholder_dict (d : pyval) : exists dd, placeholder d = PDict dd.
Proof. unfold placeholder. destruct d; simpl; eauto. Qed.


(** X9: when every wall connector has a din, the tick returns and, for
    each din, the mapping holds the last record that carries it: of two
    records with the same din the later one is kept, and the mapping
    never has more entries than there are records. *)
Theorem live_later_din_wins
  (w : env) (s : coordinator) (l : log) (response d : pyval)
  (wcs : list pyval) :
  api_reply w l ReqLiveStatus = Ret response ->
  py_getitem response "response" = Ret d ->
  py_get (placeholder d) "wall_connectors" PNone = Ret (PList wcs) ->
  Forall (fun wc => din_of wc <> None) wcs ->
  exists out m,
    Live._async_update_data w s l
    = (Ret (PDict out), s,
       l ++ [EvRequest ReqLiveStatus; EvFire "teslemetry_live_status"]) /\
    dict_lookup out (PStr "wall_connectors") = Some (PDict m) /\
    (forall din, dict_lookup m (PStr din) = last_with_din din wcs) /\
    (List.length m <= List.length wcs)%nat.
Proof.
  intros Hw Hr Hg Hall. destruct (placeholder_dict d) as [dd Hp].
  rewrite (live_after_response w s l response d dd Hw Hr Hp).
  rewrite Hp in Hg. simpl in Hg. injection Hg as ->.
  destruct (by_din_total wcs []) as [[_ [m Hm]]|[Hex _]].
  - rewrite Hm. do 2 eexists. split; [reflexivity|].
    split; [apply dict_lookup_set_same|]. split.
    + intros din. rewrite (by_din_lookup wcs din [] m Hm).
      now destruct (last_with_din din wcs).
    + apply (by_din_length wcs [] m Hm).
  - exfalso. apply Exists_exists in Hex as (wc & Hin & Hnone).
    rewrite Forall_forall in Hall. now apply (Hall wc Hin).
Qed.

(** X10: a wall connector without a usable din -- a record that has no
    ["din"], is not a mapping, or whose din is a list or a mapping --
    fails the whole tick, after the event was fired, with the
    [KeyError] or [TypeError] of the lookup itself: the error is raised
    outside the [try] and is not turned into an update failure. *)
Theorem live_bad_wall_connector
  (w : env) (s : coordinator) (l : log) (response d : pyval)
  (wcs : list pyval) :
  api_reply w l ReqLiveStatus = Ret response ->
  py_getitem response "response" = Ret d ->
  py_get (placeholder d) "wall_connectors" PNone = Ret (PList wcs) ->
  Exists (fun wc => din_of wc = None) wcs ->
  exists e,
    Live._async_update_data w s l
    = (Raise e, s,
       l ++ [EvRequest ReqLiveStatus; EvFire "teslemetry_live_status"]) /\
    (e = KeyError (PStr "din") \/ e = TypeError).
Proof.
  intros Hw Hr Hg Hex. destruct (placeholder_dict d) as [dd Hp].
  rewrite (live_after_response w s l response d dd Hw Hr Hp).
  rewrite Hp in Hg. simpl in Hg. injection Hg as ->.
  destruct (by_din_total wcs []) as [[Hall _]|[_ (e & He & Hk)]].
  - exfalso. apply Exists_exists in Hex as (wc & Hin & Hnone).
    rewrite Forall_forall in Hall. now apply (Hall wc Hin).
  - rewrite He. eauto.
Qed.

Lemma live_later_din_wins_witness :
  exists out m,
    Live._async_update_data
      (answering
         (fun _ => Ret (PDict
                          [(PStr "response",
                            PDict [(PStr "wall_connectors",
                                    PList [connector "A" 1; connector "B" 2;
                                           connector "A" 3])])]))
         0)
      (mkCoordinator PNone 0) []
    = (Ret (PDict out), mkCoordinator PNone 0,
       [EvRequest ReqLiveStatus; EvFire "teslemetry_live_status"]) /\
    dict_lookup out (PStr "wall_connectors") = Some (PDict m) /\
    dict_lookup m (PStr "A") = Some (connector "A" 3).
Proof.
  destruct (live_later_din_wins
              (answering
                 (fun _ => Ret (PDict
                                  [(PStr "response",
                                    PDict [(PStr "wall_connectors",
                                            PList [connector "A" 1;
                                                   connector "B" 2;
                                                   connector "A" 3])])]))
                 0)
              (mkCoordinator PNone 0) [] _ _
              [connector "A" 1; connector "B" 2; connector "A" 3]
              eq_refl eq_refl eq_refl)
    as (out & m & Hrun & Hwc & Hlast & _).
  - repeat constructor; discriminate.
  - exists out, m. split; [exact Hrun|]. split; [exact Hwc|].
    exact (Hlast "A").
Defined.

Lemma live_bad_wall_connector_witness :
  Live._async_update_data
    (answering
       (fun _ => Ret (PDict
                        [(PStr "response",
                          PDict [(PStr "wall_connectors",
                                  PList [connector "A" 1;
                                         PDict [(PStr "vin", PStr "5YJ3")]])])]))
       0)
    (mkCoordinator PNone 0) []
  = (Raise (KeyError (PStr "din")), mkCoordinator PNone 0,
     [EvRequest ReqLiveStatus; EvFire "teslemetry_live_status"]).
Proof.
  destruct (live_bad_wall_connector
              (answering
                 (fun _ => Ret (PDict
                                  [(PStr "response",
                                    PDict [(PStr "wall_connectors",
                                            PList [connector "A" 1;
                                                   PDict [(PStr "vin", PStr "5YJ3")]])])]))
                 0)
              (mkCoordinator PNone 0) [] _ _
              [connector "A" 1; PDict [(PStr "vin", PStr "5YJ3")]]
              eq_refl eq_refl eq_refl)
    as (e & Hrun & _).
  - apply Exists_cons_tl, Exists_cons_hd. reflexivity.
  - reflexivity.
Defined.



(** ** Responses that are not what they should be *)

Lemma zeros_from_entries (keys : list string) :
  forall acc,
    (forall k v, In (k, v) acc ->
                 v = PInt 0 /\ exists key, k = PStr key) ->
    let out := fold_left (fun acc key => dict_set acc (PStr key) (PInt 0))
                         keys acc in
    (forall k v, In (k, v) out -> v = PInt 0 /\ exists key, k = PStr key) /\
    (forall key, In key keys -> dict_lookup out (PStr key) = Some (PInt 0)) /\
    (forall key, dict_lookup acc (PStr key) = Some (PInt 0) ->
                 dict_lookup out (PStr key) = Some (PInt 0)).
Proof.
  assert (Hset : forall acc key,
             (forall k v, In (k, v) acc ->
                          v = PInt 0 /\ exists key, k = PStr key) ->
             forall k v, In (k, v) (dict_set acc (PStr key) (PInt 0)) ->
                         v = PInt 0 /\ exists key, k = PStr key).
  { induction acc as [|[k' v'] acc IHa]; intros key Hacc k v; simpl.
    - intros [H|[]]. injection H as <- <-. eauto.
    - destruct (py_eq k' (PStr key)) eqn:E; simpl.
      + intros [H|H].
        * injection H as <- <-. split; [reflexivity|].
          apply py_eq_str_inv in E. eauto.
        * apply Hacc. now right.
      + intros [H|H].
        * apply Hacc. now left.
        * apply (IHa key); [|exact H]. intros k0 v0 H0. apply Hacc. now right. }
  induction keys as [|key keys IH]; intros acc Hacc; simpl.
  - split; [exact Hacc|]. split; [intros key []|auto].
  - destruct (IH (dict_set acc (PStr key) (PInt 0)) (Hset acc key Hacc))
      as (H1 & H2 & H3).
    split; [exact H1|]. split.
    + intros k [<-|Hk]; [|now apply H2].
      apply H3. apply dict_lookup_set_same.
    + intros k Hk. apply H3. rewrite dict_lookup_set_str.
      now destruct (py_eq (PStr key) (PStr k)).
Qed.

(** X11: a response whose payload is not a mapping is taken as the empty
    mapping by each of the three coordinators: the live tick returns the
    mapping with only an empty ["wall_connectors"], the info tick returns
    [flatten] of the empty mapping, and the history tick returns zero
    under each tracked field and nothing else. *)
Theorem non_mapping_response
  (w : env) (s : coordinator) (l : log) (response d : pyval) :
  is_dict d = false ->
  py_getitem response "response" = Ret d ->
  (api_reply w l ReqLiveStatus = Ret response ->
   Live._async_update_data w s l
   = (Ret (PDict [(PStr "wall_connectors", PDict [])]), s,
      l ++ [EvRequest ReqLiveStatus; EvFire "teslemetry_live_status"])) /\
  (forall flatten,
      api_reply w l ReqSiteInfo = Ret response ->
      Info._async_update_data flatten w s l
      = (flatten (PDict []), s,
         l ++ [EvRequest ReqSiteInfo; EvFire "teslemetry_site_info"])) /\
  (forall fields float_add float_of_int,
      api_reply w l ReqEnergyHistory = Ret response ->
      exists output,
        History._async_update_data fields float_add float_of_int w s l
        = (Ret (PDict output), s, l ++ [EvRequest ReqEnergyHistory]) /\
        (forall key, In key fields ->
                     dict_lookup output (PStr key) = Some (PInt 0)) /\
        (forall k v, In (k, v) output ->
                     v = PInt 0 /\ exists key, k = PStr key)).
Proof.
  intros Hd Hr.
  assert (Hp : placeholder d = PDict []).
  { unfold placeholder. now rewrite Hd. }
  split; [|split].
  - intros Hw. now rewrite (live_after_response w s l response d [] Hw Hr Hp).
  - intros flatten Hw.
    unfold Info._async_update_data, fetch. unfold_monad.
    rewrite Hw. cbn [fst snd]. rewrite Hr. cbn iota beta. rewrite Hp.
    now rewrite <- app_assoc.
  - intros fields float_add float_of_int Hw.
    exists (History.zeros fields). split.
    + unfold History._async_update_data, fetch. unfold_monad.
      rewrite Hw. cbn [fst snd]. rewrite Hr. cbn iota beta. now rewrite Hp.
    + destruct (zeros_from_entries fields []) as (H1 & H2 & _).
      * intros k v [].
      * split; [exact H2 | exact H1].
Qed.

Lemma add_period_bad (float_add : pyfloat -> pyfloat -> pyfloat)
  (float_of_int : Z -> outcome pyfloat)
  (p : pyval) (key : string) (keys : list string) (output : pydict) :
  is_dict p = false ->
  exists e, History.add_period float_add float_of_int p (key :: keys) output
            = Raise e.
Proof.
  intros Hp. simpl. unfold History.add_field.
  destruct (py_getitem (PDict output) key); [|eauto].
  destruct p; try discriminate; simpl; eauto.
Qed.

Lemma add_periods_bad (fields : list string)
  (float_add : pyfloat -> pyfloat -> pyfloat)
  (float_of_int : Z -> outcome pyfloat) (periods : list pyval) :
  fields <> [] ->
  Exists (fun p => is_dict p = false) periods ->
  forall output,
    exists e, History.add_periods fields float_add float_of_int periods output
              = Raise e.
Proof.
  intros Hf Hex. destruct fields as [|key keys]; [congruence|].
  induction Hex as [p rest Hp|p rest Hex IH]; intros output.
  - destruct (add_period_bad float_add float_of_int p key keys output Hp)
      as [e He].
    exists e. cbn [History.add_periods]. now rewrite He.
  - cbn [History.add_periods].
    destruct (History.add_period float_add float_of_int p (key :: keys) output)
      as [output'|e]; [apply IH|eauto].
Qed.

(** X12: a time series that is not made of records fails the whole
    history tick, with an error raised outside the [try]: a
    ["time_series"] that cannot be iterated ([null], a number) raises
    [TypeError], and one bucket that is not a mapping is enough for the
    tick to raise instead of returning sums. *)
Theorem history_malformed_series
  (fields : list string)
  (float_add : pyfloat -> pyfloat -> pyfloat)
  (float_of_int : Z -> outcome pyfloat)
  (w : env) (s : coordinator) (l : log) (response d series : pyval) :
  api_reply w l ReqEnergyHistory = Ret response ->
  py_getitem response "response" = Ret d ->
  py_get (placeholder d) "time_series" (PList []) = Ret series ->
  (py_iter series = Raise TypeError ->
   History._async_update_data fields float_add float_of_int w s l
   = (Raise TypeError, s, l ++ [EvRequest ReqEnergyHistory])) /\
  (forall periods,
      series = PList periods ->
      fields <> [] ->
      Exists (fun p => is_dict p = false) periods ->
      exists e,
        History._async_update_data fields float_add float_of_int w s l
        = (Raise e, s, l ++ [EvRequest ReqEnergyHistory])).
Proof.
  intros Hw Hr Hg. split.
  - intros Hi.
    unfold History._async_update_data, fetch. unfold_monad.
    rewrite Hw. cbn [fst snd]. rewrite Hr. cbn iota beta.
    now rewrite Hg, Hi.
  - intros periods -> Hf Hex.
    destruct (add_periods_bad fields float_add float_of_int periods Hf Hex
                              (History.zeros fields)) as [e He].
    exists e.
    unfold History._async_update_data, fetch. unfold_monad.
    rewrite Hw. cbn [fst snd]. rewrite Hr. cbn iota beta.
    rewrite Hg. cbn [py_iter]. now rewrite He.
Qed.

Lemma non_mapping_response_witness :
  Live._async_update_data
    (answering (fun _ => Ret (PDict [(PStr "response", PList [])])) 0)
    (mkCoordinator PNone 0) []
  = (Ret (PDict [(PStr "wall_connectors", PDict [])]), mkCoordinator PNone 0,
     [EvRequest ReqLiveStatus; EvFire "teslemetry_live_status"]).
Proof.
  exact (proj1 (non_mapping_response
                  (answering
                     (fun _ => Ret (PDict [(PStr "response", PList [])])) 0)
                  (mkCoordinator PNone 0) []
                  (PDict [(PStr "response", PList [])]) (PList [])
                  eq_refl eq_refl)
               eq_refl).
Defined.

Lemma history_malformed_series_witness :
  History._async_update_data
    ["solar_energy_exported"]
    HistoryFacts.no_float_add HistoryFacts.no_float_of_int
    (answering
       (fun _ => Ret (PDict [(PStr "response",
                              PDict [(PStr "time_series", PNone)])])) 0)
    (mkCoordinator PNone 0) []
  = (Raise TypeError, mkCoordinator PNone 0, [EvRequest ReqEnergyHistory]).
Proof.
  exact (proj1 (history_malformed_series
                  ["solar_energy_exported"]
                  HistoryFacts.no_float_add HistoryFacts.no_float_of_int
                  (answering
                     (fun _ => Ret (PDict
                                      [(PStr "response",
                                        PDict [(PStr "time_series", PNone)])]))
                     0)
                  (mkCoordinator PNone 0) [] _ _ PNone
                  eq_refl eq_refl eq_refl)
               eq_refl).
Defined.

(** The request was answered by a document with a ["response"] entry. *)
Definition answered (w : env) (l : log) (r : request) : Prop :=
  exists response d,
    api_reply w l r = Ret response /\
    py_getitem response "response" = Ret d.

(** What the [try] statement of an energy coordinator leaves in the log:
    the one request; and it falls through exactly when the request was
    answered. *)
Lemma fetch_log (w : env) (s : coordinator) (l : log) (r : request) :
  snd (fetch r w s l) = l ++ [EvRequest r] /\
  ((exists d, fst (fst (fetch r w s l)) = Ret (Fallthrough d))
   <-> answered w l r).
Proof.
  assert (Hh : forall e : exn,
             match handlers e with
             | Some h =>
                 snd (h w s (l ++ [EvRequest r])) = l ++ [EvRequest r] /\
                 forall d, fst (fst (h w s (l ++ [EvRequest r])))
                           <> Ret (Fallthrough d)
             | None => True
             end).
  { intros [k| | |f|msg| |msg|name]; cbn; auto;
      [|destruct (exc_class f); cbn; unfold on_5xx; unfold_monad; cbn;
        try destruct (failures s + 1 >? 2); cbn];
      (split; [reflexivity|intros d; discriminate]). }
  unfold answered, fetch. unfold_monad.
  destruct (api_reply w l r) as [response|e] eqn:Ew; cbn [fst snd].
  - destruct (py_getitem response "response") as [d|e] eqn:Er; cbn [fst snd].
    + split; [reflexivity|]. split; eauto.
    + specialize (Hh e). destruct (handlers e) as [h|]; cbn [fst snd].
      * destruct Hh as [Hl Hn]. split; [exact Hl|]. split.
        -- intros [d H]. now elim (Hn d).
        -- intros (response' & d & H1 & H2). congruence.
      * split; [reflexivity|]. split.
        -- intros [d H]. discriminate.
        -- intros (response' & d & H1 & H2). congruence.
  - specialize (Hh e). destruct (handlers e) as [h|]; cbn [fst snd].
    + destruct Hh as [Hl Hn]. split; [exact Hl|]. split.
      * intros [d H]. now elim (Hn d).
      * intros (response' & d & H1 & H2). congruence.
    + split; [reflexivity|]. split.
      * intros [d H]. discriminate.
      * intros (response' & d & H1 & H2). congruence.
Qed.

(** X13: what a tick of an energy coordinator does to the outside world.
    Each of the three makes its one request and nothing before it.  The
    live and the info coordinator then fire their bus event exactly when
    the request was answered by a document with a ["response"] entry,
    whatever that entry is; the history coordinator fires none.  No tick
    of an energy coordinator reads the clock or creates a repair
    issue. *)
Theorem energy_tick_events
  (flatten : pyval -> outcome pyval) (fields : list string)
  (float_add : pyfloat -> pyfloat -> pyfloat)
  (float_of_int : Z -> outcome pyfloat)
  (w : env) (s : coordinator) (l : log) :
  (exists fired : bool,
      snd (Live._async_update_data w s l)
      = l ++ EvRequest ReqLiveStatus
             :: (if fired then [EvFire "teslemetry_live_status"] else []) /\
      (fired = true <-> answered w l ReqLiveStatus)) /\
  (exists fired : bool,
      snd (Info._async_update_data flatten w s l)
      = l ++ EvRequest ReqSiteInfo
             :: (if fired then [EvFire "teslemetry_site_info"] else []) /\
      (fired = true <-> answered w l ReqSiteInfo)) /\
  snd (History._async_update_data fields float_add float_of_int w s l)
  = l ++ [EvRequest ReqEnergyHistory].
Proof.
  split; [|split].
  - destruct (fetch_log w s l ReqLiveStatus) as [Hl Hf].
    unfold Live._async_update_data. unfold bind at 1.
    destruct (fetch ReqLiveStatus w s l) as [[[[v|d]|e] s1] l1];
      cbn [fst snd] in *; subst l1.
    + exists false. split; [reflexivity|]. split; [discriminate|].
      intros H. apply Hf in H. destruct H as [d H]. discriminate.
    + exists true. split.
      * unfold_monad. cbn [fst snd]. split_paths;
          now rewrite <- app_assoc.
      * split; [intros _; apply Hf; eauto|reflexivity].
    + exists false. split; [reflexivity|]. split; [discriminate|].
      intros H. apply Hf in H. destruct H as [d H]. discriminate.
  - destruct (fetch_log w s l ReqSiteInfo) as [Hl Hf].
    unfold Info._async_update_data. unfold bind at 1.
    destruct (fetch ReqSiteInfo w s l) as [[[[v|d]|e] s1] l1];
      cbn [fst snd] in *; subst l1.
    + exists false. split; [reflexivity|]. split; [discriminate|].
      intros H. apply Hf in H. destruct H as [d H]. discriminate.
    + exists true. split.
      * unfold_monad. cbn [fst snd]. split_paths;
          now rewrite <- app_assoc.
      * split; [intros _; apply Hf; eauto|reflexivity].
    + exists false. split; [reflexivity|]. split; [discriminate|].
      intros H. apply Hf in H. destruct H as [d H]. discriminate.
  - destruct (fetch_log w s l ReqEnergyHistory) as [Hl _].
    unfold History._async_update_data. unfold bind at 1.
    destruct (fetch ReqEnergyHistory w s l) as [[[[v|d]|e] s1] l1];
      cbn [fst snd] in *; subst l1; [reflexivity| |reflexivity].
    unfold_monad. cbn [fst snd]. split_paths; reflexivity.
Qed.

End EnergyMore.

(* ================================================================== *)
(** * climate.py: refresh of the cabin overheat protection *)
(* ================================================================== *)

Module CabinOverheatProtectionAttrs.
Import TeslemetryVehicleEntity TeslemetryCabinOverheatProtectionEntity.

(** Lines 214-224. *)
Definition COP_MODES : pydict :=
  [(PStr "Off", HVACMode.OFF);
   (PStr "On", HVACMode.COOL);
   (PStr "FanOnly", HVACMode.FAN_ONLY)].

Definition COP_LEVELS : pydict :=
  [(PStr "Low", PInt 30); (PStr "Medium", PInt 35); (PStr "High", PInt 40)].

(** [table.get(k)] for a key object of any kind: it has to be hashable. *)
Definition table_get (table : pydict) (k : pyval) : outcome pyval :=
  if hashable k then
    Ret (match dict_lookup table k with Some v => v | None => PNone end)
  else Raise TypeError.

Definition set_current_temperature (v : pyval) (s : entity) : entity :=
  mkEntity (coordinator_data s) (scoped s) (_attr_hvac_mode s)
    v (_attr_target_temperature s).

(** Lines 272-286. *)
Definition _async_update_attrs : M entity unit :=
  state <- get coordinator_data "climate_state_cabin_overheat_protection" PNone ;;
  (if is_none state then modify (set_hvac_mode PNone)
   else
     mode <- lift (table_get COP_MODES state) ;;
     modify (set_hvac_mode mode)) ;;;
  level <- get coordinator_data "climate_state_cop_activation_temperature" PNone ;;
  (if is_none level then modify (set_target_temperature PNone)
   else
     t <- lift (table_get COP_LEVELS level) ;;
     modify (set_target_temperature t)) ;;;
  t <- get coordinator_data "climate_state_inside_temp" PNone ;;
  modify (set_current_temperature t).

End CabinOverheatProtectionAttrs.

(* ================================================================== *)
(** * More on the climate entities *)
(* ================================================================== *)

Module ClimateMore.
Import Sample TeslemetryVehicleEntity.
Module Climate := TeslemetryClimateEntity.
Module Cabin := TeslemetryCabinOverheatProtectionEntity.

Ltac unfold_entity :=
  unfold raise_for_scope, wake_up_if_asleep, handle_command,
    async_write_ha_state.

(** One step along the paths of a command method of an entity whose
    scope test is settled by [Hs]. *)
Ltac walk Hs :=
  cbn;
  first
    [ rewrite Hs
    | match goal with
      | |- context [match ?x with _ => _ end] =>
          lazymatch x with
          | context [match _ with _ => _ end] => fail
          | _ => destruct x eqn:?
          end
      end ].

(** The state of the climate entity after it was turned off: the mode is
    [OFF] and the preset and the fan are back to ["off"]. *)
Definition turned_off (s : Climate.entity) : Climate.entity :=
  Climate.set_fan_mode (PStr "off")
    (Climate.set_preset_mode (PStr "off")
       (Climate.set_hvac_mode HVACMode.OFF s)).

(** X14: setting the HVAC mode of the climate entity either raises and
    leaves the entity as it was, without writing its state, or sends
    exactly one command and writes the state once, last: the stop
    command for [OFF], after which mode, preset and fan are all off, and
    the start command for any other mode whatever, after which the mode
    is [HEAT_COOL]. *)
Theorem climate_set_hvac_mode
  (w : env) (s : Climate.entity) (l : log) (mode : pyval) :
  let run := Climate.async_set_hvac_mode mode w s l in
  match fst (fst run) with
  | Raise _ =>
      snd (fst run) = s /\
      (snd run = l \/ snd run = l ++ [EvWakeUp] \/
       exists c, snd run = l ++ [EvWakeUp; EvCommand c])
  | Ret _ =>
      if py_eq mode HVACMode.OFF
      then snd (fst run) = turned_off s /\
           snd run = l ++ [EvWakeUp; EvCommand auto_conditioning_stop;
                           EvWriteState]
      else snd (fst run) = Climate.set_hvac_mode HVACMode.HEAT_COOL s /\
           snd run = l ++ [EvWakeUp; EvCommand auto_conditioning_start;
                           EvWriteState]
  end.
Proof.
  unfold Climate.async_set_hvac_mode, Climate.async_turn_off,
    Climate.async_turn_on.
  unfold_entity. unfold_monad.
  destruct (py_eq mode HVACMode.OFF); cbn;
    destruct (Climate.scoped s); cbn; auto;
    destruct (wake_reply w l); cbn; auto;
    match goal with
    | |- context [command_reply ?w ?l ?c] => destruct (command_reply w l c)
    end; cbn; rewrite <- ?app_assoc; cbn; eauto 6.
Qed.

(** The flags sent for a mode of the cabin overheat protection. *)
Definition cop_flags (mode : pyval) : option (bool * bool) :=
  if py_eq mode HVACMode.OFF then Some (false, false)
  else if py_eq mode HVACMode.COOL then Some (true, false)
  else if py_eq mode HVACMode.FAN_ONLY then Some (true, true)
  else None.

(** X15: setting the HVAC mode of the cabin overheat protection, with
    the scope held and the vehicle awake: [OFF], [COOL] and [FAN_ONLY]
    send the command with the flags (off, -), (on, not fan only) and
    (on, fan only), and the mode is recorded once the command is
    accepted; any other mode sends no command at all and is recorded all
    the same. *)
Theorem cabin_set_hvac_mode
  (w : env) (s : Cabin.entity) (l : log) (mode : pyval) :
  Cabin.scoped s = true ->
  wake_reply w l = None ->
  match cop_flags mode with
  | Some (on, fan_only) =>
      let c := set_cabin_overheat_protection on fan_only in
      Cabin.async_set_hvac_mode mode w s l
      = match command_reply w (l ++ [EvWakeUp]) c with
        | None => (Ret tt, Cabin.set_hvac_mode mode s,
                   l ++ [EvWakeUp; EvCommand c; EvWriteState])
        | Some e => (Raise e, s, l ++ [EvWakeUp; EvCommand c])
        end
  | None =>
      Cabin.async_set_hvac_mode mode w s l
      = (Ret tt, Cabin.set_hvac_mode mode s, l ++ [EvWakeUp; EvWriteState])
  end.
Proof.
  intros Hs Hw. unfold cop_flags, Cabin.async_set_hvac_mode.
  unfold_entity. unfold_monad. rewrite Hs, Hw.
  destruct (py_eq mode HVACMode.OFF); cbn;
    [|destruct (py_eq mode HVACMode.COOL); cbn;
      [|destruct (py_eq mode HVACMode.FAN_ONLY); cbn]];
    try match goal with
      | |- context [command_reply ?w ?l ?c] => destruct (command_reply w l c)
      end; cbn; now rewrite <- ?app_assoc.
Qed.

Lemma cabin_set_hvac_mode_witness :
  Cabin.async_set_hvac_mode (PStr "heat") quiet cabin_entity []
  = (Ret tt, Cabin.set_hvac_mode (PStr "heat") cabin_entity,
     [EvWakeUp; EvWriteState]).
Proof.
  exact (cabin_set_hvac_mode quiet cabin_entity [] (PStr "heat")
                             eq_refl eq_refl).
Defined.

(** X16: an entity that does not hold the command scope never wakes the
    vehicle and never sends a command, whatever the keyword arguments of
    [async_set_temperature] are: the call changes nothing of the entity
    and at most writes its state. *)
Theorem unscoped_set_temperature
  (w : env) (l : log) (kwargs : pydict) :
  (forall s, Climate.scoped s = false ->
             let run := Climate.async_set_temperature kwargs w s l in
             snd (fst run) = s /\
             (snd run = l \/ snd run = l ++ [EvWriteState])) /\
  (forall s, Cabin.scoped s = false ->
             let run := Cabin.async_set_temperature kwargs w s l in
             snd (fst run) = s /\
             (snd run = l \/ snd run = l ++ [EvWriteState])).
Proof.
  split; intros s Hs.
  - unfold Climate.async_set_temperature, Climate.async_set_hvac_mode,
      Climate.async_turn_off, Climate.async_turn_on.
    unfold_entity. unfold_monad. repeat walk Hs; auto.
  - unfold Cabin.async_set_temperature, Cabin.async_set_hvac_mode.
    unfold_entity. unfold_monad. repeat walk Hs; auto.
Qed.

(** An entity without the command scope. *)
Definition unscoped_cabin : Cabin.entity :=
  Cabin.mkEntity PNone false PNone PNone PNone.

Definition both_arguments : pydict :=
  [(PStr "temperature", PInt 35); (PStr "hvac_mode", PStr "cool")].

Lemma unscoped_set_temperature_witness :
  snd (fst (Cabin.async_set_temperature both_arguments quiet unscoped_cabin []))
  = unscoped_cabin /\
  (snd (Cabin.async_set_temperature both_arguments quiet unscoped_cabin [])
   = [] \/
   snd (Cabin.async_set_temperature both_arguments quiet unscoped_cabin [])
   = [] ++ [EvWriteState]).
Proof.
  exact (proj2 (unscoped_set_temperature quiet [] both_arguments)
           unscoped_cabin eq_refl).
Defined.

(** What a table of the module gives for any key is one of its values or
    [None]. *)
Lemma table_get_cases (table : pydict) (k v : pyval) :
  CabinOverheatProtectionAttrs.table_get table k = Ret v ->
  v = PNone \/ In v (map snd table).
Proof.
  unfold CabinOverheatProtectionAttrs.table_get.
  destruct (hashable k); [|discriminate].
  intros H. injection H as <-.
  induction table as [|[k' v'] table IH]; simpl; [now left|].
  destruct (py_eq k' k); [right; now left|].
  destruct IH as [IH|IH]; [now left|right; now right].
Qed.

Lemma cop_modes_sendable (state m : pyval) :
  CabinOverheatProtectionAttrs.table_get
    CabinOverheatProtectionAttrs.COP_MODES state = Ret m ->
  m = PNone \/ exists on fan_only, cop_flags m = Some (on, fan_only).
Proof.
  intros Hm. apply table_get_cases in Hm.
  destruct Hm as [Hm|[<-|[<-|[<-|[]]]]]; [now left| | |];
    right; vm_compute; eauto.
Qed.

Lemma cop_levels_accepted (level v : pyval) :
  CabinOverheatProtectionAttrs.table_get
    CabinOverheatProtectionAttrs.COP_LEVELS level = Ret v ->
  v = PNone \/ exists lv, Cabin.cop_mode_of v = Ret lv.
Proof.
  intros Hv. apply table_get_cases in Hv.
  destruct Hv as [Hv|[<-|[<-|[<-|[]]]]]; [now left| | |];
    right; vm_compute; eauto.
Qed.

(** X17: what a refresh of the cabin overheat protection displays can be
    sent back.  The refresh has no effect on the outside world; when it
    succeeds, the target temperature is [None] or one of the three
    temperatures [async_set_temperature] accepts, and the mode is [None]
    or one of the three modes [async_set_hvac_mode] sends a command for.
    A level or a state the tables do not know is displayed as [None]. *)
Theorem cabin_refresh_round_trip
  (w : env) (s s' : Cabin.entity) (l l' : log) :
  CabinOverheatProtectionAttrs._async_update_attrs w s l = (Ret tt, s', l') ->
  l' = l /\
  (Cabin._attr_target_temperature s' = PNone \/
   exists level,
     Cabin.cop_mode_of (Cabin._attr_target_temperature s') = Ret level) /\
  (Cabin._attr_hvac_mode s' = PNone \/
   exists on fan_only,
     cop_flags (Cabin._attr_hvac_mode s') = Some (on, fan_only)).
Proof.
  destruct s as [cd sc hm ct tg].
  unfold CabinOverheatProtectionAttrs._async_update_attrs, get.
  unfold_monad.
  cbn -[CabinOverheatProtectionAttrs.table_get py_get cop_flags
        Cabin.cop_mode_of is_none].
  repeat (match goal with
          | |- context [match ?x with _ => _ end] =>
              lazymatch x with
              | context [match _ with _ => _ end] => fail
              | _ => destruct x eqn:?
              end
          end;
          cbn -[CabinOverheatProtectionAttrs.table_get py_get cop_flags
                Cabin.cop_mode_of is_none]);
    try discriminate;
    intros H; injection H as <- <-;
    cbn -[CabinOverheatProtectionAttrs.table_get py_get cop_flags
          Cabin.cop_mode_of];
    eauto using cop_modes_sendable, cop_levels_accepted.
Qed.

(** A snapshot with fan-only protection at the highest level, and the
    entity after a refresh over it. *)
Definition fan_only_high : pyval :=
  PDict [(PStr "climate_state_cabin_overheat_protection", PStr "FanOnly");
         (PStr "climate_state_cop_activation_temperature", PStr "High")].

Definition shown : Cabin.entity :=
  Cabin.mkEntity fan_only_high true (PStr "fan_only") PNone (PInt 40).

Lemma cabin_refresh_round_trip_witness :
  (Cabin._attr_target_temperature shown = PNone \/
   exists level,
     Cabin.cop_mode_of (Cabin._attr_target_temperature shown) = Ret level) /\
  (Cabin._attr_hvac_mode shown = PNone \/
   exists on fan_only,
     cop_flags (Cabin._attr_hvac_mode shown) = Some (on, fan_only)).
Proof.
  exact (proj2 (cabin_refresh_round_trip
                  quiet
                  (Cabin.mkEntity fan_only_high true PNone PNone PNone)
                  shown [] [] eq_refl)).
Defined.

End ClimateMore.

(* ================================================================== *)
(** * More on the update entity *)
(* ================================================================== *)

Module UpdateMore.
Import Sample TeslemetryVehicleEntity.
Module Update := TeslemetryUpdateEntity.

Section WithConst.
Variables AVAILABLE SCHEDULED INSTALLING DOWNLOADING WIFI_WAIT : string.

Local Abbreviation _async_update_attrs :=
  (Update._async_update_attrs
     AVAILABLE SCHEDULED INSTALLING DOWNLOADING WIFI_WAIT).

(** The status read from the snapshot. *)
Definition status_of (d : pydict) : pyval := dict_get d Update.key PNone.

(** X18: when installing is offered and when progress is shown.  A
    refresh over a snapshot that is a mapping has no effect on the
    outside world and, whether it succeeds or not, leaves the supported
    features at progress plus install when the entity holds the command
    scope and the status is available or scheduled, and at progress
    alone otherwise.  When it succeeds, the progress is the install
    percentage of the snapshot if the status is scheduled or installing,
    and [False] otherwise. *)
Theorem install_offered
  (w : env) (s s' : Update.entity) (l l' : log) (o : outcome unit)
  (d : pydict) :
  Update.coordinator_data s = PDict d ->
  _async_update_attrs w s l = (o, s', l') ->
  l' = l /\
  Update._attr_supported_features s'
  = (if Update.scoped s && Update.py_in (status_of d) [AVAILABLE; SCHEDULED]
     then Z.lor UpdateEntityFeature.PROGRESS UpdateEntityFeature.INSTALL
     else UpdateEntityFeature.PROGRESS) /\
  (o = Ret tt ->
   Update._attr_in_progress s'
   = if Update.py_in (status_of d) [SCHEDULED; INSTALLING]
     then dict_get d "vehicle_state_software_update_install_perc" PNone
     else PBool false).
Proof.
  intros Hd. destruct s as [cd sc sf iv lv ip]. simpl in Hd. subst cd.
  unfold status_of.
  unfold Update._async_update_attrs, Update._value, get. unfold_monad.
  cbn -[dict_get Update.py_in split_space Z.lor].
  destruct sc; cbn -[dict_get Update.py_in split_space Z.lor].
  - destruct (Update.py_in (dict_get d Update.key PNone)
                           [AVAILABLE; SCHEDULED]) eqn:Ei;
      cbn -[dict_get Update.py_in split_space Z.lor];
      (destruct (Update.remove_build
                   (dict_get d "vehicle_state_car_version" PNone));
       cbn -[dict_get Update.py_in split_space Z.lor];
       [|intros H; injection H as <- <- <-; simpl;
         repeat split; discriminate]);
      (destruct (Update.py_in (dict_get d Update.key PNone)
                   [AVAILABLE; SCHEDULED; INSTALLING; DOWNLOADING; WIFI_WAIT]);
       cbn -[dict_get Update.py_in split_space Z.lor];
       [destruct (dict_lookup d
                    (PStr "vehicle_state_software_update_version"));
        cbn -[dict_get Update.py_in split_space Z.lor];
        [|intros H; injection H as <- <- <-; simpl;
          repeat split; discriminate]|]);
      (destruct (Update.py_in (dict_get d Update.key PNone)
                              [SCHEDULED; INSTALLING]);
       cbn -[dict_get Update.py_in split_space Z.lor];
       intros H; injection H as <- <- <-; simpl; repeat split).
  - (destruct (Update.remove_build
                 (dict_get d "vehicle_state_car_version" PNone));
     cbn -[dict_get Update.py_in split_space Z.lor];
     [|intros H; injection H as <- <- <-; simpl;
       repeat split; discriminate]);
      (destruct (Update.py_in (dict_get d Update.key PNone)
                   [AVAILABLE; SCHEDULED; INSTALLING; DOWNLOADING; WIFI_WAIT]);
       cbn -[dict_get Update.py_in split_space Z.lor];
       [destruct (dict_lookup d
                    (PStr "vehicle_state_software_update_version"));
        cbn -[dict_get Update.py_in split_space Z.lor];
        [|intros H; injection H as <- <- <-; simpl;
          repeat split; discriminate]|]);
      (destruct (Update.py_in (dict_get d Update.key PNone)
                              [SCHEDULED; INSTALLING]);
       cbn -[dict_get Update.py_in split_space Z.lor];
       intros H; injection H as <- <- <-; simpl; repeat split).
Qed.

(** X19: a refresh that fails leaves the entity half refreshed.  When
    the status announces an update and the snapshot has no
    software-update version, the refresh raises [KeyError] after the
    installed version was replaced, with the latest version and the
    progress still those of the refresh before.  When the car version is
    neither [None] nor a string, it raises [AttributeError] and the
    installed version is that value as it came. *)
Theorem failed_refresh_is_partial
  (w : env) (s : Update.entity) (l : log) (d : pydict) :
  Update.coordinator_data s = PDict d ->
  let run := _async_update_attrs w s l in
  (forall installed,
      Update.remove_build (dict_get d "vehicle_state_car_version" PNone)
      = Ret installed ->
      Update.py_in (status_of d)
        [AVAILABLE; SCHEDULED; INSTALLING; DOWNLOADING; WIFI_WAIT] = true ->
      dict_lookup d (PStr "vehicle_state_software_update_version") = None ->
      fst (fst run)
      = Raise (KeyError (PStr "vehicle_state_software_update_version")) /\
      Update._attr_installed_version (snd (fst run)) = installed /\
      Update._attr_latest_version (snd (fst run))
      = Update._attr_latest_version s /\
      Update._attr_in_progress (snd (fst run)) = Update._attr_in_progress s) /\
  (Update.remove_build (dict_get d "vehicle_state_car_version" PNone)
   = Raise AttributeError ->
   fst (fst run) = Raise AttributeError /\
   Update._attr_installed_version (snd (fst run))
   = dict_get d "vehicle_state_car_version" PNone /\
   Update._attr_latest_version (snd (fst run))
   = Update._attr_latest_version s).
Proof.
  intros Hd. destruct s as [cd sc sf iv lv ip]. simpl in Hd. subst cd.
  unfold status_of. split.
  - intros installed Hi Hp Hl.
    unfold Update._async_update_attrs, Update._value, get. unfold_monad.
    cbn -[dict_get Update.py_in split_space Z.lor].
    destruct sc; cbn -[dict_get Update.py_in split_space Z.lor];
      try destruct (Update.py_in (dict_get d Update.key PNone)
                                 [AVAILABLE; SCHEDULED]);
      cbn -[dict_get Update.py_in split_space Z.lor];
      rewrite Hi; cbn -[dict_get Update.py_in split_space Z.lor];
      rewrite Hp; cbn -[dict_get Update.py_in split_space Z.lor];
      rewrite Hl; cbn; auto.
  - intros Hi.
    unfold Update._async_update_attrs, Update._value, get. unfold_monad.
    cbn -[dict_get Update.py_in split_space Z.lor].
    destruct sc; cbn -[dict_get Update.py_in split_space Z.lor];
      try destruct (Update.py_in (dict_get d Update.key PNone)
                                 [AVAILABLE; SCHEDULED]);
      cbn -[dict_get Update.py_in split_space Z.lor];
      rewrite Hi; cbn; auto.
Qed.

End WithConst.

(** An entity refreshed before, over a snapshot that announces an update
    and does not say which. *)
Definition announced : Update.entity :=
  Update.mkEntity
    (PDict [(PStr "vehicle_state_car_version", PStr "2024.8.9 abcdef");
            (PStr "vehicle_state_software_update_status", PStr "available")])
    true UpdateEntityFeature.PROGRESS
    (PStr "2024.2.1") (PStr "2024.8.9") (PBool false).

Definition refresh_announced :=
  Update._async_update_attrs
    "available" "scheduled" "installing" "downloading" "downloading_wifi_wait"
    quiet announced [].

Lemma install_offered_witness :
  Update._attr_supported_features (snd (fst refresh_announced)) = 5.
Proof.
  exact (proj1 (proj2 (install_offered
                         "available" "scheduled" "installing" "downloading"
                         "downloading_wifi_wait"
                         quiet announced (snd (fst refresh_announced))
                         [] (snd refresh_announced)
                         (fst (fst refresh_announced)) _
                         eq_refl eq_refl))).
Defined.

Lemma failed_refresh_is_partial_witness :
  fst (fst refresh_announced)
  = Raise (KeyError (PStr "vehicle_state_software_update_version")) /\
  Update._attr_installed_version (snd (fst refresh_announced))
  = PStr "2024.8.9" /\
  Update._attr_latest_version (snd (fst refresh_announced))
  = PStr "2024.8.9" /\
  Update._attr_in_progress (snd (fst refresh_announced)) = PBool false.
Proof.
  exact (proj1 (failed_refresh_is_partial
                  "available" "scheduled" "installing" "downloading"
                  "downloading_wifi_wait"
                  quiet announced [] _ eq_refl)
               (PStr "2024.8.9") eq_refl eq_refl eq_refl).
Defined.

End UpdateMore.

(* ================================================================== *)
(** * Commands of the lock entities and of the climate modes *)
(* ================================================================== *)

Module Service.

(** Vehicle commands issued by the lock entities and by the preset and
    fan modes of the climate entity. *)
Inductive command : Type :=
| door_lock
| door_unlock
| charge_port_door_open
| speed_limit_activate (pin : pyval)
| speed_limit_deactivate (pin : pyval)
| set_climate_keeper_mode (climate_keeper_mode : nat)
| set_bioweapon_mode (on manual_override : bool).

(** What a command method does to the outside world, in order. *)
Inductive event : Type :=
| EvWakeUp
| EvCommand (c : command)
| EvWriteState.

Definition log : Type := list event.

(** The vehicle: each oracle sees the effects performed so far. *)
Record env : Type := mkEnv {
  wake_reply : log -> option exn;
  command_reply : log -> command -> option exn
}.

Section Monad.
Context {St : Type}.

Definition M (A : Type) : Type := env -> St -> log -> outcome A * St * log.

Definition ret {A} (a : A) : M A := fun _ s l => (Ret a, s, l).

Definition raise {A} (e : exn) : M A := fun _ s l => (Raise e, s, l).

Definition bind {A B} (m : M A) (k : A -> M B) : M B :=
  fun w s l =>
    match m w s l with
    | (Ret a, s', l') => k a w s' l'
    | (Raise e, s', l') => (Raise e, s', l')
    end.

Definition lift {A} (o : outcome A) : M A := fun _ s l => (o, s, l).

Definition get : M St := fun _ s l => (Ret s, s, l).

Definition modify (f : St -> St) : M unit := fun _ s l => (Ret tt, f s, l).

Definition emit (e : event) : M unit := fun _ s l => (Ret tt, s, l ++ [e]).

(** Modelled from the spec: [self.get(key, default)] of [entity.py] reads
    the coordinator's snapshot. *)
Definition entity_get (coordinator_data : St -> pyval) (key : string)
  (default : pyval) : M pyval :=
  bind get (fun s => lift (py_get (coordinator_data s) key default)).

(** Modelled from the spec: command methods "first verify the required
    authorization scope is held (else fail with an authorization
    error)". *)
Definition raise_for_scope (scoped : St -> bool) : M unit :=
  bind get (fun s =>
    if scoped s then ret tt
    else raise (ServiceValidationError "missing_scope")).

(** Modelled from the spec: command methods "ensure the vehicle is not
    asleep (waking it if necessary...)"; whether that succeeds is up to
    the vehicle. *)
Definition wake_up_if_asleep : M unit :=
  fun w s l =>
    (match wake_reply w l with None => Ret tt | Some e => Raise e end,
     s, l ++ [EvWakeUp]).

(** Modelled from the spec: the vendor command is issued, and the vendor
    accepts it or the call fails. *)
Definition handle_command (c : command) : M unit :=
  fun w s l =>
    (match command_reply w l c with None => Ret tt | Some e => Raise e end,
     s, l ++ [EvCommand c]).

Definition async_write_ha_state : M unit := emit EvWriteState.

End Monad.

Arguments M : clear implicits.

End Service.

Declare Scope svc_scope.
Delimit Scope svc_scope with svc.
Notation "x <- m ;; k" := (Service.bind m (fun x => k))
  (at level 100, m at next level, right associativity) : svc_scope.
Notation "m ;;; k" := (Service.bind m (fun _ => k))
  (at level 100, right associativity) : svc_scope.

(* ================================================================== *)
(** * lock.py *)
(* ================================================================== *)

(** [homeassistant.const.ATTR_CODE]. *)
Definition ATTR_CODE : string := "code".

(** The three lock entities hold the same attributes. *)
Module LockEntity.

Record entity : Type := mkEntity {
  coordinator_data : pyval;       (* self.coordinator.data *)
  scoped : bool;
  _attr_is_locked : pyval
}.

Definition set_is_locked (v : pyval) (s : entity) : entity :=
  mkEntity (coordinator_data s) (scoped s) v.

End LockEntity.

Module TeslemetryVehicleLockEntity.
Import Service LockEntity.
#[local] Open Scope svc_scope.

(** The key the entity is created with (line 45). *)
Definition key : string := "vehicle_state_locked".

(** Modelled from the spec: [self._value] is defined in [entity.py]; it
    is the entity's own value, read from the snapshot under its key. *)
Definition _value : M entity pyval := entity_get coordinator_data key PNone.

Definition _async_update_attrs : M entity unit :=
  v <- _value ;; modify (set_is_locked v).

Definition _async_value_from_stream (value : pyval) : M entity unit :=
  modify (set_is_locked (PBool (py_eq value (PStr "true")))).

Definition async_lock (kwargs : pydict) : M entity unit :=
  raise_for_scope scoped ;;;
  wake_up_if_asleep ;;;
  handle_command door_lock ;;;
  modify (set_is_locked (PBool true)) ;;;
  async_write_ha_state.

Definition async_unlock (kwargs : pydict) : M entity unit :=
  raise_for_scope scoped ;;;
  wake_up_if_asleep ;;;
  handle_command door_unlock ;;;
  modify (set_is_locked (PBool false)) ;;;
  async_write_ha_state.

End TeslemetryVehicleLockEntity.

Module TeslemetryCableLockEntity.
Import Service LockEntity.
#[local] Open Scope svc_scope.

(** The key the entity is created with (line 89). *)
Definition key : string := "charge_state_charge_port_latch".

(** Modelled from the spec: [self._value] is defined in [entity.py]; it
    is the entity's own value, read from the snapshot under its key. *)
Definition _value : M entity pyval := entity_get coordinator_data key PNone.

Section WithConst.

(** [const.TeslemetryChargeCableLockStates] is not among the sources: its
    member used here is a parameter. *)
Variable ENGAGED : string.

Definition _async_update_attrs : M entity unit :=
  v <- _value ;;
  (if is_none v then modify (set_is_locked PNone) else ret tt) ;;;
  v <- _value ;;
  modify (set_is_locked (PBool (py_eq v (PStr ENGAGED)))).

Definition _async_value_from_stream (value : pyval) : M entity unit :=
  modify (set_is_locked (PBool (py_eq value (PStr ENGAGED)))).

End WithConst.

Definition async_lock (kwargs : pydict) : M entity unit :=
  raise (ServiceValidationError "Insert cable to lock").

Definition async_unlock (kwargs : pydict) : M entity unit :=
  raise_for_scope scoped ;;;
  wake_up_if_asleep ;;;
  handle_command charge_port_door_open ;;;
  modify (set_is_locked (PBool false)) ;;;
  async_write_ha_state.

End TeslemetryCableLockEntity.

Module TeslemetrySpeedLimitEntity.
Import Service LockEntity.
#[local] Open Scope svc_scope.

(** The key the entity is created with (line 132). *)
Definition key : string := "vehicle_state_speed_limit_mode_active".

(** Modelled from the spec: [self._value] is defined in [entity.py]; it
    is the entity's own value, read from the snapshot under its key. *)
Definition _value : M entity pyval := entity_get coordinator_data key PNone.

Definition _async_update_attrs : M entity unit :=
  v <- _value ;; modify (set_is_locked v).

Definition async_lock (kwargs : pydict) : M entity unit :=
  let code := dict_get kwargs ATTR_CODE PNone in
  if py_truthy code then
    raise_for_scope scoped ;;;
    wake_up_if_asleep ;;;
    handle_command (speed_limit_activate code) ;;;
    modify (set_is_locked (PBool true)) ;;;
    async_write_ha_state
  else ret tt.

Definition async_unlock (kwargs : pydict) : M entity unit :=
  let code := dict_get kwargs ATTR_CODE PNone in
  if py_truthy code then
    raise_for_scope scoped ;;;
    wake_up_if_asleep ;;;
    handle_command (speed_limit_deactivate code) ;;;
    modify (set_is_locked (PBool false)) ;;;
    async_write_ha_state
  else ret tt.

End TeslemetrySpeedLimitEntity.

(* ================================================================== *)
(** * climate.py: preset and fan modes *)
(* ================================================================== *)

Module ClimateModes.
Import Service TeslemetryClimateEntity.
#[local] Open Scope svc_scope.

(** [modes.index(x)]: the position of the first member equal to [x];
    [ValueError] when there is none. *)
Fixpoint index (modes : list string) (x : pyval) : outcome nat :=
  match modes with
  | [] => Raise (OtherError "ValueError")
  | m :: rest =>
      if py_eq (PStr m) x then Ret O
      else i <~ index rest x ;; Ret (Datatypes.S i)
  end.

(** [modes[i]] for an index within the list. *)
Definition item (modes : list string) (i : nat) : pyval :=
  PStr (nth i modes EmptyString).

(** Lines 182-196. *)
Definition async_set_preset_mode (preset_mode : pyval) : M entity unit :=
  raise_for_scope scoped ;;;
  wake_up_if_asleep ;;;
  i <- lift (index _attr_preset_modes preset_mode) ;;
  handle_command (set_climate_keeper_mode i) ;;;
  modify (set_preset_mode preset_mode) ;;;
  (if py_eq preset_mode (item _attr_preset_modes 0)
   then modify (set_hvac_mode HVACMode.OFF)
   else modify (set_hvac_mode HVACMode.HEAT_COOL)) ;;;
  async_write_ha_state.

(** Lines 198-211. *)
Definition async_set_fan_mode (fan_mode : pyval) : M entity unit :=
  raise_for_scope scoped ;;;
  wake_up_if_asleep ;;;
  handle_command
    (set_bioweapon_mode (negb (py_eq fan_mode (PStr "off"))) true) ;;;
  modify (set_fan_mode fan_mode) ;;;
  (if py_eq fan_mode (item _attr_fan_modes 1)
   then modify (set_hvac_mode HVACMode.HEAT_COOL)
   else ret tt) ;;;
  async_write_ha_state.

End ClimateModes.

(* ================================================================== *)
(** * Facts about the command methods *)
(* ================================================================== *)

Module ServiceFacts.
Import Service.
#[local] Open Scope svc_scope.

Ltac unfold_service :=
  cbv beta iota delta
    [Service.bind Service.ret Service.raise Service.lift Service.get
     Service.modify Service.emit Service.raise_for_scope
     Service.wake_up_if_asleep Service.handle_command
     Service.async_write_ha_state Service.entity_get].

(** A vehicle that wakes up and accepts every command. *)
Definition willing : env := mkEnv (fun _ => None) (fun _ _ => None).

(** A vehicle that wakes up and refuses every command. *)
Definition refusing : env :=
  mkEnv (fun _ => None) (fun _ _ => Some (OtherError "refused")).

Section Guarded.
Context {St : Type}.
Variable scoped : St -> bool.

(** The shape most command methods have: scope, wake-up, one command,
    then the new attributes and the state write. *)
Definition guarded (c : command) (f : St -> St) : M St unit :=
  raise_for_scope scoped ;;;
  wake_up_if_asleep ;;;
  handle_command c ;;;
  modify f ;;;
  async_write_ha_state.

(** How a call of that shape can end. *)
Definition guarded_outcome (c : command) (f : St -> St)
  (s : St) (l : log) (run : outcome unit * St * log) : Prop :=
  match fst (fst run) with
  | Raise e =>
      snd (fst run) = s /\
      ((scoped s = false /\ snd run = l /\
        e = ServiceValidationError "missing_scope") \/
       (scoped s = true /\ snd run = l ++ [EvWakeUp]) \/
       (scoped s = true /\ snd run = l ++ [EvWakeUp; EvCommand c]))
  | Ret _ =>
      scoped s = true /\
      snd (fst run) = f s /\
      snd run = l ++ [EvWakeUp; EvCommand c; EvWriteState]
  end.

Lemma guarded_cases (c : command) (f : St -> St) (w : env) (s : St)
  (l : log) :
  guarded_outcome c f s l (guarded c f w s l).
Proof.
  unfold guarded_outcome, guarded. unfold_service.
  destruct (scoped s); cbn; [|auto].
  destruct (wake_reply w l); cbn; [auto|].
  destruct (command_reply w (l ++ [EvWakeUp]) c); cbn;
    rewrite <- ?app_assoc; cbn; auto 6.
Qed.

End Guarded.

End ServiceFacts.

Module LockFacts.
Import Service LockEntity ServiceFacts.
Module VehicleLock := TeslemetryVehicleLockEntity.
Module CableLock := TeslemetryCableLockEntity.
Module SpeedLimit := TeslemetrySpeedLimitEntity.

(** X20: locking and unlocking the doors.  Either call ends in one of two
    ways.  It raises, and then the lock state of the entity is the one
    before the call and no state was written: without the scope nothing
    was sent at all, otherwise the vehicle was woken and at most the one
    command was sent.  Or it returns, and then the scope is held, the
    vehicle was woken, exactly the lock (unlock) command was sent, the
    entity is locked (unlocked) and its state was written last. *)
Theorem door_lock_unlock
  (w : env) (s : entity) (l : log) (kwargs : pydict) :
  guarded_outcome scoped door_lock (set_is_locked (PBool true)) s l
    (VehicleLock.async_lock kwargs w s l) /\
  guarded_outcome scoped door_unlock (set_is_locked (PBool false)) s l
    (VehicleLock.async_unlock kwargs w s l).
Proof.
  split; apply guarded_cases.
Qed.

(** X21: a streamed value locks the entity exactly when it is the string
    ["true"]; any other value, the boolean [True] included, shows the
    doors as unlocked, never as unknown. *)
Theorem stream_locked_iff_true
  (w : env) (s : entity) (l : log) (value : pyval) :
  exists b,
    VehicleLock._async_value_from_stream value w s l
    = (Ret tt, set_is_locked (PBool b) s, l) /\
    (b = true <-> value = PStr "true").
Proof.
  exists (py_eq value (PStr "true")). split; [reflexivity|].
  split.
  - apply py_eq_str_inv.
  - intros ->. apply py_eq_str_refl.
Qed.

Section WithConst.
Variable ENGAGED : string.

(** X22: a refresh of the cable lock never leaves the lock state
    unknown.  Over a snapshot that is a mapping it succeeds without any
    effect on the outside world and sets the state to a boolean, which is
    [True] exactly when the snapshot holds the engaged state under the
    latch key; a snapshot without a latch value shows the cable as
    unlocked. *)
Theorem cable_refresh_is_boolean
  (w : env) (s : entity) (l : log) (d : pydict) :
  coordinator_data s = PDict d ->
  exists b,
    CableLock._async_update_attrs ENGAGED w s l
    = (Ret tt, set_is_locked (PBool b) s, l) /\
    (b = true <->
     dict_lookup d (PStr CableLock.key) = Some (PStr ENGAGED)).
Proof.
  intros Hd. destruct s as [cd sc il]. simpl in Hd. subst cd.
  exists (py_eq (dict_get d CableLock.key PNone) (PStr ENGAGED)).
  split.
  - unfold CableLock._async_update_attrs, CableLock._value.
    unfold_service. cbn -[dict_get].
    destruct (is_none (dict_get d CableLock.key PNone)); reflexivity.
  - unfold dict_get.
    destruct (dict_lookup d (PStr CableLock.key)) as [v|]; split.
    + intros H. apply py_eq_str_inv in H. now subst.
    + intros H. injection H as ->. apply py_eq_str_refl.
    + discriminate.
    + discriminate.
Qed.

End WithConst.

(** X23: the cable lock cannot be locked by a service call.  [async_lock]
    always raises the validation error, whatever the scope, and touches
    neither the vehicle nor the entity; [async_unlock] opens the charge
    port door, and ends as every guarded command does. *)
Theorem cable_lock_commands
  (w : env) (s : entity) (l : log) (kwargs : pydict) :
  CableLock.async_lock kwargs w s l
  = (Raise (ServiceValidationError "Insert cable to lock"), s, l) /\
  guarded_outcome scoped charge_port_door_open (set_is_locked (PBool false))
    s l (CableLock.async_unlock kwargs w s l).
Proof.
  split; [reflexivity|apply guarded_cases].
Qed.

(** X24: the speed limit needs a code.  Without a code among the keyword
    arguments, or with an empty one, locking and unlocking return at once:
    no scope check, no wake-up, no command, no state write, the entity as
    it was.  With a code, the call is a guarded command that activates
    (deactivates) the speed limit with that very code. *)
Theorem speed_limit_needs_code
  (w : env) (s : entity) (l : log) (kwargs : pydict) :
  let code := dict_get kwargs ATTR_CODE PNone in
  if py_truthy code then
    guarded_outcome scoped (speed_limit_activate code)
      (set_is_locked (PBool true)) s l (SpeedLimit.async_lock kwargs w s l) /\
    guarded_outcome scoped (speed_limit_deactivate code)
      (set_is_locked (PBool false)) s l (SpeedLimit.async_unlock kwargs w s l)
  else
    SpeedLimit.async_lock kwargs w s l = (Ret tt, s, l) /\
    SpeedLimit.async_unlock kwargs w s l = (Ret tt, s, l).
Proof.
  unfold SpeedLimit.async_lock, SpeedLimit.async_unlock. cbv zeta.
  destruct (py_truthy (dict_get kwargs ATTR_CODE PNone)).
  - split; apply guarded_cases.
  - split; reflexivity.
Qed.

(** X25: lock, then unlock.  With the scope held and a vehicle that wakes
    up and accepts both commands, locking and then unlocking the doors
    leaves the entity unlocked, with the two commands sent in that order
    and the state written after each. *)
Theorem lock_then_unlock
  (w : env) (s : entity) (l : log) (kwargs kwargs' : pydict) :
  scoped s = true ->
  (forall l', wake_reply w l' = None) ->
  (forall l' c, command_reply w l' c = None) ->
  let locked := VehicleLock.async_lock kwargs w s l in
  let unlocked :=
    VehicleLock.async_unlock kwargs' w (snd (fst locked)) (snd locked) in
  _attr_is_locked (snd (fst locked)) = PBool true /\
  unlocked
  = (Ret tt, set_is_locked (PBool false) s,
     l ++ [EvWakeUp; EvCommand door_lock; EvWriteState;
           EvWakeUp; EvCommand door_unlock; EvWriteState]).
Proof.
  intros Hs Hw Hc. destruct s as [cd sc il]. simpl in Hs. subst sc.
  unfold VehicleLock.async_lock, VehicleLock.async_unlock.
  unfold_service. cbn. rewrite !Hw, !Hc. cbn. rewrite !Hw, !Hc. cbn.
  split; [reflexivity|]. now rewrite <- !app_assoc.
Qed.

(** A vehicle lock that holds the scope. *)
Definition car : entity := mkEntity PNone true PNone.

Lemma lock_then_unlock_witness :
  _attr_is_locked (snd (fst (VehicleLock.async_lock [] willing car [])))
  = PBool true /\
  VehicleLock.async_unlock [] willing
    (snd (fst (VehicleLock.async_lock [] willing car [])))
    (snd (VehicleLock.async_lock [] willing car []))
  = (Ret tt, set_is_locked (PBool false) car,
     [] ++ [EvWakeUp; EvCommand door_lock; EvWriteState;
            EvWakeUp; EvCommand door_unlock; EvWriteState]).
Proof.
  exact (lock_then_unlock willing car [] [] []
           eq_refl (fun _ => eq_refl) (fun _ _ => eq_refl)).
Defined.

Lemma cable_refresh_is_boolean_witness :
  exists b,
    CableLock._async_update_attrs "Engaged" willing
      (mkEntity (PDict []) true PNone) []
    = (Ret tt, set_is_locked (PBool b) (mkEntity (PDict []) true PNone), []) /\
    (b = true <->
     dict_lookup [] (PStr CableLock.key) = Some (PStr "Engaged")).
Proof.
  exact (cable_refresh_is_boolean "Engaged" willing
           (mkEntity (PDict []) true PNone) [] [] eq_refl).
Defined.

End LockFacts.

Module ClimateModesFacts.
Import Service ServiceFacts ClimateModes.
Module Climate := TeslemetryClimateEntity.

(** A found index is within the list and names a member equal to the
    value looked for; the members before it differ. *)
Lemma index_spec (modes : list string) (x : pyval) (i : nat) :
  index modes x = Ret i ->
  (i < List.length modes)%nat /\ x = item modes i.
Proof.
  revert i. induction modes as [|m modes IH]; intros i; simpl;
    [discriminate|].
  destruct (py_eq (PStr m) x) eqn:E.
  - intros H. injection H as <-. split; [lia|].
    unfold item. simpl.
    destruct x; unfold py_eq in E; simpl in E; try discriminate.
    apply String.eqb_eq in E. now subst.
  - destruct (index modes x) as [j|] eqn:Ej; simpl; [|discriminate].
    intros H. injection H as <-.
    destruct (IH j eq_refl) as [Hl Hx]. split; [lia|exact Hx].
Qed.

Lemma index_first (modes : list string) (x : pyval) :
  index modes x = Ret O <-> py_eq x (item modes 0) = true /\ modes <> [].
Proof.
  destruct modes as [|m modes]; simpl.
  - split; [discriminate|intros [_ H]; now elim H].
  - unfold item. simpl. split.
    + destruct (py_eq (PStr m) x) eqn:E.
      * intros _. split; [|discriminate].
        destruct x; unfold py_eq in E; simpl in E; try discriminate.
        apply String.eqb_eq in E. subst. apply py_eq_str_refl.
      * destruct (index modes x); simpl; discriminate.
    + intros [H _]. apply py_eq_str_inv in H. subst x.
      now rewrite py_eq_str_refl.
Qed.

Lemma index_none (modes : list string) (x : pyval) (e : exn) :
  index modes x = Raise e -> e = OtherError "ValueError".
Proof.
  induction modes as [|m modes IH]; simpl.
  - intros H. now injection H as <-.
  - destruct (py_eq (PStr m) x); [discriminate|].
    destruct (index modes x); simpl; [discriminate|exact IH].
Qed.

(** The attributes after a preset mode was set. *)
Definition preset_set (preset_mode : pyval) (i : nat)
  (s : Climate.entity) : Climate.entity :=
  Climate.set_hvac_mode
    (match i with O => HVACMode.OFF | _ => HVACMode.HEAT_COOL end)
    (Climate.set_preset_mode preset_mode s).

(** X26: setting a preset mode.  A preset that is one of off, keep, dog
    and camp is sent as its position in that list, and the call is a
    guarded command after which the preset is the one asked for and the
    HVAC mode is [OFF] exactly for the first preset, [HEAT_COOL] for the
    others.  Any other preset raises [ValueError], and it does so after
    the scope check and the wake-up: with the scope held the vehicle is
    woken although no command follows. *)
Theorem preset_mode_command
  (w : env) (s : Climate.entity) (l : log) (preset_mode : pyval) :
  match index Climate._attr_preset_modes preset_mode with
  | Ret i =>
      (i < 4)%nat /\
      preset_mode = item Climate._attr_preset_modes i /\
      guarded_outcome Climate.scoped (set_climate_keeper_mode i)
        (preset_set preset_mode i) s l
        (async_set_preset_mode preset_mode w s l)
  | Raise _ =>
      Climate.scoped s = true ->
      wake_reply w l = None ->
      async_set_preset_mode preset_mode w s l
      = (Raise (OtherError "ValueError"), s, l ++ [EvWakeUp])
  end.
Proof.
  destruct (index Climate._attr_preset_modes preset_mode) as [i|e] eqn:E.
  - destruct (index_spec _ _ _ E) as [Hi Hx].
    split; [exact Hi|]. split; [exact Hx|].
    assert (Hfirst :
              py_eq preset_mode (item Climate._attr_preset_modes 0)
              = match i with O => true | _ => false end).
    { destruct i.
      - now apply index_first in E.
      - destruct (py_eq preset_mode (item Climate._attr_preset_modes 0))
          eqn:E0; [|reflexivity].
        assert (H0 : index Climate._attr_preset_modes preset_mode = Ret O)
          by (apply index_first; split; [exact E0|discriminate]).
        congruence. }
    pose proof (guarded_cases Climate.scoped (set_climate_keeper_mode i)
                  (preset_set preset_mode i) w s l) as G.
    unfold guarded_outcome, guarded in *.
    unfold async_set_preset_mode. revert G. unfold_service.
    rewrite E, Hfirst.
    destruct (Climate.scoped s); cbn; [|auto].
    destruct (wake_reply w l); cbn; [auto|].
    destruct (command_reply w (l ++ [EvWakeUp]) (set_climate_keeper_mode i));
      cbn; [auto|].
    unfold preset_set. destruct i; cbn; auto.
  - intros Hs Hw. apply index_none in E as He. subst e.
    unfold async_set_preset_mode. unfold_service.
    rewrite E, Hs. cbn. now rewrite Hw.
Qed.

(** The attributes after a fan mode was set. *)
Definition fan_set (fan_mode : pyval) (s : Climate.entity) : Climate.entity :=
  if py_eq fan_mode (PStr "bioweapon")
  then Climate.set_hvac_mode HVACMode.HEAT_COOL (Climate.set_fan_mode fan_mode s)
  else Climate.set_fan_mode fan_mode s.

(** X27: setting the fan mode.  The fan mode is not checked against the
    offered ones: the call is a guarded command that turns bioweapon
    defense on, with manual override, for every value other than
    ["off"], and records the value as the fan mode.  The HVAC mode
    becomes [HEAT_COOL] for ["bioweapon"] and is left as it was for any
    other value, ["off"] included. *)
Theorem fan_mode_command
  (w : env) (s : Climate.entity) (l : log) (fan_mode : pyval) :
  guarded_outcome Climate.scoped
    (set_bioweapon_mode (negb (py_eq fan_mode (PStr "off"))) true)
    (fan_set fan_mode) s l
    (async_set_fan_mode fan_mode w s l) /\
  (py_eq fan_mode (PStr "bioweapon") = false ->
   Climate._attr_hvac_mode (fan_set fan_mode s) = Climate._attr_hvac_mode s).
Proof.
  split.
  - pose proof (guarded_cases Climate.scoped
                  (set_bioweapon_mode (negb (py_eq fan_mode (PStr "off"))) true)
                  (fan_set fan_mode) w s l) as G.
    unfold guarded_outcome, guarded in *.
    unfold async_set_fan_mode. revert G. unfold_service.
    unfold item, fan_set. cbn [nth Climate._attr_fan_modes].
    destruct (Climate.scoped s); cbn; [|auto].
    destruct (wake_reply w l); cbn; [auto|].
    destruct (command_reply w (l ++ [EvWakeUp]) _); cbn; [auto|].
    destruct (py_eq fan_mode (PStr "bioweapon")); cbn; auto.
  - intros H. unfold fan_set. rewrite H. reflexivity.
Qed.

Lemma preset_mode_command_witness :
  async_set_preset_mode (PStr "party") willing Sample.climate_entity []
  = (Raise (OtherError "ValueError"), Sample.climate_entity, [EvWakeUp]).
Proof.
  exact (preset_mode_command willing Sample.climate_entity [] (PStr "party")
           eq_refl eq_refl).
Defined.

Lemma fan_mode_command_witness :
  Climate._attr_hvac_mode (fan_set (PStr "off") Sample.climate_entity)
  = Climate._attr_hvac_mode Sample.climate_entity.
Proof.
  exact (proj2 (fan_mode_command willing Sample.climate_entity [] (PStr "off"))
           eq_refl).
Defined.

End ClimateModesFacts.

(* ================================================================== *)
(** * More on models.py *)
(* ================================================================== *)

Module ModelsMore.
Import Models.

(** The fields of [TeslemetryVehicleData] that have no default. *)
Definition required : list string :=
  ["api"; "coordinator"; "stream"; "vin"; "device"].

(** The class as it is after the import, whose two readings of the clock
    were [alert_time] and [error_time]. *)
Definition TeslemetryVehicleData (alert_time error_time : string) (h : store)
  : class :=
  fst (define_TeslemetryVehicleData alert_time error_time h).

(** X28: construction of the vehicle record.  Whenever an instance is
    built, every field without a default was given; each field of the
    instance is the argument given for it, and otherwise the default of
    the class.  The default of [last_alert] and the default of
    [last_error] are the two times read when the module was imported,
    each the same for every instance whenever it is built. *)
Theorem defaults_are_import_time
  (alert_time error_time : string) (h : store)
  (args : list (string * value)) (o : instance) :
  let cls := TeslemetryVehicleData alert_time error_time h in
  new cls args = Some o ->
  (forall n, In n required -> assoc n args <> None) /\
  (forall n, In n (map fst (fields cls)) ->
             getattr o n
             = match assoc n args with
               | Some v => Some v
               | None => assoc n (attributes cls)
               end) /\
  assoc "last_alert" (attributes cls) = Some (VStr alert_time) /\
  assoc "last_error" (attributes cls) = Some (VStr error_time).
Proof.
  unfold TeslemetryVehicleData, define_TeslemetryVehicleData, new.
  cbn -[assoc].
  destruct (assoc "api" args) eqn:E1; [|discriminate].
  destruct (assoc "coordinator" args) eqn:E2; [|discriminate].
  destruct (assoc "stream" args) eqn:E3; [|discriminate].
  destruct (assoc "vin" args) eqn:E4; [|discriminate].
  destruct (assoc "device" args) eqn:E5; [|discriminate].
  destruct (assoc "last_alert" args) eqn:E6;
    destruct (assoc "last_error" args) eqn:E7;
    destruct (assoc "remove_listeners" args) eqn:E8;
    intros H; injection H as <-;
    (split; [|split; [|split; reflexivity]]);
    try (intros n [<-|[<-|[<-|[<-|[<-|[]]]]]]; congruence);
    intros n [<-|[<-|[<-|[<-|[<-|[<-|[<-|[<-|[]]]]]]]]];
    unfold getattr; cbn -[assoc];
    rewrite ?E1, ?E2, ?E3, ?E4, ?E5, ?E6, ?E7, ?E8; reflexivity.
Qed.

(** The arguments every construction needs. *)
Definition minimal : list (string * value) :=
  [("api", VObject "api"); ("coordinator", VObject "coordinator");
   ("stream", VObject "stream"); ("vin", VStr "5YJ3");
   ("device", VObject "device")].

Lemma defaults_are_import_time_witness :
  exists o,
    new (TeslemetryVehicleData
           "2024-05-01T08:00:00.000120" "2024-05-01T08:00:00.000131"
           (mkStore [])) minimal
    = Some o /\
    getattr o "last_alert" = Some (VStr "2024-05-01T08:00:00.000120") /\
    getattr o "last_error" = Some (VStr "2024-05-01T08:00:00.000131").
Proof.
  eexists. split; [reflexivity|].
  pose proof (proj1 (proj2 (defaults_are_import_time
                              "2024-05-01T08:00:00.000120"
                              "2024-05-01T08:00:00.000131"
                              (mkStore []) minimal _ eq_refl))) as H.
  split.
  - exact (H "last_alert" (or_intror (or_intror (or_intror (or_intror
              (or_intror (or_introl eq_refl))))))).
  - exact (H "last_error" (or_intror (or_intror (or_intror (or_intror
              (or_intror (or_intror (or_introl eq_refl)))))))).
Defined.

End ModelsMore.
